(** * avocado.utils.partition: a shallow embedding and its verified properties

    The module drives external commands (mount, umount, mkfs, losetup, lsof,
    kill), reads the mount tables and serialises itself on a file lock.  It
    is embedded as a state-and-exception monad over an explicit [State]
    (the [Partition] object, the lock, the log of every interaction with the
    operating system) and an [Env], the oracle that answers each interaction.
    Every method of [partition.py] is transcribed statement by statement. *)

From Stdlib Require Import String Ascii List ZArith Bool Lia DecimalString.
Import ListNotations.
Open Scope string_scope.

(** ** Python strings *)

Module PyStr.

(** [str.isspace] on the ASCII range: TAB..CR, FS..US and the blank.  Bytes
    above 127 stand for pieces of non-ASCII characters. *)
Definition is_space (c : ascii) : bool :=
  let n := nat_of_ascii c in
  ((9 <=? n) && (n <=? 13) || (28 <=? n) && (n <=? 32))%nat.

(** Whitespace of [bytes.split]: TAB..CR and the blank. *)
Definition is_bspace (c : ascii) : bool :=
  let n := nat_of_ascii c in
  ((9 <=? n) && (n <=? 13) || (n =? 32))%nat.

(** Line boundaries of [str.splitlines] (ASCII part): LF, VT, FF, CR, FS, GS, RS. *)
Definition is_linebreak (c : ascii) : bool :=
  let n := nat_of_ascii c in
  ((10 <=? n) && (n <=? 13) || (28 <=? n) && (n <=? 30))%nat.

(** Line boundaries of [bytes.splitlines]: LF and CR. *)
Definition is_blinebreak (c : ascii) : bool :=
  let n := nat_of_ascii c in
  ((n =? 10) || (n =? 13))%nat.

Definition CR : ascii := ascii_of_nat 13.
Definition LF : ascii := ascii_of_nat 10.

Section Splitting.
Variable sp : ascii -> bool.

(** [s.split()]: the maximal runs of non-blank characters, in order. *)
Fixpoint split_by (s : string) : list string :=
  match s with
  | EmptyString => []
  | String c s' =>
      if sp c then split_by s'
      else match s' with
           | EmptyString => [String c EmptyString]
           | String c' _ =>
               if sp c' then String c EmptyString :: split_by s'
               else match split_by s' with
                    | w :: ws => String c w :: ws
                    | [] => [String c EmptyString]
                    end
           end
  end.

(** [s.splitlines()]: a CR immediately followed by LF is one boundary. *)
Fixpoint splitlines_by (s : string) : list string :=
  match s with
  | EmptyString => []
  | String c s' =>
      if sp c then
        EmptyString ::
          match s' with
          | String c' s'' =>
              if Ascii.eqb c CR && Ascii.eqb c' LF then splitlines_by s''
              else splitlines_by s'
          | EmptyString => []
          end
      else match splitlines_by s' with
           | l :: ls => String c l :: ls
           | [] => [String c EmptyString]
           end
  end.

Fixpoint lstrip_by (s : string) : string :=
  match s with
  | EmptyString => EmptyString
  | String c s' => if sp c then lstrip_by s' else s
  end.

Fixpoint rstrip_by (s : string) : string :=
  match s with
  | EmptyString => EmptyString
  | String c s' =>
      match rstrip_by s' with
      | EmptyString => if sp c then EmptyString else String c EmptyString
      | r => String c r
      end
  end.

End Splitting.

Definition split : string -> list string := split_by is_space.
Definition bsplit : string -> list string := split_by is_bspace.
Definition splitlines : string -> list string := splitlines_by is_linebreak.
Definition bsplitlines : string -> list string := splitlines_by is_blinebreak.
Definition lstrip : string -> string := lstrip_by is_space.
Definition rstrip : string -> string := rstrip_by is_space.
Definition strip (s : string) : string := rstrip (lstrip s).

(** [s.rstrip(b"\n\r")] *)
Definition rstrip_newlines : string -> string := rstrip_by is_blinebreak.

(** [s[:-1]] when [s] ends with a line feed, else [s]. *)
Fixpoint drop_final_LF (s : string) : string :=
  match s with
  | EmptyString => EmptyString
  | String c EmptyString => if Ascii.eqb c LF then EmptyString else s
  | String c s' => String c (drop_final_LF s')
  end.

(** [s.startswith(pre)] *)
Definition startswith (s pre : string) : bool := String.prefix pre s.

(** [sub in s] *)
Fixpoint contains (sub s : string) : bool :=
  String.prefix sub s ||
  match s with
  | EmptyString => false
  | String _ s' => contains sub s'
  end.

(** Truth value of a string, and of a value that is a string or [None]. *)
Definition truthy (s : string) : bool := negb (s =? "").
Definition truthy_opt (o : option string) : bool :=
  match o with
  | Some s => truthy s
  | None => false
  end.

(** [x == y] where [y] may be [None]. *)
Definition eq_opt (x y : option string) : bool :=
  match x, y with
  | Some a, Some b => a =? b
  | None, None => true
  | _, _ => false
  end.

(** [str(n)] for an integer. *)
Definition str_of_Z (n : Z) : string := NilZero.string_of_int (Z.to_int n).

Definition digit_of (c : ascii) : option Z :=
  let n := nat_of_ascii c in
  if ((48 <=? n) && (n <=? 57))%nat then Some (Z.of_nat n - 48)%Z else None.

(** Digits with single underscores between them, as [int()] reads them. *)
Fixpoint int_digits (acc : Z) (after_digit : bool) (s : string) : option Z :=
  match s with
  | EmptyString => if after_digit then Some acc else None
  | String c s' =>
      match digit_of c with
      | Some d => int_digits (10 * acc + d)%Z true s'
      | None =>
          if Ascii.eqb c "_"%char && after_digit then int_digits acc false s'
          else None
      end
  end.

(** [int(tok)] on a token without blanks; [None] is [ValueError]. *)
Definition int_of (tok : string) : option Z :=
  match tok with
  | String "-"%char r => option_map Z.opp (int_digits 0 false r)
  | String "+"%char r => int_digits 0 false r
  | _ => int_digits 0 false tok
  end.

End PyStr.
Import PyStr.

(** ** The operating system, as the module sees it *)

(** What running a command line gives: it exited with a status and an
    output, or it could not be started ([OSError]). *)
Inductive Outcome :=
| Exited (status : Z) (stdout : string)
| NotStarted.

(** What [FileLock.__enter__] gives. *)
Inductive LockOutcome :=
| Acquired
| NotAcquired
| HeldAlready.

(** One interaction with the operating system. *)
Inductive Event :=
| ERun (cmd : string) (sudo : bool) (o : Outcome)
| EOpen (path : string) (ok : bool)
| EIsdir (path : string) (found : bool)
| EMakedirs (path : string) (ok : bool)
| ELock (o : LockOutcome)
| EUnlock.

(** The environment answers each interaction, knowing everything that
    happened before it. *)
Record Env := mkEnv {
  spawn : list Event -> string -> bool -> Outcome;
  file_lines : list Event -> string -> option (list string);
  realpath : string -> string;
  isdir : list Event -> string -> bool;
  makedirs : list Event -> string -> bool;
  lock_enter : list Event -> LockOutcome
}.

(** ** Exceptions *)

(** What the collaborators raise: the command runner's [CmdError] (the
    command line, its exit status and output), [OSError], and the file
    lock's [LockFailed] and [AlreadyLocked]. *)
Inductive Cause :=
| CmdError (cmd : string) (status : Z) (stdout : string)
| OSError
| LockFailed
| AlreadyLocked.

(** [PartitionError(partition, reason, details)] keeps its reason and its
    cause apart; the partition is the one of the state it is raised in.
    [Foreign] is an exception of a collaborator that nothing caught. *)
Inductive Exn :=
| PartitionError (reason : string) (details : option Cause)
| Foreign (c : Cause)
| IndexError
| ValueError.

Inductive Result (A : Type) :=
| Ok (a : A)
| Raise (e : Exn).
Arguments Ok {A} a.
Arguments Raise {A} e.

(** ** State *)

Record Partition := mkPartition {
  device : string;
  loop : Z;
  fstype : option string;
  mountpoint : option string;
  mkfs_flags : string;
  mount_options : option string
}.

Record State := mkState {
  self : Partition;
  trace : list Event;
  lock_held : bool;
  mtab_open : bool
}.

Definition log (e : Event) (st : State) : State :=
  mkState (self st) (trace st ++ [e]) (lock_held st) (mtab_open st).

Definition with_self (p : Partition) (st : State) : State :=
  mkState p (trace st) (lock_held st) (mtab_open st).

Definition with_lock (b : bool) (st : State) : State :=
  mkState (self st) (trace st) b (mtab_open st).

Definition with_mtab (b : bool) (st : State) : State :=
  mkState (self st) (trace st) (lock_held st) b.

(** ** The monad of methods: state and exceptions *)

Definition M (A : Type) : Type := State -> Result A * State.

Definition ret {A} (a : A) : M A := fun st => (Ok a, st).

Definition raise {A} (e : Exn) : M A := fun st => (Raise e, st).

Definition bind {A B} (m : M A) (k : A -> M B) : M B :=
  fun st =>
    match m st with
    | (Ok a, st') => k a st'
    | (Raise e, st') => (Raise e, st')
    end.

Notation "x <- m ;; k" := (bind m (fun x => k))
  (at level 61, m at next level, right associativity).
Notation "m ;;; k" := (bind m (fun _ => k))
  (at level 61, right associativity).

(** [try: body except ...: handler]: the first clause that matches the
    exception runs, outside the [try]. *)
Definition try_except {A} (body : M A) (handler : Exn -> option (M A)) : M A :=
  fun st =>
    match body st with
    | (Raise e, st') =>
        match handler e with
        | Some k => k st'
        | None => (Raise e, st')
        end
    | r => r
    end.

Definition except_CmdError {A} (k : Cause -> M A) (e : Exn) : option (M A) :=
  match e with
  | Foreign (CmdError c s o) => Some (k (CmdError c s o))
  | _ => None
  end.

Definition except_OSError {A} (k : Cause -> M A) (e : Exn) : option (M A) :=
  match e with
  | Foreign OSError => Some (k OSError)
  | _ => None
  end.

Definition get_self : M Partition := fun st => (Ok (self st), st).

Definition with_fstype (f : option string) (p : Partition) : Partition :=
  mkPartition (device p) (loop p) f (mountpoint p) (mkfs_flags p) (mount_options p).

Definition with_device (d : string) (p : Partition) : Partition :=
  mkPartition d (loop p) (fstype p) (mountpoint p) (mkfs_flags p) (mount_options p).

(** [self.fstype = f] *)
Definition set_fstype (f : option string) : M unit :=
  fun st => (Ok tt, with_self (with_fstype f (self st)) st).

(** [self.device = d] *)
Definition set_device (d : string) : M unit :=
  fun st => (Ok tt, with_self (with_device d (self st)) st).

(** [for x in xs: f(x)] *)
Fixpoint for_each {A} (xs : list A) (f : A -> M unit) : M unit :=
  match xs with
  | [] => ret tt
  | x :: xs' => f x ;;; for_each xs' f
  end.

(** A list comprehension whose element expression may raise. *)
Fixpoint comprehension {A B} (f : A -> Result B) (xs : list A) : Result (list B) :=
  match xs with
  | [] => Ok []
  | x :: xs' =>
      match f x with
      | Raise e => Raise e
      | Ok b =>
          match comprehension f xs' with
          | Raise e => Raise e
          | Ok bs => Ok (b :: bs)
          end
      end
  end.

Definition lift {A} (r : Result A) : M A := fun st => (r, st).

(** [seq[i]] *)
Definition getitem {A} (l : list A) (i : nat) : Result A :=
  match nth_error l i with
  | Some a => Ok a
  | None => Raise IndexError
  end.

(** [x in l] for strings. *)
Definition mem (x : string) (l : list string) : bool := existsb (String.eqb x) l.

(** How the body of a [with] block ends when it does not raise: by a
    [return] or by reaching its last statement. *)
Inductive Flow :=
| Return (v : Z)
| Next (result : Z).

(** ** The methods *)

Section Methods.
Variable env : Env.

(** *** Collaborators that are not part of this module *)

Record CmdResult := mkCmdResult {
  exit_status : Z;
  stdout_text : string
}.

(** Modelled from the spec: the Command Runner ([avocado.utils.process],
    outside this module).  It runs a command line, optionally with elevated
    privileges, and returns the exit status and the captured output; it
    fails with a command error carrying both on a non-zero exit, except
    where the caller tolerates non-zero.  A command that cannot be started
    is the [OSError] that [_get_pids_on_mountpoint] handles. *)
Definition process_run (cmd : string) (ignore_status sudo : bool) : M CmdResult :=
  fun st =>
    let o := spawn env (trace st) cmd sudo in
    let st' := log (ERun cmd sudo o) st in
    match o with
    | NotStarted => (Raise (Foreign OSError), st')
    | Exited s out =>
        if (s =? 0)%Z || ignore_status then (Ok (mkCmdResult s out), st')
        else (Raise (Foreign (CmdError cmd s out)), st')
    end.

(** [process.system]: the exit status. *)
Definition process_system (cmd : string) (ignore_status sudo : bool) : M Z :=
  r <- process_run cmd ignore_status sudo ;; ret (exit_status r).

(** Modelled from the spec: [process.system_output] of the Command Runner
    (outside this module), the captured output of a command that exited
    with status 0.  As the library function does by default, it returns
    the output without the line feeds and carriage returns that end it. *)
Definition process_system_output (cmd : string) (sudo : bool) : M string :=
  r <- process_run cmd false sudo ;; ret (rstrip_newlines (stdout_text r)).

(** Modelled from the spec: [process.getoutput] of the Command Runner
    (outside this module), the captured output whatever the exit status.
    As the library function does, it returns the output without its final
    line feed, when it ends with one. *)
Definition process_getoutput (cmd : string) : M string :=
  r <- process_run cmd true false ;; ret (drop_final_LF (stdout_text r)).

(** [open(path)] and the lines the file yields when iterated. *)
Definition open_lines (path : string) : M (list string) :=
  fun st =>
    match file_lines env (trace st) path with
    | Some ls => (Ok ls, log (EOpen path true) st)
    | None => (Raise (Foreign OSError), log (EOpen path false) st)
    end.

(** [os.path.isdir(path)] *)
Definition os_path_isdir (path : string) : M bool :=
  fun st =>
    let b := isdir env (trace st) path in
    (Ok b, log (EIsdir path b) st).

(** [os.makedirs(path)], which raises [OSError] when it cannot create it. *)
Definition os_makedirs (path : string) : M unit :=
  fun st =>
    let ok := makedirs env (trace st) path in
    (if ok then Ok tt else Raise (Foreign OSError), log (EMakedirs path ok) st).

(** Modelled from the spec: the Named Mutual-Exclusion Lock
    ([avocado.utils.filelock.FileLock], outside this module).  Entering
    ([FileLock.__enter__]) acquires the lock within the timeout or fails. *)
Definition FileLock_enter : M unit :=
  fun st =>
    let o := lock_enter env (trace st) in
    let st' := log (ELock o) st in
    match o with
    | Acquired => (Ok tt, with_lock true st')
    | NotAcquired => (Raise (Foreign LockFailed), st')
    | HeldAlready => (Raise (Foreign AlreadyLocked), st')
    end.

(** Modelled from the spec: leaving the Named Mutual-Exclusion Lock
    ([FileLock.__exit__]) releases it. *)
Definition FileLock_exit : M unit :=
  fun st => (Ok tt, with_lock false (log EUnlock st)).

(** *** MtabLock *)

Definition MtabLock_device : string := "/etc/mtab".
Definition MtabLock_timeout : Z := 60.

(** [MtabLock.__enter__] *)
Definition MtabLock_enter : M unit :=
  try_except FileLock_enter
    (fun e =>
       match e with
       | Foreign LockFailed | Foreign AlreadyLocked =>
           Some (raise (PartitionError
                          ("Unable to obtain '" ++ MtabLock_device ++ "' lock in "
                             ++ str_of_Z MtabLock_timeout ++ "s")
                          (match e with Foreign c => Some c | _ => None end)))
       | _ => None
       end) ;;;
  open_lines MtabLock_device ;;;
  fun st => (Ok tt, with_mtab true st).

(** [MtabLock.__exit__] *)
Definition MtabLock_exit : M unit :=
  (fun st => if mtab_open st then (Ok tt, with_mtab false st) else (Ok tt, st)) ;;;
  FileLock_exit.

(** [with MtabLock(): body].  When [__enter__] raises, the block is not
    entered and [__exit__] is not called; once entered, [__exit__] runs
    however the body ends, and lets an exception of the body through. *)
Definition with_MtabLock {A} (body : M A) : M A :=
  fun st =>
    match MtabLock_enter st with
    | (Raise e, st1) => (Raise e, st1)
    | (Ok _, st1) =>
        let (r, st2) := body st1 in
        let (_, st3) := MtabLock_exit st2 in
        (r, st3)
    end.

(** *** Partition *)

(** [Partition.__init__] *)
Definition Partition_init (dev : string) (loop_size : Z) (mnt : option string)
    (flags : string) (options : option string) : M unit :=
  (fun st => (Ok tt, with_self (mkPartition dev loop_size None mnt flags options) st)) ;;;
  if (loop_size =? 0)%Z then ret tt
  else process_run ("dd if=/dev/zero of=" ++ dev ++ " bs=1M count=" ++ str_of_Z loop_size)
                   false false ;;; ret tt.

(** [Partition.list_mount_devices] *)
Definition list_mount_devices : M (list string) :=
  out <- process_getoutput "mount" ;;
  devices <- lift (comprehension (fun line => getitem (split line) 0) (splitlines out)) ;;
  swaps_out <- process_getoutput "swapon -s" ;;
  let swaps := splitlines swaps_out in
  more <- lift (comprehension (fun line => getitem (split line) 0)
                  (filter (fun line => startswith line "/") swaps)) ;;
  ret (devices ++ more)%list.

(** [Partition.list_mount_points] *)
Definition list_mount_points : M (list string) :=
  out <- process_getoutput "mount" ;;
  lift (comprehension (fun line => getitem (split line) 2) (splitlines out)).

(** One turn of the loop of [get_mountpoint]: [Ok (Some m)] is [return m],
    [Ok None] goes on to the next line. *)
Definition get_mountpoint_line (p : Partition) (line : string) : Result (option string) :=
  let parts := split line in
  match getitem parts 0 with
  | Raise e => Raise e
  | Ok p0 =>
      if (p0 =? device p) || (realpath env p0 =? realpath env (device p)) then
        match getitem parts 1 with
        | Raise e => Raise e
        | Ok p1 => if eq_opt (Some p1) (mountpoint p) then Ok (Some p1) else Ok None
        end
      else Ok None
  end.

Fixpoint get_mountpoint_scan (p : Partition) (lines : list string) : Result (option string) :=
  match lines with
  | [] => Ok None
  | line :: rest =>
      match get_mountpoint_line p line with
      | Raise e => Raise e
      | Ok (Some m) => Ok (Some m)
      | Ok None => get_mountpoint_scan p rest
      end
  end.

(** [get_mountpoint(filename)] for a given file. *)
Definition get_mountpoint_in (filename : string) : M (option string) :=
  lines <- open_lines filename ;;
  p <- get_self ;;
  lift (get_mountpoint_scan p lines).

(** The search of [get_mountpoint] when no file is given: /proc/mounts,
    then /etc/mtab, whose answer counts only when it is the root. *)
Definition get_mountpoint_default : M (option string) :=
  res <- get_mountpoint_in "/proc/mounts" ;;
  if negb (truthy_opt res) then
    res <- get_mountpoint_in "/etc/mtab" ;;
    if negb (eq_opt res (Some "/")) then ret None else ret res
  else ret res.

(** [Partition.get_mountpoint] *)
Definition get_mountpoint (filename : option string) : M (option string) :=
  match filename with
  | Some f => if truthy f then get_mountpoint_in f else get_mountpoint_default
  | None => get_mountpoint_default
  end.

(** The string behind a value known to be set. *)
Definition value (o : option string) : string :=
  match o with
  | Some s => s
  | None => ""
  end.

(** The filesystem type [mkfs] settles on: the argument, else the recorded
    one, else ext2. *)
Definition mkfs_fstype (p : Partition) (arg : option string) : string :=
  if truthy_opt arg then value arg
  else if truthy_opt (fstype p) then value (fstype p)
  else "ext2".

(** The local [args] of [mkfs] once the flags of the partition and the
    force flags are appended. *)
Definition mkfs_options (p : Partition) (ft args : string) : string :=
  let args := if truthy (mkfs_flags p) then args ++ " " ++ mkfs_flags p else args in
  let args := if mem ft ["xfs"; "btrfs"] then args ++ " -f" else args in
  if negb (loop p =? 0)%Z then
    if startswith ft "ext" then args ++ " -F"
    else if ft =? "reiserfs" then args ++ " -f"
    else args
  else args.

(** The local [args] of [mkfs] when the command line is built. *)
Definition mkfs_args (p : Partition) (ft args : string) : string :=
  let args := mkfs_options p ft args in
  let args := if negb (contains "-t" args) then "-t " ++ ft ++ " " ++ args else args in
  strip args.

Definition mkfs_cmd (p : Partition) (ft args : string) : string :=
  "mkfs " ++ mkfs_args p ft args ++ " " ++ device p.

(** [Partition.mkfs] *)
Definition mkfs (arg : option string) (args : string) : M unit :=
  devices <- list_mount_devices ;;
  p <- get_self ;;
  if mem (device p) devices then
    raise (PartitionError "Unable to format mounted device" None)
  else
    let ft := mkfs_fstype p arg in
    try_except
      (process_system_output ("yes | " ++ mkfs_cmd p ft args) false ;;; ret tt)
      (except_CmdError (fun error => raise (PartitionError "Failed to mkfs" (Some error)))) ;;;
    set_fstype (Some ft).

(** The local [args] of [mount] when the command line is built. *)
Definition mount_args (p : Partition) (ft : option string) (args : string) : string :=
  let args :=
    if truthy_opt (mount_options p) then args ++ " -o " ++ value (mount_options p)
    else args in
  let args := if truthy_opt ft then args ++ " -t " ++ value ft else args in
  lstrip args.

(** The checks of [mount] under [mnt_check]. *)
Definition mount_checks (mnt : string) : M unit :=
  devices <- list_mount_devices ;;
  p <- get_self ;;
  if mem (device p) devices then
    raise (PartitionError "Attempted to mount mounted device" None)
  else
    points <- list_mount_points ;;
    if mem mnt points then
      raise (PartitionError "Attempted to mount busy directory" None)
    else ret tt.

(** The block of [mount] that runs under the lock. *)
Definition mount_locked (mnt args : string) (mnt_check : bool) : M unit :=
  (if mnt_check then mount_checks mnt else ret tt) ;;;
  found <- os_path_isdir mnt ;;
  (if negb found then os_makedirs mnt else ret tt) ;;;
  try_except
    (p <- get_self ;;
     (if negb (loop p =? 0)%Z then
        r <- process_run ("losetup --find --show -f " ++ device p) false true ;;
        set_device (strip (stdout_text r))
      else ret tt) ;;;
     p <- get_self ;;
     process_system ("mount " ++ args ++ " " ++ device p ++ " " ++ mnt) false true ;;;
     ret tt)
    (except_CmdError (fun details => raise (PartitionError "Mount failed" (Some details)))).

(** [Partition.mount] *)
Definition mount (mnt : option string) (arg : option string) (args : string)
    (mnt_check : bool) : M unit :=
  p <- get_self ;;
  let mnt := if negb (truthy_opt mnt) then mountpoint p else mnt in
  if negb (truthy_opt mnt) then
    raise (PartitionError
             "No mountpoint specified and no default provided to this partition object"
             None)
  else
    ft <- match arg with
          | None => ret (fstype p)
          | Some f => set_fstype (Some f) ;;; ret (Some f)
          end ;;
    let args := mount_args p ft args in
    with_MtabLock (mount_locked (value mnt) args mnt_check) ;;;
    set_fstype ft.

Definition dquote : string := String (ascii_of_nat 34) EmptyString.

(** The PID column of one line of the listing. *)
Definition pid_of_line (line : string) : Result Z :=
  match getitem (bsplit line) 1 with
  | Raise e => Raise e
  | Ok tok =>
      match int_of tok with
      | Some n => Ok n
      | None => Raise ValueError
      end
  end.

(** [Partition._get_pids_on_mountpoint] *)
Definition _get_pids_on_mountpoint (mnt : string) : M (list Z) :=
  let cmd := "lsof " ++ mnt in
  try_except
    (out <- process_system_output cmd true ;;
     lift (comprehension pid_of_line (tl (bsplitlines out))))
    (fun e =>
       match except_OSError
               (fun details =>
                  raise (PartitionError
                           ("Could not run lsof to identify processes using "
                              ++ dquote ++ mnt ++ dquote)
                           (Some details))) e with
       | Some k => Some k
       | None =>
           except_CmdError
             (fun details =>
                raise (PartitionError ("Failure executing " ++ dquote ++ cmd ++ dquote)
                                      (Some details))) e
       end).

(** The command line that signals one process. *)
Definition kill_cmd (pid : Z) : string := "kill -9 " ++ str_of_Z pid.

(** One turn of the loop of [_unmount_force]. *)
Definition kill_pid (pid : Z) : M unit :=
  try_except
    (process_system (kill_cmd pid) true true ;;; ret tt)
    (except_CmdError
       (fun kill_details =>
          raise (PartitionError "Failed to kill processes" (Some kill_details)))).

(** The two unmount attempts of [_unmount_force]. *)
Definition umount_forced (mnt : string) : M unit :=
  try_except
    (process_run ("umount -f " ++ mnt) false true ;;; ret tt)
    (except_CmdError
       (fun _ =>
          try_except
            (process_run ("umount -l " ++ mnt) false true ;;; ret tt)
            (except_CmdError
               (fun umount_details =>
                  raise (PartitionError "Force unmount failed" (Some umount_details)))))).

(** [Partition._unmount_force] *)
Definition _unmount_force (mnt : string) : M unit :=
  pids <- _get_pids_on_mountpoint mnt ;;
  for_each pids kill_pid ;;;
  umount_forced mnt.

(** The detach of the loop device that ends [unmount]. *)
Definition detach_loop : M unit :=
  p <- get_self ;;
  if negb (loop p =? 0)%Z then
    try_except
      (process_run ("losetup -d " ++ device p) false true ;;; ret tt)
      (except_CmdError
         (fun details =>
            raise (PartitionError "Unable to cleanup loop device" (Some details))))
  else ret tt.

(** The block of [unmount] that runs under the lock. *)
Definition unmount_locked (force : bool) : M Flow :=
  mnt <- get_mountpoint None ;;
  let result := 1%Z in
  if negb (truthy_opt mnt) then ret (Return result)
  else
    try_except
      (process_run ("umount " ++ value mnt) false true ;;; ret (Next 1%Z))
      (except_CmdError
         (fun details =>
            if force then _unmount_force (value mnt) ;;; ret (Next 2%Z)
            else raise (PartitionError "Unable to unmount gracefully" (Some details)))).

(** [Partition.unmount] *)
Definition unmount (force : bool) : M Z :=
  flow <- with_MtabLock (unmount_locked force) ;;
  match flow with
  | Return v => ret v
  | Next result => detach_loop ;;; ret result
  end.

End Methods.

Arguments process_run env cmd ignore_status sudo st : simpl never.

(** ** Vocabulary of the statements *)

(** The line names the partition's device: its first field is the device,
    literally or once symbolic links are resolved. *)
Definition names_device (env : Env) (p : Partition) (line : string) : bool :=
  match split line with
  | d :: _ => (d =? device p) || (realpath env d =? realpath env (device p))
  | [] => false
  end.

(** No line of the table names the device (and no line is blank). *)
Definition absent_from (env : Env) (p : Partition) (lines : list string) : Prop :=
  Forall (fun line => split line <> [] /\ names_device env p line = false) lines.

(** The device is absent from the live mount table: /proc/mounts and
    /etc/mtab can be read and neither names it, whenever they are read. *)
Definition unmounted (env : Env) (p : Partition) : Prop :=
  forall tr f, f = "/proc/mounts" \/ f = "/etc/mtab" ->
    exists lines, file_lines env tr f = Some lines /\ absent_from env p lines.

(** From [st], [MtabLock.__enter__] obtains the lock and opens the table. *)
Definition enters (env : Env) (st : State) : Prop :=
  lock_enter env (trace st) = Acquired /\
  file_lines env (trace st ++ [ELock Acquired]) MtabLock_device <> None.

(** The state in which the block of a [with MtabLock()] starts. *)
Definition entered (st : State) : State :=
  mkState (self st) (trace st ++ [ELock Acquired; EOpen MtabLock_device true]) true true.

(** The state in which a [with MtabLock()] block is left from [st]. *)
Definition released (st : State) : State :=
  mkState (self st) (trace st ++ [EUnlock]) false false.

(** [st] after further events. *)
Definition extend (evs : list Event) (st : State) : State :=
  mkState (self st) (trace st ++ evs) (lock_held st) (mtab_open st).

(** The mount point [mount] works on: its argument, else the default. *)
Definition mount_target (st : State) (mnt : option string) : option string :=
  if negb (truthy_opt mnt) then mountpoint (self st) else mnt.

(** The filesystem type [mount] works with: its argument, else the
    recorded one (possibly none). *)
Definition mount_fstype (st : State) (arg : option string) : option string :=
  match arg with
  | Some f => Some f
  | None => fstype (self st)
  end.


(** The commands of a log, in order. *)
Fixpoint commands (tr : list Event) : list string :=
  match tr with
  | [] => []
  | ERun cmd _ _ :: rest => cmd :: commands rest
  | _ :: rest => commands rest
  end.

(** A command that ran and exited with status 0. *)
Definition succeeded (o : Outcome) : bool :=
  match o with
  | Exited s _ => (s =? 0)%Z
  | NotStarted => false
  end.

(** The [CmdError] of a command that exited with a non-zero status. *)
Definition cmd_error (cmd : string) (o : Outcome) : option Cause :=
  match o with
  | Exited s out => Some (CmdError cmd s out)
  | NotStarted => None
  end.

(** Every command line can be started: no [OSError] from the runner. *)
Definition startable (env : Env) : Prop :=
  forall tr cmd sudo, spawn env tr cmd sudo <> NotStarted.

(** A computation that leaves an observation of the state as it found it. *)
Definition keeps {X A} (obs : State -> X) (m : M A) : Prop :=
  forall st, obs (snd (m st)) = obs st.

(** A computation whose events all satisfy [P]. *)
Definition emits {A} (P : Event -> Prop) (m : M A) : Prop :=
  forall st, exists evs,
    trace (snd (m st)) = (trace st ++ evs)%list /\ Forall P evs.

Definition fstype_of (st : State) : option string := fstype (self st).

(** An event other than a detach of a loop device. *)
Definition not_detach (e : Event) : Prop :=
  match e with
  | ERun cmd _ _ => startswith cmd "losetup -d " = false
  | _ => True
  end.

(** ** Hosts and partitions used as examples *)

Module Scenario.

Definition nl : string := String LF EmptyString.

(** A host: the lines of its mount tables (or none when they cannot be
    opened) and what command lines give; any other command exits with
    status 0 and prints nothing. *)
Record Host := mkHost {
  table : option (list string);
  answers : list (string * Outcome)
}.

Fixpoint answer (l : list (string * Outcome)) (cmd : string) : Outcome :=
  match l with
  | [] => Exited 0 ""
  | (c, o) :: rest => if c =? cmd then o else answer rest cmd
  end.

Definition host_env (h : Host) : Env :=
  mkEnv (fun _ cmd _ => answer (answers h) cmd)
        (fun _ _ => table h)
        (fun path => path)
        (fun _ _ => true)
        (fun _ _ => true)
        (fun _ => Acquired).

Definition fresh (p : Partition) : State := mkState p [] false false.

(** /dev/sda1 is the root, /dev/sdb1 is mounted on /mnt/data, /dev/loop0 on
    /mnt/loop; /dev/sda2 is swap. *)
Definition mount_output : string :=
  "/dev/sda1 on / type ext4 (rw)" ++ nl ++
  "/dev/sdb1 on /mnt/data type ext4 (rw)" ++ nl ++
  "/dev/loop0 on /mnt/loop type ext4 (rw)".

Definition swapon_output : string :=
  "Filename Type Size Used Priority" ++ nl ++
  "/dev/sda2 partition 2097148 0 -2".

Definition mounts : list string :=
  ["/dev/sda1 / ext4 rw 0 0" ++ nl;
   "/dev/sdb1 /mnt/data ext4 rw 0 0" ++ nl;
   "/dev/loop0 /mnt/loop ext4 rw 0 0" ++ nl].

Definition listings : list (string * Outcome) :=
  [("mount", Exited 0 mount_output); ("swapon -s", Exited 0 swapon_output)].

(** A quiet host: every command succeeds. *)
Definition quiet : Env := host_env (mkHost (Some mounts) listings).

(** A host whose /etc/mtab and /proc/mounts cannot be opened. *)
Definition no_mtab : Env := host_env (mkHost None listings).

Definition lsof_output : string :=
  "COMMAND PID USER FD TYPE DEVICE SIZE/OFF NODE NAME" ++ nl ++
  "bash 4242 root cwd DIR 8,17 4096 2 /mnt/data" ++ nl ++
  "vi 17 root 3r REG 8,17 120 14 /mnt/data/notes".

(** /mnt/data is busy: the graceful and the forced unmount fail, two
    processes hold it. *)
Definition busy : Env :=
  host_env (mkHost (Some mounts)
              (listings ++
               [("umount /mnt/data", Exited 32 "target is busy");
                ("lsof /mnt/data", Exited 0 lsof_output);
                ("umount -f /mnt/data", Exited 32 "target is busy")])).

(** Nothing holds /mnt/data although the graceful unmount fails: lsof lists
    nothing and exits with status 1. *)
Definition busy_no_holder : Env :=
  host_env (mkHost (Some mounts)
              (listings ++
               [("umount /mnt/data", Exited 32 "target is busy");
                ("lsof /mnt/data", Exited 1 "")])).

(** /mnt/loop is busy; the forced unmount succeeds, the detach of the loop
    device fails. *)
Definition busy_loop : Env :=
  host_env (mkHost (Some mounts)
              (listings ++
               [("umount /mnt/loop", Exited 32 "target is busy");
                ("lsof /mnt/loop", Exited 0 "COMMAND PID USER");
                ("losetup -d /dev/loop0", Exited 1 "device busy")])).

(** A table with a blank line before the entry of /dev/sdb1. *)
Definition blank_table : Env :=
  host_env (mkHost (Some ["/dev/sda1 / ext4 rw 0 0" ++ nl; nl;
                          "/dev/sdb1 /mnt/data ext4 rw 0 0" ++ nl]) listings).

Definition sdb1 : Partition :=
  mkPartition "/dev/sdb1" 0 None (Some "/mnt/data") "" None.

Definition sdc1 : Partition :=
  mkPartition "/dev/sdc1" 0 None (Some "/mnt/c") "" None.

(** A loop-backed partition after its mount: the device is the loop device. *)
Definition loop0 : Partition :=
  mkPartition "/dev/loop0" 100 (Some "ext4") (Some "/mnt/loop") "" None.

(** A loop-backed partition that is not mounted. *)
Definition image : Partition :=
  mkPartition "/tmp/disk.img" 100 None (Some "/mnt/image") "" None.

(** /dev/sdc1 with ext4 recorded as its type. *)
Definition formatted : Partition :=
  mkPartition "/dev/sdc1" 0 (Some "ext4") (Some "/mnt/c") "" None.

(** A host on which /dev/sdc1 does not mount as xfs. *)
Definition refusing : Env :=
  host_env (mkHost (Some mounts)
              (listings ++
               [("mount -t xfs /dev/sdc1 /mnt/c", Exited 32 "wrong fs type")])).

(** A table with a blank line after the entry of /dev/sdb1. *)
Definition blank_after : Env :=
  host_env (mkHost (Some ["/dev/sdb1 /mnt/data ext4 rw 0 0" ++ nl; nl]) listings).

(** A table with a line of one field, which is not the device, before the
    entry of /dev/sdb1. *)
Definition one_field : Env :=
  host_env (mkHost (Some ["tmpfs" ++ nl; "/dev/sdb1 /mnt/data ext4 rw 0 0" ++ nl])
              listings).

End Scenario.

(** ** Vocabulary of the further properties *)

(** What holds of the result and of the state when [m] ends from [st]. *)
Definition ends {A} (m : M A) (st : State) (Q : Result A -> State -> Prop) : Prop :=
  Q (fst (m st)) (snd (m st)).

(** [st'] is [st] after further events, all of them in [P]. *)
Definition adds (P : Event -> Prop) (st st' : State) : Prop :=
  exists evs, trace st' = (trace st ++ evs)%list /\ Forall P evs.

(** The reason that [MtabLock.__enter__] gives when the lock is not obtained. *)
Definition lock_reason : string := "Unable to obtain '/etc/mtab' lock in 60s".

(** The events of an [unmount] of the partition [p]: with the lock and the
    two mount tables, only commands run with elevated privileges, on the
    recorded mount point [m] or on the device; those of the forced unmount
    only when [force] is set. *)
Definition unmount_event (force : bool) (p : Partition) (e : Event) : Prop :=
  match e with
  | ERun cmd sudo _ =>
      sudo = true /\
      exists m, mountpoint p = Some m /\
        (cmd = "umount " ++ m \/
         (force = true /\
          (cmd = "lsof " ++ m \/ (exists pid, cmd = kill_cmd pid) \/
           cmd = "umount -f " ++ m \/ cmd = "umount -l " ++ m)) \/
         (loop p <> 0%Z /\ cmd = "losetup -d " ++ device p))
  | EOpen path _ => path = "/proc/mounts" \/ path = "/etc/mtab"
  | ELock _ | EUnlock => True
  | EIsdir _ _ | EMakedirs _ _ => False
  end.

(** The exceptions of an [unmount] of the partition [p]. *)
Inductive unmount_failure (force : bool) (p : Partition) : Exn -> Prop :=
| unmount_OSError : unmount_failure force p (Foreign OSError)
| unmount_IndexError : unmount_failure force p IndexError
| unmount_ValueError : force = true -> unmount_failure force p ValueError
| unmount_no_lock c :
    c = LockFailed \/ c = AlreadyLocked ->
    unmount_failure force p (PartitionError lock_reason (Some c))
| unmount_not_graceful m s out :
    force = false -> mountpoint p = Some m -> s <> 0%Z ->
    unmount_failure force p
      (PartitionError "Unable to unmount gracefully" (Some (CmdError ("umount " ++ m) s out)))
| unmount_no_lsof m :
    force = true -> mountpoint p = Some m ->
    unmount_failure force p
      (PartitionError ("Could not run lsof to identify processes using " ++ dquote ++ m ++ dquote)
                      (Some OSError))
| unmount_lsof_failed m s out :
    force = true -> mountpoint p = Some m -> s <> 0%Z ->
    unmount_failure force p
      (PartitionError ("Failure executing " ++ dquote ++ ("lsof " ++ m) ++ dquote)
                      (Some (CmdError ("lsof " ++ m) s out)))
| unmount_not_forced m s out :
    force = true -> mountpoint p = Some m -> s <> 0%Z ->
    unmount_failure force p
      (PartitionError "Force unmount failed" (Some (CmdError ("umount -l " ++ m) s out)))
| unmount_no_detach s out :
    loop p <> 0%Z -> s <> 0%Z ->
    unmount_failure force p
      (PartitionError "Unable to cleanup loop device"
                      (Some (CmdError ("losetup -d " ++ device p) s out))).

(** The command line with which [mount] attaches the backing file. *)
Definition losetup_cmd (p : Partition) : string :=
  "losetup --find --show -f " ++ device p.

(** The command line of a [mount] call from [st], for the device [dev]. *)
Definition mount_cmd (st : State) (mnt arg : option string) (args dev : string) : string :=
  "mount " ++ mount_args (self st) (mount_fstype st arg) args ++ " " ++ dev ++ " "
    ++ value (mount_target st mnt).

(** The events of a [mount] call from [st] that leaves the partition with
    the device [dev]: the lock and /etc/mtab, the two listings when the
    check is enabled, the directory of the mount point, and with elevated
    privileges the attach of the backing file (whose output, when it
    succeeds, is [dev]) and the mount command. *)
Definition mount_event (st : State) (mnt arg : option string) (args : string) (chk : bool)
    (dev : string) (e : Event) : Prop :=
  match e with
  | ERun cmd sudo o =>
      (chk = true /\ sudo = false /\ (cmd = "mount" \/ cmd = "swapon -s")) \/
      (sudo = true /\ loop (self st) <> 0%Z /\ cmd = losetup_cmd (self st) /\
       forall out, o = Exited 0 out -> dev = strip out) \/
      (sudo = true /\ cmd = mount_cmd st mnt arg args dev)
  | EOpen path _ => path = "/etc/mtab"
  | EIsdir path _ | EMakedirs path _ => path = value (mount_target st mnt)
  | ELock _ | EUnlock => True
  end.

(** The exceptions of a [mount] call from [st]. *)
Inductive mount_failure (st : State) (mnt arg : option string) (args : string) (chk : bool)
  : Exn -> Prop :=
| mount_OSError : mount_failure st mnt arg args chk (Foreign OSError)
| mount_IndexError : chk = true -> mount_failure st mnt arg args chk IndexError
| mount_no_lock c :
    c = LockFailed \/ c = AlreadyLocked ->
    mount_failure st mnt arg args chk (PartitionError lock_reason (Some c))
| mount_no_mountpoint :
    truthy_opt (mount_target st mnt) = false ->
    mount_failure st mnt arg args chk
      (PartitionError
         "No mountpoint specified and no default provided to this partition object" None)
| mount_device_mounted :
    chk = true ->
    mount_failure st mnt arg args chk
      (PartitionError "Attempted to mount mounted device" None)
| mount_directory_busy :
    chk = true ->
    mount_failure st mnt arg args chk
      (PartitionError "Attempted to mount busy directory" None)
| mount_no_attach s out :
    loop (self st) <> 0%Z -> s <> 0%Z ->
    mount_failure st mnt arg args chk
      (PartitionError "Mount failed" (Some (CmdError (losetup_cmd (self st)) s out)))
| mount_not_mounted dev s out :
    s <> 0%Z ->
    mount_failure st mnt arg args chk
      (PartitionError "Mount failed" (Some (CmdError (mount_cmd st mnt arg args dev) s out))).

(** The partition but for its device and its recorded type. *)
Definition settings (p : Partition) : Z * option string * string * option string :=
  (loop p, mountpoint p, mkfs_flags p, mount_options p).

(** How a [mount] call from [st] has changed the state when it is in [s]:
    the settings of the partition are the same, the events added are the
    events of a mount, and the device is the same unless one of them is an
    attach that succeeded.  [past] tells that the call is past the attach:
    a partition with a backing file then has it attached. *)
Definition mount_progress (st : State) (mnt arg : option string) (args : string) (chk : bool)
    (past : bool) (s : State) : Prop :=
  settings (self s) = settings (self st) /\
  exists evs,
    trace s = (trace st ++ evs)%list /\
    Forall (mount_event st mnt arg args chk (device (self s))) evs /\
    (device (self s) = device (self st) /\ (past = true -> loop (self st) = 0%Z) \/
     exists lo, In (ERun (losetup_cmd (self st)) true (Exited 0 lo)) evs).

(** Whether a result is a normal end. *)
Definition is_ok {A} (r : Result A) : bool :=
  match r with
  | Ok _ => true
  | Raise _ => false
  end.

(** The command line of a [mkfs] call from [st]. *)
Definition mkfs_line (st : State) (arg : option string) (args : string) : string :=
  "yes | " ++ mkfs_cmd (self st) (mkfs_fstype (self st) arg) args.

(** The events of a [mkfs] call from [st]: the two listings and the
    formatting command, all without elevated privileges; no lock, no file. *)
Definition mkfs_event (st : State) (arg : option string) (args : string) (e : Event) : Prop :=
  match e with
  | ERun cmd sudo _ =>
      sudo = false /\ (cmd = "mount" \/ cmd = "swapon -s" \/ cmd = mkfs_line st arg args)
  | _ => False
  end.

(** The exceptions of a [mkfs] call from [st]. *)
Inductive mkfs_failure (st : State) (arg : option string) (args : string) : Exn -> Prop :=
| mkfs_OSError : mkfs_failure st arg args (Foreign OSError)
| mkfs_IndexError : mkfs_failure st arg args IndexError
| mkfs_device_mounted :
    mkfs_failure st arg args (PartitionError "Unable to format mounted device" None)
| mkfs_not_formatted s out :
    s <> 0%Z ->
    mkfs_failure st arg args
      (PartitionError "Failed to mkfs" (Some (CmdError (mkfs_line st arg args) s out))).

(** The force flags that [mkfs] appends for the filesystem type [ft]. *)
Definition force_flags (p : Partition) (ft : string) : list string :=
  ((if mem ft ["xfs"; "btrfs"] then ["-f"] else []) ++
   (if negb (loop p =? 0)%Z then
      if startswith ft "ext" then ["-F"]
      else if ft =? "reiserfs" then ["-f"]
      else []
    else []))%list.

(** A string without blanks. *)
Fixpoint no_blank (s : string) : bool :=
  match s with
  | EmptyString => true
  | String c s' => negb (is_space c) && no_blank s'
  end.

(** A field: a string that is not empty and has no blanks. *)
Definition is_field (s : string) : bool := truthy s && no_blank s.






(** An entry of the listing that swapon -s prints, and its line. *)
Record Swap := mkSwap {
  swap_device : string;
  swap_columns : string
}.




(** The table has an entry of the partition's device on the mount point
    [m]: a line whose first field names the device and whose second field
    is [m]. *)
Definition mounted_on (env : Env) (p : Partition) (m : string) (lines : list string) : Prop :=
  Exists (fun l => names_device env p l = true /\ nth_error (split l) 1 = Some m) lines.

(** Every line of the table has its two fields. *)
Definition two_fields (lines : list string) : Prop :=
  Forall (fun l => (2 <= length (split l))%nat) lines.

(** ** The dependency plugin: avocado.plugins.dependency *)

Module Dependencies.

(** What a call ends in: a value, or an exception.
    [DependencyResolverError] is the plugin's own.  The others are not
    caught: what [open] and [json.load] raise besides [FileNotFoundError]
    and [JSONDecodeError] (another [OSError], a [UnicodeDecodeError]), and
    the [TypeError] of a loop over a value that is not iterable or of
    [extend] on [None]. *)
Inductive Failure :=
| DependencyResolverError (message : string)
| OtherError
| TypeError.

Inductive Ended (A : Type) :=
| Done (a : A)
| Failed (e : Failure).
Arguments Done {A} a.
Arguments Failed {A} e.

(** What opening a dependency file and loading it as JSON gives: an
    exception ([FileNotFoundError] and [JSONDecodeError] with their text),
    or the value that the file holds, which is either iterable (the entries
    of a list, in order) or not (a number, true, false, null). *)
Inductive Loaded (Entry : Type) :=
| NotFound (detail : string)
| Unreadable
| Malformed (detail : string)
| Entries (entries : list Entry)
| Scalar.
Arguments NotFound {Entry} detail.
Arguments Unreadable {Entry}.
Arguments Malformed {Entry} detail.
Arguments Entries {Entry} entries.
Arguments Scalar {Entry}.

(** A suite: its setting job.run.dependency, if any, and its tests. *)
Record Suite := mkSuite {
  dependency_file : option string;
  tests : list nat
}.

Section Plugin.

(** The classes of avocado.core that the plugin works with: a dependency
    (with its equality, which is the one of dictionary keys), an entry of a
    dependency file, the configuration of a runnable and the task that
    [Dependency.to_runnable] builds.  [Dependency.to_runnable] and
    [Dependency.from_dictionary] belong to avocado.core; the plugin only
    calls them, and they are taken here as functions that return. *)
Variables Dependency Entry Config Task : Type.
Variable dep_eqb : Dependency -> Dependency -> bool.
Variable to_runnable : Dependency -> Config -> Task.
Variable from_dictionary : Entry -> Dependency.
Variable open_json : string -> Loaded Entry.

(** The objects of the job: the lists, by address, and for every runnable
    its attribute [dependencies], [None] or the address of a list.  Two
    runnables that hold the same address share one list. *)
Record Heap := mkHeap {
  list_at : nat -> list Dependency;
  allocated : nat;
  dependencies_of : nat -> option nat
}.

(** [list(dict.fromkeys(l))]: the keys in the order of their first
    occurrence. *)
Definition dict_fromkeys (l : list Dependency) : list Dependency :=
  fold_left (fun keys d => if existsb (dep_eqb d) keys then keys else (keys ++ [d])%list) l [].

(** [DependencyResolver.pre_test_runnables], from the attributes
    [dependencies] and [config] of the runnable of the test. *)
Definition pre_test_runnables (dependencies : option (list Dependency)) (config : Config)
  : list Task :=
  match dependencies with
  | None => []
  | Some [] => []
  | Some l => map (fun dependency => to_runnable dependency config) (dict_fromkeys l)
  end.

(** The attribute [dependencies] of a runnable, as a value. *)
Definition dependencies (h : Heap) (runnable : nat) : option (list Dependency) :=
  option_map (list_at h) (dependencies_of h runnable).

(** [dependencies.extend(other)] on the list at [d]. *)
Definition extend (d : nat) (other : list Dependency) (h : Heap) : Heap :=
  mkHeap (fun a => if (a =? d)%nat then (list_at h d ++ other)%list else list_at h a)
         (allocated h) (dependencies_of h).

(** [runnable.dependencies = dependencies], the list at [d]. *)
Definition assign (runnable d : nat) (h : Heap) : Heap :=
  mkHeap (list_at h) (allocated h)
         (fun r => if (r =? runnable)%nat then Some d else dependencies_of h r).

(** A new list. *)
Definition new_list (l : list Dependency) (h : Heap) : Heap :=
  mkHeap (fun a => if (a =? allocated h)%nat then l else list_at h a)
         (S (allocated h)) (dependencies_of h).

(** The loop of [pre] over the tests of a suite. *)
Fixpoint rewire (d : nat) (runnables : list nat) (h : Heap) : Ended unit * Heap :=
  match runnables with
  | [] => (Done tt, h)
  | runnable :: rest =>
      match dependencies_of h runnable with
      | None => (Failed TypeError, h)
      | Some a => rewire d rest (assign runnable d (extend d (list_at h a) h))
      end
  end.

(** The file of a suite, opened and loaded: the two [try] blocks of [pre].
    The value is the list of the entries, or [None] when the file holds a
    value that is not iterable. *)
Definition load (path : string) : Ended (option (list Entry)) :=
  match open_json path with
  | NotFound detail =>
      Failed (DependencyResolverError
                ("Dependency file not found at " ++ path ++ ": " ++ detail))
  | Unreadable => Failed OtherError
  | Malformed detail =>
      Failed (DependencyResolverError
                ("Issue with parsing dependency file at " ++ path ++ ": " ++ detail))
  | Entries entries => Done (Some entries)
  | Scalar => Done None
  end.

(** One turn of the loop of [SuiteDependency.pre] over the suites. *)
Definition pre_suite (suite : Suite) (h : Heap) : Ended unit * Heap :=
  match dependency_file suite with
  | None => (Done tt, h)
  | Some path =>
      if path =? "" then (Done tt, h)
      else match load path with
           | Failed e => (Failed e, h)
           | Done None => (Failed TypeError, new_list [] h)
           | Done (Some entries) =>
               rewire (allocated h) (tests suite) (new_list (map from_dictionary entries) h)
           end
  end.

(** [SuiteDependency.pre] *)
Fixpoint pre (test_suites : list Suite) (h : Heap) : Ended unit * Heap :=
  match test_suites with
  | [] => (Done tt, h)
  | suite :: rest =>
      match pre_suite suite h with
      | (Done _, h') => pre rest h'
      | (Failed e, h') => (Failed e, h')
      end
  end.

(** The lists that the tests of a suite hold, one after the other. *)
Definition own (h : Heap) (runnables : list nat) : list Dependency :=
  flat_map (fun r => match dependencies_of h r with
                     | Some a => list_at h a
                     | None => []
                     end) runnables.

(** Every runnable of the list holds a list that is allocated. *)
Definition hold_lists (h : Heap) (runnables : list nat) : Prop :=
  forall r, In r runnables -> exists a, dependencies_of h r = Some a /\ (a < allocated h)%nat.

End Plugin.

Arguments mkHeap {Dependency} list_at allocated dependencies_of.
Arguments list_at {Dependency} h a : rename.
Arguments allocated {Dependency} h : rename.
Arguments dependencies_of {Dependency} h r : rename.
Arguments dict_fromkeys {Dependency} dep_eqb l.
Arguments pre_test_runnables {Dependency Config Task} dep_eqb to_runnable dependencies config.
Arguments dependencies {Dependency} h runnable.
Arguments extend {Dependency} d other h.
Arguments assign {Dependency} runnable d h.
Arguments new_list {Dependency} l h.
Arguments rewire {Dependency} d runnables h.
Arguments load {Entry} open_json path.
Arguments pre_suite {Dependency Entry} from_dictionary open_json suite h.
Arguments pre {Dependency Entry} from_dictionary open_json test_suites h.
Arguments own {Dependency} h runnables.
Arguments hold_lists {Dependency} h runnables.

End Dependencies.

(** ** Further hosts, partitions and jobs used as examples *)

Module Cases.
Import Scenario.

(** A host on which the lock of /etc/mtab cannot be obtained in time. *)
Definition contended : Env :=
  mkEnv (spawn quiet) (file_lines quiet) (realpath quiet) (isdir quiet) (makedirs quiet)
        (fun _ => NotAcquired).

(** /dev/sdb1, built without a mount point. *)
Definition bare : Partition := mkPartition "/dev/sdb1" 0 None None "" None.

(** A host on which losetup attaches the backing file to /dev/loop0. *)
Definition attaching : Env :=
  host_env (mkHost (Some mounts)
              (listings ++
               [("losetup --find --show -f /tmp/disk.img", Exited 0 ("/dev/loop0" ++ nl))])).

(** The backing file /tmp/disk.img, to be mounted on /mnt/loop. *)
Definition disk : Partition :=
  mkPartition "/tmp/disk.img" 100 None (Some "/mnt/loop") "" None.


Definition swaps : list Swap := [mkSwap "/dev/sda2" "partition 2097148 0 -2"].


(** A host whose mount prints a blank line and a line of a single field. *)
Definition ragged : Env :=
  host_env (mkHost (Some mounts)
              [("mount", Exited 0 ("/dev/sda1 on / type ext4 (rw)" ++ nl ++ nl ++ "tmpfs"))]).

(** A host whose mount ends what it prints with an empty line. *)
Definition trailing : Env :=
  host_env (mkHost (Some mounts)
              [("mount", Exited 0 ("/dev/sda1 on / type ext4 (rw)" ++ nl ++ nl));
               ("swapon -s", Exited 0 (swapon_output ++ nl))]).

(** A job of one suite with two tests: the first needs gcc, the second
    make, and the dependency file of the suite asks for git. *)
Definition two_tests : Dependencies.Heap string :=
  Dependencies.mkHeap
    (fun a => match a with
              | 0%nat => ["gcc"]
              | 1%nat => ["make"]
              | _ => []
              end)
    2
    (fun r => match r with
              | 0%nat => Some 0%nat
              | 1%nat => Some 1%nat
              | _ => None
              end).

Definition suite : Dependencies.Suite := Dependencies.mkSuite (Some "deps.json") [0%nat; 1%nat].

Definition files (path : string) : Dependencies.Loaded string :=
  if path =? "deps.json" then Dependencies.Entries ["git"]
  else Dependencies.NotFound "No such file or directory".

End Cases.


(** ** Properties *)

(** *** Strings *)

Lemma contains_cons sub c s :
  contains sub (String c s) = String.prefix sub (String c s) || contains sub s.
Proof. reflexivity. Qed.

Lemma prefix_app (p a b : string) :
  String.prefix p a = true -> String.prefix p (a ++ b) = true.
Proof.
  revert a. induction p as [|c p IH]; intros a.
  - destruct a, b; reflexivity.
  - destruct a as [|c' a]; cbn; [discriminate|].
    destruct (ascii_dec c c'); [apply IH|discriminate].
Qed.

Lemma contains_app_l (sub a b : string) :
  contains sub a = true -> contains sub (a ++ b) = true.
Proof.
  induction a as [|c a IH].
  - cbn. rewrite orb_false_r. destruct sub; [|discriminate]. intros _.
    destruct b; reflexivity.
  - cbn [contains append]. intros H. apply orb_true_iff in H as [H|H].
    + change (String c (a ++ b)) with (String c a ++ b). now rewrite prefix_app.
    + rewrite IH by assumption. apply orb_true_r.
Qed.

Lemma contains_app_r (sub a b : string) :
  contains sub b = true -> contains sub (a ++ b) = true.
Proof.
  intros H. induction a as [|c a IH]; [exact H|].
  cbn [contains append]. rewrite IH. apply orb_true_r.
Qed.

Lemma prefix_empty s : String.prefix "" s = true.
Proof. destruct s; reflexivity. Qed.

Section Tokens.
Variable sp : ascii -> bool.

Lemma split_by_cons c s :
  split_by sp (String c s) =
    if sp c then split_by sp s
    else match s with
         | EmptyString => [String c EmptyString]
         | String c' _ =>
             if sp c' then String c EmptyString :: split_by sp s
             else match split_by sp s with
                  | w :: ws => String c w :: ws
                  | [] => [String c EmptyString]
                  end
         end.
Proof. reflexivity. Qed.

Lemma prefix_cons c w s : String.prefix (String c w) (String c s) = String.prefix w s.
Proof. cbn. destruct (ascii_dec c c); [reflexivity|congruence]. Qed.

(** The first field of a string that starts with a field starts it. *)
Lemma first_token_prefix c s :
  sp c = false ->
  exists w ws, split_by sp (String c s) = w :: ws /\ String.prefix w (String c s) = true.
Proof.
  revert c. induction s as [|c' s IH]; intros c Hc; rewrite split_by_cons, Hc.
  - eexists _, _. split; [reflexivity|]. now rewrite prefix_cons.
  - destruct (sp c') eqn:Hc'.
    + eexists _, _. split; [reflexivity|]. rewrite prefix_cons. apply prefix_empty.
    + destruct (IH c' Hc') as (w & ws & E & P). rewrite E.
      eexists _, _. split; [reflexivity|]. now rewrite prefix_cons.
Qed.

(** Every field of a string occurs in it. *)
Lemma split_token_contains s w :
  In w (split_by sp s) -> contains w s = true.
Proof.
  induction s as [|c s IH]; [contradiction|].
  rewrite split_by_cons, contains_cons. destruct (sp c) eqn:Hc.
  - intros H. rewrite (IH H). apply orb_true_r.
  - destruct s as [|c' s'].
    + intros [<-|[]]. now rewrite prefix_cons.
    + destruct (sp c') eqn:Hc'.
      * intros [<-|H].
        -- rewrite prefix_cons. now rewrite prefix_empty.
        -- rewrite (IH H). apply orb_true_r.
      * destruct (first_token_prefix c' s' Hc') as (w' & ws & E & P). rewrite E in *.
        intros [<-|H].
        -- rewrite prefix_cons. now rewrite P.
        -- rewrite IH; [apply orb_true_r|now right].
Qed.
End Tokens.

(** The text "-t" does not straddle a blank. *)
Lemma contains_dash_t_space (a b : string) :
  contains "-t" (a ++ String " " b) = contains "-t" a || contains "-t" b.
Proof.
  induction a as [|c a IH].
  - cbn [append]. rewrite contains_cons. reflexivity.
  - cbn [append]. rewrite !contains_cons, IH, orb_assoc. f_equal. f_equal.
    cbn -[ascii_dec]. destruct (ascii_dec "-" c); [|reflexivity].
    destruct a as [|c' a]; cbn -[ascii_dec]; [reflexivity|].
    destruct (ascii_dec "t" c'); [|reflexivity]. now rewrite !prefix_empty.
Qed.

Lemma mem_In x l : mem x l = true -> In x l.
Proof.
  unfold mem. intros H. apply existsb_exists in H as (y & HI & E).
  apply String.eqb_eq in E. now subst y.
Qed.

Lemma mkfs_options_keep_flag p ft args :
  contains "-t" args = true \/ (truthy (mkfs_flags p) = true /\ contains "-t" (mkfs_flags p) = true) ->
  contains "-t" (mkfs_options p ft args) = true.
Proof.
  intros H. unfold mkfs_options.
  assert (H1 : contains "-t" (if truthy (mkfs_flags p) then args ++ " " ++ mkfs_flags p
                              else args) = true).
  { destruct H as [H|[T H]].
    - destruct (truthy (mkfs_flags p)); [now apply contains_app_l|exact H].
    - rewrite T. now apply contains_app_r, contains_app_r. }
  remember (if truthy (mkfs_flags p) then args ++ " " ++ mkfs_flags p else args) as base.
  repeat match goal with
         | |- context [if ?b then _ else _] => destruct b
         end; repeat apply contains_app_l; exact H1.
Qed.

Lemma mkfs_options_no_flag p ft args :
  contains "-t" args = false -> contains "-t" (mkfs_flags p) = false ->
  contains "-t" (mkfs_options p ft args) = false.
Proof.
  intros HA HF. unfold mkfs_options.
  assert (H1 : contains "-t" (if truthy (mkfs_flags p) then args ++ " " ++ mkfs_flags p
                              else args) = false).
  { destruct (truthy (mkfs_flags p)); [|exact HA].
    change (args ++ " " ++ mkfs_flags p) with (args ++ String " " (mkfs_flags p)).
    now rewrite contains_dash_t_space, HA, HF. }
  remember (if truthy (mkfs_flags p) then args ++ " " ++ mkfs_flags p else args) as base.
  repeat match goal with
         | |- context [if ?b then _ else _] => destruct b
         end;
  repeat (match goal with
          | |- contains "-t" (?x ++ " -f") = false =>
              change (x ++ " -f") with (x ++ String " " "-f");
              rewrite contains_dash_t_space, orb_false_r
          | |- contains "-t" (?x ++ " -F") = false =>
              change (x ++ " -F") with (x ++ String " " "-F");
              rewrite contains_dash_t_space, orb_false_r
          end); exact H1.
Qed.


(** *** Frame lemmas: what a computation leaves alone *)

Section Frame.
Context {X : Type} (obs : State -> X).

Lemma keeps_ret {A} (a : A) : keeps obs (ret a).
Proof. intros st. reflexivity. Qed.

Lemma keeps_raise {A} (e : Exn) : keeps obs (@raise A e).
Proof. intros st. reflexivity. Qed.

Lemma keeps_lift {A} (r : Result A) : keeps obs (lift r).
Proof. intros st. reflexivity. Qed.

Lemma keeps_get_self : keeps obs get_self.
Proof. intros st. reflexivity. Qed.

Lemma keeps_bind {A B} (m : M A) (k : A -> M B) :
  keeps obs m -> (forall a, keeps obs (k a)) -> keeps obs (bind m k).
Proof.
  intros Hm Hk st. unfold bind. specialize (Hm st).
  destruct (m st) as [[a|e] st']; cbn in *; [rewrite Hk|]; exact Hm.
Qed.

Lemma keeps_try {A} (m : M A) (h : Exn -> option (M A)) :
  keeps obs m -> (forall e k, h e = Some k -> keeps obs k) ->
  keeps obs (try_except m h).
Proof.
  intros Hm Hh st. unfold try_except. specialize (Hm st).
  destruct (m st) as [[a|e] st']; cbn in *; [exact Hm|].
  destruct (h e) as [k|] eqn:E; cbn; [rewrite (Hh _ _ E)|]; exact Hm.
Qed.

Lemma keeps_except_CmdError {A} (k : Cause -> M A) :
  (forall c, keeps obs (k c)) ->
  forall e k', except_CmdError k e = Some k' -> keeps obs k'.
Proof.
  intros Hk e k' E. destruct e as [| [] | |]; cbn in E; try discriminate.
  injection E as <-. apply Hk.
Qed.

Lemma keeps_except_OSError {A} (k : Cause -> M A) :
  (forall c, keeps obs (k c)) ->
  forall e k', except_OSError k e = Some k' -> keeps obs k'.
Proof.
  intros Hk e k' E. destruct e as [| [] | |]; cbn in E; try discriminate.
  injection E as <-. apply Hk.
Qed.

Lemma keeps_for_each {A} (xs : list A) (f : A -> M unit) :
  (forall x, keeps obs (f x)) -> keeps obs (for_each xs f).
Proof.
  intros Hf. induction xs as [|x xs IH]; [apply keeps_ret|].
  cbn. apply keeps_bind; auto.
Qed.

(** Observations that the log does not touch. *)
Hypothesis obs_log : forall e st, obs (log e st) = obs st.

Variable env : Env.

Lemma keeps_process_run cmd ign sudo : keeps obs (process_run env cmd ign sudo).
Proof.
  intros st. unfold process_run.
  destruct (spawn env (trace st) cmd sudo) as [s out|]; [|apply obs_log].
  destruct ((s =? 0)%Z || ign); apply obs_log.
Qed.

Lemma keeps_process_system cmd ign sudo : keeps obs (process_system env cmd ign sudo).
Proof. apply keeps_bind; [apply keeps_process_run|intros; apply keeps_ret]. Qed.

Lemma keeps_process_system_output cmd sudo : keeps obs (process_system_output env cmd sudo).
Proof. apply keeps_bind; [apply keeps_process_run|intros; apply keeps_ret]. Qed.

Lemma keeps_process_getoutput cmd : keeps obs (process_getoutput env cmd).
Proof. apply keeps_bind; [apply keeps_process_run|intros; apply keeps_ret]. Qed.

Lemma keeps_open_lines path : keeps obs (open_lines env path).
Proof.
  intros st. unfold open_lines. destruct (file_lines env (trace st) path); apply obs_log.
Qed.

Lemma keeps_os_path_isdir path : keeps obs (os_path_isdir env path).
Proof. intros st. apply obs_log. Qed.

Lemma keeps_os_makedirs path : keeps obs (os_makedirs env path).
Proof. intros st. apply obs_log. Qed.

Lemma keeps_list_mount_devices : keeps obs (list_mount_devices env).
Proof.
  unfold list_mount_devices. cbv zeta.
  repeat first [ apply keeps_process_getoutput | apply keeps_lift | apply keeps_ret
               | apply keeps_bind; [|intros] ].
Qed.

Lemma keeps_list_mount_points : keeps obs (list_mount_points env).
Proof.
  unfold list_mount_points.
  repeat first [ apply keeps_process_getoutput | apply keeps_lift | apply keeps_ret
               | apply keeps_bind; [|intros] ].
Qed.

Lemma keeps_get_mountpoint_in f : keeps obs (get_mountpoint_in env f).
Proof.
  unfold get_mountpoint_in.
  repeat first [ apply keeps_open_lines | apply keeps_get_self | apply keeps_lift
               | apply keeps_bind; [|intros] ].
Qed.

Lemma keeps_get_mountpoint f : keeps obs (get_mountpoint env f).
Proof.
  assert (D : keeps obs (get_mountpoint_default env)).
  { unfold get_mountpoint_default.
    apply keeps_bind; [apply keeps_get_mountpoint_in|intros r].
    destruct (negb (truthy_opt r)); [|apply keeps_ret].
    apply keeps_bind; [apply keeps_get_mountpoint_in|intros r'].
    destruct (negb (eq_opt r' (Some "/"))); apply keeps_ret. }
  unfold get_mountpoint. destruct f as [f|]; [|exact D].
  destruct (truthy f); [apply keeps_get_mountpoint_in|exact D].
Qed.

Lemma keeps__get_pids_on_mountpoint mnt : keeps obs (_get_pids_on_mountpoint env mnt).
Proof.
  unfold _get_pids_on_mountpoint. apply keeps_try.
  - apply keeps_bind; [apply keeps_process_system_output|intros; apply keeps_lift].
  - intros e k. destruct (except_OSError _ e) as [k0|] eqn:E0.
    + intros [= <-]. revert E0. apply keeps_except_OSError. intros; apply keeps_raise.
    + apply keeps_except_CmdError. intros; apply keeps_raise.
Qed.

Lemma keeps_kill_pid pid : keeps obs (kill_pid env pid).
Proof.
  apply keeps_try.
  - apply keeps_bind; [apply keeps_process_system|intros; apply keeps_ret].
  - apply keeps_except_CmdError. intros; apply keeps_raise.
Qed.

Lemma keeps_umount_forced mnt : keeps obs (umount_forced env mnt).
Proof.
  apply keeps_try.
  - apply keeps_bind; [apply keeps_process_run|intros; apply keeps_ret].
  - apply keeps_except_CmdError. intros _. apply keeps_try.
    + apply keeps_bind; [apply keeps_process_run|intros; apply keeps_ret].
    + apply keeps_except_CmdError. intros; apply keeps_raise.
Qed.

Lemma keeps__unmount_force mnt : keeps obs (_unmount_force env mnt).
Proof.
  unfold _unmount_force.
  apply keeps_bind; [apply keeps__get_pids_on_mountpoint|intros pids].
  apply keeps_bind; [|intros _; apply keeps_umount_forced].
  apply keeps_for_each, keeps_kill_pid.
Qed.


End Frame.

(** *** What a computation adds to the log *)

Section Emits.
Variable P : Event -> Prop.

Lemma emits_nothing {A} (m : M A) :
  (forall st, trace (snd (m st)) = trace st) -> emits P m.
Proof.
  intros H st. exists []. rewrite H, app_nil_r. now split.
Qed.

Lemma emits_ret {A} (a : A) : emits P (ret a).
Proof. now apply emits_nothing. Qed.

Lemma emits_raise {A} (e : Exn) : emits P (@raise A e).
Proof. now apply emits_nothing. Qed.

Lemma emits_lift {A} (r : Result A) : emits P (lift r).
Proof. now apply emits_nothing. Qed.

Lemma emits_get_self : emits P get_self.
Proof. now apply emits_nothing. Qed.

Lemma emits_one {A} (m : M A) :
  (forall st, exists e, P e /\ snd (m st) = log e st) -> emits P m.
Proof.
  intros H st. destruct (H st) as (e & He & ->). exists [e]. split; [reflexivity|].
  now constructor.
Qed.

Lemma emits_bind {A B} (m : M A) (k : A -> M B) :
  emits P m -> (forall a, emits P (k a)) -> emits P (bind m k).
Proof.
  intros Hm Hk st. unfold bind. destruct (Hm st) as (e1 & T1 & F1).
  destruct (m st) as [[a|e] st']; cbn in *; [|now exists e1].
  destruct (Hk a st') as (e2 & T2 & F2). exists (e1 ++ e2)%list.
  rewrite T2, T1, <- app_assoc. split; [reflexivity|]. now apply Forall_app.
Qed.

Lemma emits_try {A} (m : M A) (h : Exn -> option (M A)) :
  emits P m -> (forall e k, h e = Some k -> emits P k) -> emits P (try_except m h).
Proof.
  intros Hm Hh st. unfold try_except. destruct (Hm st) as (e1 & T1 & F1).
  destruct (m st) as [[a|e] st']; cbn in *; [now exists e1|].
  destruct (h e) as [k|] eqn:E; [|now exists e1].
  destruct (Hh _ _ E st') as (e2 & T2 & F2). exists (e1 ++ e2)%list.
  rewrite T2, T1, <- app_assoc. split; [reflexivity|]. now apply Forall_app.
Qed.

Lemma emits_except_CmdError {A} (k : Cause -> M A) :
  (forall c, emits P (k c)) ->
  forall e k', except_CmdError k e = Some k' -> emits P k'.
Proof.
  intros Hk e k' E. destruct e as [| [] | |]; cbn in E; try discriminate.
  injection E as <-. apply Hk.
Qed.

Lemma emits_except_OSError {A} (k : Cause -> M A) :
  (forall c, emits P (k c)) ->
  forall e k', except_OSError k e = Some k' -> emits P k'.
Proof.
  intros Hk e k' E. destruct e as [| [] | |]; cbn in E; try discriminate.
  injection E as <-. apply Hk.
Qed.

Lemma emits_for_each {A} (xs : list A) (f : A -> M unit) :
  (forall x, emits P (f x)) -> emits P (for_each xs f).
Proof.
  intros Hf. induction xs as [|x xs IH]; [apply emits_ret|].
  cbn. apply emits_bind; auto.
Qed.

Variable env : Env.

Lemma emits_process_run cmd ign sudo :
  (forall o, P (ERun cmd sudo o)) -> emits P (process_run env cmd ign sudo).
Proof.
  intros H. apply emits_one. intros st. exists (ERun cmd sudo (spawn env (trace st) cmd sudo)).
  split; [apply H|]. unfold process_run.
  destruct (spawn env (trace st) cmd sudo) as [s out|]; [|reflexivity].
  destruct ((s =? 0)%Z || ign); reflexivity.
Qed.

Lemma emits_open_lines path :
  (forall ok, P (EOpen path ok)) -> emits P (open_lines env path).
Proof.
  intros H. apply emits_one. intros st. unfold open_lines.
  destruct (file_lines env (trace st) path); eexists; (split; [apply H|reflexivity]).
Qed.

End Emits.

Section Properties.
Variable env : Env.

(** *** Basic steps *)

Lemma commands_app a b : commands (a ++ b) = (commands a ++ commands b)%list.
Proof.
  induction a as [|e a IH]; [reflexivity|]. destruct e; cbn; rewrite ?IH; reflexivity.
Qed.

Lemma bind_ok_inv {A B} (m : M A) (k : A -> M B) st b st' :
  bind m k st = (Ok b, st') ->
  exists a st1, m st = (Ok a, st1) /\ k a st1 = (Ok b, st').
Proof.
  unfold bind. destruct (m st) as [[a|e] st1]; [eauto|discriminate].
Qed.

Lemma try_raise_ok_inv {A} (m : M A) (h : Exn -> option (M A)) st a st' :
  (forall e k s, h e = Some k -> fst (k s) <> Ok a) ->
  try_except m h st = (Ok a, st') -> m st = (Ok a, st').
Proof.
  intros Hh. unfold try_except. destruct (m st) as [[a'|e] st1]; [trivial|].
  destruct (h e) as [k|] eqn:E; [|discriminate].
  intros H. exfalso. apply (Hh _ _ st1 E). now rewrite H.
Qed.

Lemma except_CmdError_raises {A} (f : Cause -> Exn) e k s (a : A) :
  except_CmdError (fun d => raise (f d)) e = Some k -> fst (k s) <> Ok a.
Proof.
  destruct e as [| [] | |]; cbn; try discriminate. intros [= <-]. discriminate.
Qed.

Lemma process_run_eq cmd ign sudo st :
  process_run env cmd ign sudo st =
    (match spawn env (trace st) cmd sudo with
     | NotStarted => Raise (Foreign OSError)
     | Exited s out =>
         if (s =? 0)%Z || ign then Ok (mkCmdResult s out)
         else Raise (Foreign (CmdError cmd s out))
     end, log (ERun cmd sudo (spawn env (trace st) cmd sudo)) st).
Proof.
  unfold process_run. destruct (spawn env (trace st) cmd sudo) as [s out|]; [|reflexivity].
  destruct ((s =? 0)%Z || ign); reflexivity.
Qed.

Lemma process_run_ok_inv cmd sudo st r st' :
  process_run env cmd false sudo st = (Ok r, st') ->
  exists out, spawn env (trace st) cmd sudo = Exited 0 out /\
              r = mkCmdResult 0 out /\
              st' = log (ERun cmd sudo (Exited 0 out)) st.
Proof.
  rewrite process_run_eq. destruct (spawn env (trace st) cmd sudo) as [s out|]; [|discriminate].
  rewrite orb_false_r. destruct (s =? 0)%Z eqn:E; [|discriminate].
  apply Z.eqb_eq in E. subst s. intros [= <- <-]. eauto.
Qed.

Lemma process_getoutput_eq cmd st :
  process_getoutput env cmd st =
    (match spawn env (trace st) cmd false with
     | Exited _ out => Ok (drop_final_LF out)
     | NotStarted => Raise (Foreign OSError)
     end, log (ERun cmd false (spawn env (trace st) cmd false)) st).
Proof.
  unfold process_getoutput, bind. rewrite process_run_eq.
  destruct (spawn env (trace st) cmd false) as [s out|]; [|reflexivity].
  rewrite orb_true_r. reflexivity.
Qed.

(** *** The lock *)

Lemma MtabLock_enter_ok st :
  enters env st -> MtabLock_enter env st = (Ok tt, entered st).
Proof.
  intros [HL HF]. unfold MtabLock_enter, try_except, bind, FileLock_enter, open_lines.
  rewrite HL. cbn.
  destruct (file_lines env (trace st ++ [ELock Acquired]) MtabLock_device) eqn:E;
    [|congruence].
  unfold entered, with_mtab, log. cbn. now rewrite <- app_assoc.
Qed.

Lemma MtabLock_exit_released st :
  mtab_open st = true -> MtabLock_exit st = (Ok tt, released st).
Proof.
  intros H. unfold MtabLock_exit, bind, FileLock_exit. rewrite H. reflexivity.
Qed.

(** The ways [MtabLock.__enter__] ends. *)
Lemma MtabLock_enter_cases st :
  match lock_enter env (trace st) with
  | Acquired =>
      match file_lines env (trace st ++ [ELock Acquired]) MtabLock_device with
      | Some _ => MtabLock_enter env st = (Ok tt, entered st)
      | None =>
          MtabLock_enter env st =
            (Raise (Foreign OSError),
             mkState (self st)
               (trace st ++ [ELock Acquired; EOpen MtabLock_device false])
               true (mtab_open st))
      end
  | NotAcquired =>
      MtabLock_enter env st =
        (Raise (PartitionError "Unable to obtain '/etc/mtab' lock in 60s" (Some LockFailed)),
         log (ELock NotAcquired) st)
  | HeldAlready =>
      MtabLock_enter env st =
        (Raise (PartitionError "Unable to obtain '/etc/mtab' lock in 60s" (Some AlreadyLocked)),
         log (ELock HeldAlready) st)
  end.
Proof.
  destruct (lock_enter env (trace st)) eqn:HL.
  - destruct (file_lines env (trace st ++ [ELock Acquired]) MtabLock_device) eqn:HF.
    + apply MtabLock_enter_ok. split; congruence.
    + unfold MtabLock_enter, try_except, bind, FileLock_enter, open_lines.
      rewrite HL. cbn. rewrite HF. unfold log. cbn. now rewrite <- app_assoc.
  - unfold MtabLock_enter, try_except, bind, FileLock_enter. rewrite HL. reflexivity.
  - unfold MtabLock_enter, try_except, bind, FileLock_enter. rewrite HL. reflexivity.
Qed.

(** A block that is entered, runs and is left. *)
Lemma with_MtabLock_run {A} (body : M A) st r st2 :
  enters env st ->
  body (entered st) = (r, st2) ->
  mtab_open st2 = true ->
  with_MtabLock env body st = (r, released st2).
Proof.
  intros HE HB HO. unfold with_MtabLock. rewrite MtabLock_enter_ok by assumption.
  rewrite HB. now rewrite MtabLock_exit_released.
Qed.




Lemma mount_unfold mnt arg args chk st :
  truthy_opt (mount_target st mnt) = true ->
  mount env mnt arg args chk st =
   ((with_MtabLock env
      (mount_locked env (value (mount_target st mnt))
         (mount_args (self st) (mount_fstype st arg) args) chk) ;;;
    set_fstype (mount_fstype st arg))
     (with_self (match arg with
                 | Some f => with_fstype (Some f) (self st)
                 | None => self st
                 end) st)).
Proof.
  intros HT. unfold mount, mount_target, mount_fstype in *.
  unfold bind at 1, get_self. rewrite HT. cbn [negb].
  destruct arg as [f|]; unfold bind at 1; cbn; [reflexivity|].
  destruct st; reflexivity.
Qed.

Lemma mount_no_target mnt arg args chk st :
  truthy_opt (mount_target st mnt) = false ->
  mount env mnt arg args chk st =
    (Raise (PartitionError
              "No mountpoint specified and no default provided to this partition object"
              None), st).
Proof.
  intros HT. unfold mount, mount_target in *. unfold bind, get_self. rewrite HT. reflexivity.
Qed.



(** When the lock is obtained and the table cannot be opened, [mount] ends
    in that [OSError] with the lock held. *)
Lemma mount_leak mnt arg args chk st :
  truthy_opt (mount_target st mnt) = true ->
  lock_enter env (trace st) = Acquired ->
  file_lines env (trace st ++ [ELock Acquired]) MtabLock_device = None ->
  exists st', mount env mnt arg args chk st = (Raise (Foreign OSError), st') /\
              lock_held st' = true.
Proof.
  intros HM HL HF. rewrite mount_unfold by assumption. unfold bind, with_MtabLock.
  match goal with |- context [MtabLock_enter env ?s] =>
    pose proof (MtabLock_enter_cases s) as C end.
  cbn [trace with_self] in C. rewrite HL, HF in C. rewrite C. eexists; split; reflexivity.
Qed.

(** The same for [unmount]. *)
Lemma unmount_leak force st :
  lock_enter env (trace st) = Acquired ->
  file_lines env (trace st ++ [ELock Acquired]) MtabLock_device = None ->
  exists st', unmount env force st = (Raise (Foreign OSError), st') /\
              lock_held st' = true.
Proof.
  intros HL HF. unfold unmount, bind, with_MtabLock.
  pose proof (MtabLock_enter_cases st) as C. rewrite HL, HF in C. rewrite C.
  eexists; split; reflexivity.
Qed.

(** *** Reading the mount table *)

Lemma scan_absent p lines :
  absent_from env p lines -> get_mountpoint_scan env p lines = Ok None.
Proof.
  induction 1 as [|line rest [Hne Hnd] _ IH]; [reflexivity|].
  cbn [get_mountpoint_scan]. unfold get_mountpoint_line, names_device in *.
  destruct (split line) as [|d parts]; [congruence|].
  cbn [getitem nth_error]. rewrite Hnd. exact IH.
Qed.

Lemma get_mountpoint_absent st :
  unmounted env (self st) ->
  get_mountpoint env None st =
    (Ok None, extend [EOpen "/proc/mounts" true; EOpen "/etc/mtab" true] st).
Proof.
  intros U. unfold get_mountpoint, get_mountpoint_default, get_mountpoint_in, bind, open_lines.
  destruct (U (trace st) "/proc/mounts") as (l1 & E1 & A1); [now left|].
  rewrite E1. cbn. rewrite (scan_absent _ _ A1). cbn.
  destruct (U (trace st ++ [EOpen "/proc/mounts" true])%list "/etc/mtab") as (l2 & E2 & A2);
    [now right|].
  rewrite E2. cbn. rewrite (scan_absent _ _ A2). cbn.
  unfold extend, log. cbn. now rewrite <- app_assoc.
Qed.

Lemma unmounted_enters st :
  lock_enter env (trace st) = Acquired -> unmounted env (self st) -> enters env st.
Proof.
  intros HL U. split; [exact HL|].
  destruct (U (trace st ++ [ELock Acquired])%list "/etc/mtab") as (l & E & _); [now right|].
  unfold MtabLock_device. congruence.
Qed.

(** The locked block of [unmount] on a device that is not mounted. *)
Lemma unmount_locked_absent force st :
  unmounted env (self st) ->
  unmount_locked env force st =
    (Ok (Return 1%Z), extend [EOpen "/proc/mounts" true; EOpen "/etc/mtab" true] st).
Proof.
  intros U. unfold unmount_locked, bind. now rewrite (get_mountpoint_absent st U).
Qed.

Lemma unmount_absent st force :
  lock_enter env (trace st) = Acquired ->
  unmounted env (self st) ->
  with_MtabLock env (unmount_locked env force) st =
    (Ok (Return 1%Z),
     mkState (self st)
       (trace st ++ [ELock Acquired; EOpen "/etc/mtab" true; EOpen "/proc/mounts" true;
                     EOpen "/etc/mtab" true; EUnlock])
       false false) /\
  unmount env force st =
    (Ok 1%Z,
     mkState (self st)
       (trace st ++ [ELock Acquired; EOpen "/etc/mtab" true; EOpen "/proc/mounts" true;
                     EOpen "/etc/mtab" true; EUnlock])
       false false).
Proof.
  intros HL U. pose proof (unmounted_enters st HL U) as HE.
  assert (W : with_MtabLock env (unmount_locked env force) st =
              (Ok (Return 1%Z),
               released (extend [EOpen "/proc/mounts" true; EOpen "/etc/mtab" true]
                           (entered st)))).
  { apply with_MtabLock_run; [exact HE| |reflexivity].
    now apply unmount_locked_absent. }
  assert (S : released (extend [EOpen "/proc/mounts" true; EOpen "/etc/mtab" true]
                          (entered st)) =
              mkState (self st)
                (trace st ++ [ELock Acquired; EOpen "/etc/mtab" true;
                              EOpen "/proc/mounts" true; EOpen "/etc/mtab" true; EUnlock])
                false false).
  { unfold released, extend, entered. cbn. now rewrite <- !app_assoc. }
  rewrite S in W. split; [exact W|]. unfold unmount, bind. now rewrite W.
Qed.

(** *** Listing what is mounted *)



(** *** The checks that come before the commands *)






(** *** The recorded filesystem type *)

Lemma keeps_fstype_MtabLock_enter : keeps fstype_of (MtabLock_enter env).
Proof.
  intros st. pose proof (MtabLock_enter_cases st) as C.
  destruct (lock_enter env (trace st));
    [destruct (file_lines env _ MtabLock_device)|..]; rewrite C; reflexivity.
Qed.

Lemma keeps_fstype_MtabLock_exit : keeps fstype_of MtabLock_exit.
Proof.
  intros st. unfold MtabLock_exit, bind, FileLock_exit. destruct (mtab_open st); reflexivity.
Qed.

Lemma keeps_fstype_with_MtabLock {A} (body : M A) :
  keeps fstype_of body -> keeps fstype_of (with_MtabLock env body).
Proof.
  intros Hb st. unfold with_MtabLock. pose proof (keeps_fstype_MtabLock_enter st) as HE.
  destruct (MtabLock_enter env st) as [[[]|e] st1]; cbn in *; [|exact HE].
  specialize (Hb st1). destruct (body st1) as [r st2]. cbn in Hb.
  pose proof (keeps_fstype_MtabLock_exit st2) as HX.
  destruct (MtabLock_exit st2) as [r3 st3]. cbn in *. congruence.
Qed.

Lemma keeps_fstype_mount_checks mnt : keeps fstype_of (mount_checks env mnt).
Proof.
  unfold mount_checks.
  apply keeps_bind; [now apply keeps_list_mount_devices|intros devs].
  apply keeps_bind; [apply keeps_get_self|intros p].
  destruct (mem (device p) devs); [apply keeps_raise|].
  apply keeps_bind; [now apply keeps_list_mount_points|intros pts].
  destruct (mem mnt pts); [apply keeps_raise|apply keeps_ret].
Qed.

Lemma keeps_fstype_mount_locked mnt args chk : keeps fstype_of (mount_locked env mnt args chk).
Proof.
  unfold mount_locked.
  apply keeps_bind; [destruct chk; [apply keeps_fstype_mount_checks|apply keeps_ret]|intros _].
  apply keeps_bind; [now apply keeps_os_path_isdir|intros found].
  apply keeps_bind;
    [destruct (negb found); [now apply keeps_os_makedirs|apply keeps_ret]|intros _].
  apply keeps_try.
  - apply keeps_bind; [apply keeps_get_self|intros p].
    apply keeps_bind; [|intros _].
    + destruct (negb (loop p =? 0)%Z); [|apply keeps_ret].
      apply keeps_bind; [now apply keeps_process_run|intros r].
      intros st. reflexivity.
    + apply keeps_bind; [apply keeps_get_self|intros p'].
      apply keeps_bind; [now apply keeps_process_system|intros; apply keeps_ret].
  - apply keeps_except_CmdError. intros; apply keeps_raise.
Qed.

(** The type recorded after [mount], however it ends. *)
Lemma mount_fstype_after mnt arg args chk st :
  match mount env mnt arg args chk st with
  | (Ok _, st') => fstype (self st') = mount_fstype st arg
  | (Raise _, st') =>
      fstype (self st') = fstype (self st) \/
      exists f, arg = Some f /\ fstype (self st') = Some f
  end.
Proof.
  destruct (truthy_opt (mount_target st mnt)) eqn:HT.
  - rewrite mount_unfold by assumption.
    set (st_a := with_self _ st).
    assert (Ha : fstype_of st_a = mount_fstype st arg)
      by (subst st_a; destruct arg; reflexivity).
    unfold bind.
    pose proof (keeps_fstype_with_MtabLock _
                  (keeps_fstype_mount_locked (value (mount_target st mnt))
                     (mount_args (self st) (mount_fstype st arg) args) chk) st_a) as K.
    destruct (with_MtabLock env _ st_a) as [[[]|e] st1]; cbn in *.
    + reflexivity.
    + unfold fstype_of in *. rewrite K, Ha. unfold mount_fstype.
      destruct arg as [f|]; [right; eauto|now left].
  - rewrite mount_no_target by assumption. now left.
Qed.

(** Past the check of the mount point, the type recorded after [mount] is
    the one it works with, also when it fails. *)
Lemma mount_fstype_recorded mnt arg args chk st :
  truthy_opt (mount_target st mnt) = true ->
  fstype (self (snd (mount env mnt arg args chk st))) = mount_fstype st arg.
Proof.
  intros HT. rewrite mount_unfold by assumption.
  set (st_a := with_self _ st).
  assert (Ha : fstype_of st_a = mount_fstype st arg)
    by (subst st_a; destruct arg; reflexivity).
  unfold bind.
  pose proof (keeps_fstype_with_MtabLock _
                (keeps_fstype_mount_locked (value (mount_target st mnt))
                   (mount_args (self st) (mount_fstype st arg) args) chk) st_a) as K.
  destruct (with_MtabLock env _ st_a) as [[[]|e] st1]; cbn in *.
  - reflexivity.
  - unfold fstype_of in *. now rewrite K, Ha.
Qed.

(** The type recorded after [mkfs], however it ends. *)
Lemma mkfs_fstype_after arg args st :
  match mkfs env arg args st with
  | (Ok _, st') => fstype (self st') = Some (mkfs_fstype (self st) arg)
  | (Raise _, st') => fstype (self st') = fstype (self st)
  end.
Proof.
  unfold mkfs. unfold bind at 1.
  pose proof (keeps_list_mount_devices self (fun _ _ => eq_refl) env st) as K.
  destruct (list_mount_devices env st) as [[devs|e] st1]; cbn in K;
    [|now rewrite K].
  unfold bind at 1, get_self. rewrite K.
  destruct (mem (device (self st)) devs); [cbn; now rewrite K|].
  unfold bind.
  match goal with |- context [try_except ?b ?h st1] =>
    pose proof (keeps_try self b h) as T; destruct (try_except b h st1) as [[[]|e] st2] eqn:E
  end.
  - reflexivity.
  - rewrite <- K. change (self st2) with (self (snd (Raise (A:=unit) e, st2))).
    rewrite <- E. rewrite T; [reflexivity| |].
    + apply keeps_bind; [now apply keeps_process_system_output|intros; apply keeps_ret].
    + apply keeps_except_CmdError. intros; apply keeps_raise.
Qed.

(** *** A mount that succeeds *)

Lemma mount_locked_ok mnt args chk st1 st2 :
  mount_locked env mnt args chk st1 = (Ok tt, st2) ->
  exists tr out,
    trace st2 =
      (tr ++ [ERun ("mount " ++ args ++ " " ++ device (self st2) ++ " " ++ mnt) true
                (Exited 0 out)])%list.
Proof.
  unfold mount_locked. intros H.
  apply bind_ok_inv in H as (_ & sa & _ & H).
  apply bind_ok_inv in H as (found & sb & _ & H).
  apply bind_ok_inv in H as (_ & sc & _ & H).
  apply try_raise_ok_inv in H;
    [|intros e k s; apply (except_CmdError_raises (fun d => PartitionError "Mount failed" (Some d)))].
  apply bind_ok_inv in H as (p & sd & _ & H).
  apply bind_ok_inv in H as (_ & se & _ & H).
  apply bind_ok_inv in H as (p' & sf & Hp & H). injection Hp as Hp1 Hp2. subst p' sf.
  apply bind_ok_inv in H as (z & sg & H & Hr). injection Hr as Hr. subst sg.
  apply bind_ok_inv in H as (r & sh & H & Hr). injection Hr as _ Hr. subst sh.
  apply process_run_ok_inv in H as (out & _ & _ & ->).
  exists (trace se), out. reflexivity.
Qed.

Lemma mount_ok mnt arg args chk st st' :
  mount env mnt arg args chk st = (Ok tt, st') ->
  truthy_opt (mount_target st mnt) = true /\
  fstype (self st') = mount_fstype st arg /\
  exists tr out,
    trace st' =
      (tr ++ [ERun ("mount " ++ mount_args (self st) (mount_fstype st arg) args
                      ++ " " ++ device (self st') ++ " " ++ value (mount_target st mnt))
                true (Exited 0 out);
              EUnlock])%list.
Proof.
  intros H.
  pose proof (mount_fstype_after mnt arg args chk st) as F. rewrite H in F.
  destruct (truthy_opt (mount_target st mnt)) eqn:HT;
    [|rewrite mount_no_target in H by assumption; discriminate].
  split; [reflexivity|]. split; [exact F|].
  rewrite mount_unfold in H by assumption.
  apply bind_ok_inv in H as ([] & s1 & H & Hs). injection Hs as <-.
  unfold with_MtabLock in H.
  destruct (MtabLock_enter env _) as [[[]|e] s0]; [|discriminate].
  destruct (mount_locked env _ _ chk s0) as [[[]|e] s2] eqn:EL; cycle 1.
  { destruct (MtabLock_exit s2). discriminate. }
  apply mount_locked_ok in EL as (tr & out & ET).
  unfold MtabLock_exit, bind, FileLock_exit in H.
  exists tr, out.
  destruct (mtab_open s2); injection H as <-; cbn; rewrite ET; now rewrite <- app_assoc.
Qed.

(** *** Lines of an output whose final line breaks are removed *)

Lemma splitlines_by_cons sp c s :
  splitlines_by sp (String c s) =
    if sp c then
      EmptyString ::
        match s with
        | String c' s'' =>
            if Ascii.eqb c CR && Ascii.eqb c' LF then splitlines_by sp s''
            else splitlines_by sp s
        | EmptyString => []
        end
    else match splitlines_by sp s with
         | l :: ls => String c l :: ls
         | [] => [String c EmptyString]
         end.
Proof. reflexivity. Qed.

Lemma rstrip_by_cons sp c s :
  rstrip_by sp (String c s) =
    match rstrip_by sp s with
    | EmptyString => if sp c then EmptyString else String c EmptyString
    | String c' r => String c (String c' r)
    end.
Proof. cbn [rstrip_by]. now destruct (rstrip_by sp s). Qed.

Lemma rstrip_by_head sp c s c' r : rstrip_by sp (String c s) = String c' r -> c' = c.
Proof.
  rewrite rstrip_by_cons. destruct (rstrip_by sp s); [destruct (sp c)|]; congruence.
Qed.

Lemma splitlines_by_some sp c s : splitlines_by sp (String c s) <> [].
Proof.
  rewrite splitlines_by_cons. destruct (sp c); [discriminate|].
  destruct (splitlines_by sp s); discriminate.
Qed.

(** Removing the line breaks that end a text removes lines from the end
    only: the lines that stay are the first of the lines of the text. *)
Lemma splitlines_rstrip_firstn sp : forall n s,
  (String.length s <= n)%nat ->
  exists k, splitlines_by sp (rstrip_by sp s) = firstn k (splitlines_by sp s).
Proof.
  induction n as [|n IH]; intros s Hn.
  - destruct s; [|cbn in Hn; lia]. now exists 0%nat.
  - destruct s as [|c s]; [now exists 0%nat|]. cbn [String.length] in Hn.
    assert (Hs : (String.length s <= n)%nat) by lia.
    rewrite rstrip_by_cons. destruct (rstrip_by sp s) as [|c' r] eqn:ER.
    + destruct (sp c) eqn:Hc; [now exists 0%nat|]. exists 1%nat.
      rewrite (splitlines_by_cons sp c s), (splitlines_by_cons sp c ""), Hc.
      destruct s as [|c1 s1]; [reflexivity|].
      assert (H1 : sp c1 = true).
      { rewrite rstrip_by_cons in ER. destruct (rstrip_by sp s1); [|discriminate].
        destruct (sp c1); [reflexivity|discriminate]. }
      rewrite (splitlines_by_cons sp c1 s1), H1. reflexivity.
    + destruct s as [|c1 s1]; [discriminate|].
      pose proof (rstrip_by_head _ _ _ _ _ ER) as ->.
      destruct (sp c) eqn:Hc.
      * rewrite (splitlines_by_cons sp c (String c1 r)), (splitlines_by_cons sp c (String c1 s1)), Hc.
        destruct (Ascii.eqb c CR && Ascii.eqb c1 LF).
        -- assert (HR : r = EmptyString \/ r = rstrip_by sp s1).
           { rewrite rstrip_by_cons in ER. destruct (rstrip_by sp s1).
             - destruct (sp c1); [discriminate|]. left. congruence.
             - right. congruence. }
           destruct HR as [-> | ->].
           ++ now exists 1%nat.
           ++ destruct (IH s1) as [k E]; [cbn [String.length] in Hs; lia|].
              exists (S k). cbn [firstn]. now rewrite E.
        -- destruct (IH (String c1 s1) Hs) as [k E]. rewrite ER in E.
           exists (S k). cbn [firstn]. now rewrite E.
      * rewrite (splitlines_by_cons sp c (String c1 r)), (splitlines_by_cons sp c (String c1 s1)), Hc.
        destruct (IH (String c1 s1) Hs) as [k E]. rewrite ER in E.
        pose proof (splitlines_by_some sp c1 r) as N. rewrite E in *.
        destruct k as [|k]; [now destruct N|].
        destruct (splitlines_by sp (String c1 s1)) as [|l ls]; [now destruct N|].
        exists (S k). reflexivity.
Qed.

Lemma no_more_lines_rstrip out :
  tl (bsplitlines out) = [] -> tl (bsplitlines (rstrip_newlines out)) = [].
Proof.
  intros H. destruct (splitlines_rstrip_firstn is_blinebreak _ out (le_n _)) as [k E].
  unfold bsplitlines, rstrip_newlines in *. rewrite E.
  destruct (splitlines_by is_blinebreak out) as [|l [|l' ls]]; [| |discriminate].
  - now rewrite firstn_nil.
  - destruct k as [|k]; [reflexivity|]. cbn. now rewrite firstn_nil.
Qed.

(** *** Forced unmount *)

Lemma pid_of_line_raise line e :
  pid_of_line line = Raise e -> e = IndexError \/ e = ValueError.
Proof.
  unfold pid_of_line, getitem. destruct (nth_error (bsplit line) 1) as [tok|]; cbn.
  - destruct (int_of tok) as [n|]; [discriminate|]. intros [= <-]. now right.
  - intros [= <-]. now left.
Qed.

Lemma comprehension_pid_raise lines e :
  comprehension pid_of_line lines = Raise e -> e = IndexError \/ e = ValueError.
Proof.
  induction lines as [|l ls IH]; [discriminate|]. cbn.
  destruct (pid_of_line l) as [n|e'] eqn:E.
  - destruct (comprehension pid_of_line ls) as [ns|e'']; [discriminate|].
    intros [= <-]. now apply IH.
  - intros [= <-]. now apply pid_of_line_raise in E.
Qed.

(** What [_get_pids_on_mountpoint] gives, by the outcome of the query. *)
Lemma _get_pids_on_mountpoint_eq mnt st :
  _get_pids_on_mountpoint env mnt st =
    (match spawn env (trace st) ("lsof " ++ mnt) true with
     | NotStarted =>
         Raise (PartitionError
                  ("Could not run lsof to identify processes using " ++ dquote ++ mnt ++ dquote)
                  (Some OSError))
     | Exited s out =>
         if (s =? 0)%Z
         then comprehension pid_of_line (tl (bsplitlines (rstrip_newlines out)))
         else Raise (PartitionError ("Failure executing " ++ dquote ++ ("lsof " ++ mnt) ++ dquote)
                                    (Some (CmdError ("lsof " ++ mnt) s out)))
     end, log (ERun ("lsof " ++ mnt) true (spawn env (trace st) ("lsof " ++ mnt) true)) st).
Proof.
  unfold _get_pids_on_mountpoint, try_except, process_system_output, bind.
  rewrite process_run_eq.
  destruct (spawn env (trace st) ("lsof " ++ mnt) true) as [s out|]; [|reflexivity].
  rewrite orb_false_r. destruct (s =? 0)%Z; [|reflexivity].
  cbn. unfold lift. destruct (comprehension pid_of_line _) as [pids|e] eqn:E; [reflexivity|].
  apply comprehension_pid_raise in E as [-> | ->]; reflexivity.
Qed.

(** The signals: one command per PID, in order; no exit status stops the loop. *)
Lemma kill_loop pids st :
  (forall tr pid, In pid pids -> spawn env tr (kill_cmd pid) true <> NotStarted) ->
  exists kills,
    for_each pids (kill_pid env) st = (Ok tt, extend kills st) /\
    commands kills = map kill_cmd pids.
Proof.
  revert st. induction pids as [|pid pids IH]; intros st HS.
  - exists []. split; [|reflexivity]. cbn. unfold ret, extend. rewrite app_nil_r.
    destruct st; reflexivity.
  - cbn [for_each]. unfold bind at 1. unfold kill_pid at 1.
    unfold try_except, process_system. unfold bind at 1 2.
    rewrite process_run_eq.
    destruct (spawn env (trace st) (kill_cmd pid) true) as [s out|] eqn:E;
      [|exfalso; apply (HS (trace st) pid); [now left|exact E]].
    rewrite orb_true_r. cbn [ret].
    destruct (IH (log (ERun (kill_cmd pid) true (Exited s out)) st)) as (kills & HK & HC).
    { intros tr p Hp. apply HS. now right. }
    exists (ERun (kill_cmd pid) true (Exited s out) :: kills). split.
    + rewrite HK. unfold extend, log. cbn. now rewrite <- app_assoc.
    + cbn. now rewrite HC.
Qed.

(** The two unmount attempts: the lazy one runs only after the forced one
    failed. *)
Lemma umount_forced_eq mnt st :
  umount_forced env mnt st =
    let o_f := spawn env (trace st) ("umount -f " ++ mnt) true in
    let st5 := log (ERun ("umount -f " ++ mnt) true o_f) st in
    let o_l := spawn env (trace st5) ("umount -l " ++ mnt) true in
    let st6 := log (ERun ("umount -l " ++ mnt) true o_l) st5 in
    match o_f with
    | NotStarted => (Raise (Foreign OSError), st5)
    | Exited s _ =>
        if (s =? 0)%Z then (Ok tt, st5)
        else match o_l with
             | NotStarted => (Raise (Foreign OSError), st6)
             | Exited s' out' =>
                 if (s' =? 0)%Z then (Ok tt, st6)
                 else (Raise (PartitionError "Force unmount failed"
                                (Some (CmdError ("umount -l " ++ mnt) s' out'))), st6)
             end
    end.
Proof.
  cbv zeta. unfold umount_forced, try_except, bind. rewrite process_run_eq.
  destruct (spawn env (trace st) ("umount -f " ++ mnt) true) as [s out|]; [|reflexivity].
  rewrite orb_false_r. destruct (s =? 0)%Z; [reflexivity|].
  cbn [except_CmdError]. rewrite process_run_eq.
  destruct (spawn env _ ("umount -l " ++ mnt) true) as [s' out'|]; [|reflexivity].
  rewrite orb_false_r. destruct (s' =? 0)%Z; reflexivity.
Qed.

(** The detach that ends [unmount]. *)
Lemma detach_loop_eq st :
  detach_loop env st =
    if (loop (self st) =? 0)%Z then (Ok tt, st)
    else
      let o_d := spawn env (trace st) ("losetup -d " ++ device (self st)) true in
      let st' := log (ERun ("losetup -d " ++ device (self st)) true o_d) st in
      match o_d with
      | NotStarted => (Raise (Foreign OSError), st')
      | Exited s out =>
          if (s =? 0)%Z then (Ok tt, st')
          else (Raise (PartitionError "Unable to cleanup loop device"
                         (Some (CmdError ("losetup -d " ++ device (self st)) s out))), st')
      end.
Proof.
  unfold detach_loop, bind, get_self. destruct (loop (self st) =? 0)%Z; [reflexivity|].
  cbn [negb]. unfold try_except, bind. rewrite process_run_eq.
  destruct (spawn env (trace st) _ true) as [s out|]; [|reflexivity].
  rewrite orb_false_r. destruct (s =? 0)%Z; reflexivity.
Qed.

(** A mount point that [get_mountpoint()] resolves is not the empty string. *)
Lemma get_mountpoint_truthy st mp st2 :
  get_mountpoint env None st = (Ok (Some mp), st2) -> truthy mp = true.
Proof.
  unfold get_mountpoint, get_mountpoint_default. unfold bind at 1.
  destruct (get_mountpoint_in env "/proc/mounts" st) as [[r1|e1] s1]; [|discriminate].
  destruct (negb (truthy_opt r1)) eqn:T1.
  - unfold bind. destruct (get_mountpoint_in env "/etc/mtab" s1) as [[r2|e2] s2];
      [|discriminate].
    destruct (negb (eq_opt r2 (Some "/"))) eqn:T2; [discriminate|].
    intros [= -> _]. cbn in T2. apply negb_false_iff, String.eqb_eq in T2. now subst mp.
  - intros [= -> _]. now apply negb_false_iff in T1.
Qed.

(** The locked block of [unmount] when the graceful unmount fails and
    forcing is enabled: it goes on with [_unmount_force]. *)
Lemma unmount_locked_forced st1 mp st2 s out :
  get_mountpoint env None st1 = (Ok (Some mp), st2) ->
  spawn env (trace st2) ("umount " ++ mp) true = Exited s out -> s <> 0%Z ->
  unmount_locked env true st1 =
    (_unmount_force env mp ;;; ret (Next 2%Z))
      (log (ERun ("umount " ++ mp) true (Exited s out)) st2).
Proof.
  intros HG HS Hs. unfold unmount_locked. unfold bind at 1. rewrite HG.
  cbn [truthy_opt]. rewrite (get_mountpoint_truthy _ _ _ HG). cbn [negb value].
  unfold try_except. unfold bind at 1. rewrite process_run_eq, HS.
  apply Z.eqb_neq in Hs. rewrite Hs. reflexivity.
Qed.

(** *** How [unmount] ends *)

Lemma _unmount_force_steps mnt st pids st3 st4 :
  _get_pids_on_mountpoint env mnt st = (Ok pids, st3) ->
  for_each pids (kill_pid env) st3 = (Ok tt, st4) ->
  _unmount_force env mnt st = umount_forced env mnt st4.
Proof.
  intros H1 H2. unfold _unmount_force, bind. now rewrite H1, H2.
Qed.

(** [unmount], from the way the block under the lock ended. *)
Lemma unmount_after_block force st r stB :
  enters env st ->
  unmount_locked env force (entered st) = (r, stB) ->
  mtab_open stB = true ->
  unmount env force st =
    match r with
    | Ok (Return v) => (Ok v, released stB)
    | Ok (Next result) => (detach_loop env ;;; ret result) (released stB)
    | Raise e => (Raise e, released stB)
    end.
Proof.
  intros HE HB HO. unfold unmount. unfold bind at 1.
  rewrite (with_MtabLock_run _ _ _ _ HE HB HO). destruct r as [[v|result]|e]; reflexivity.
Qed.

(** The end of [unmount] once the block has ended with [Next result]. *)
Lemma unmount_detach (result : Z) st :
  (detach_loop env ;;; ret result) st =
    if (loop (self st) =? 0)%Z then (Ok result, st)
    else
      let detach := "losetup -d " ++ device (self st) in
      let o_d := spawn env (trace st) detach true in
      (if succeeded o_d then Ok result
       else match o_d with
            | NotStarted => Raise (Foreign OSError)
            | _ => Raise (PartitionError "Unable to cleanup loop device" (cmd_error detach o_d))
            end,
       log (ERun detach true o_d) st).
Proof.
  unfold bind. rewrite detach_loop_eq. destruct (loop (self st) =? 0)%Z; [reflexivity|].
  cbv zeta. destruct (spawn env (trace st) _ true) as [s out|]; [|reflexivity].
  cbn. destruct (s =? 0)%Z; reflexivity.
Qed.

(** A graceful unmount that succeeds. *)
Lemma unmount_graceful force st mp st2 out :
  enters env st ->
  get_mountpoint env None (entered st) = (Ok (Some mp), st2) ->
  spawn env (trace st2) ("umount " ++ mp) true = Exited 0 out ->
  unmount env force st =
    (detach_loop env ;;; ret 1%Z)
      (released (log (ERun ("umount " ++ mp) true (Exited 0 out)) st2)).
Proof.
  intros HE HG HU.
  assert (HB : unmount_locked env force (entered st) =
               (Ok (Next 1%Z), log (ERun ("umount " ++ mp) true (Exited 0 out)) st2)).
  { unfold unmount_locked. unfold bind at 1. rewrite HG.
    cbn [truthy_opt]. rewrite (get_mountpoint_truthy _ _ _ HG). cbn [negb value].
    unfold try_except, bind. rewrite process_run_eq, HU. reflexivity. }
  rewrite (unmount_after_block _ _ _ _ HE HB); [reflexivity|].
  pose proof (keeps_get_mountpoint mtab_open (fun _ _ => eq_refl) env None (entered st)) as K.
  rewrite HG in K. exact K.
Qed.

(** When the block ends with [Next], a mount point was resolved. *)
Lemma unmount_locked_next force st result st' :
  unmount_locked env force st = (Ok (Next result), st') ->
  exists mp st2, get_mountpoint env None st = (Ok (Some mp), st2).
Proof.
  unfold unmount_locked. unfold bind at 1.
  destruct (get_mountpoint env None st) as [[mnt|e] st2]; [|discriminate].
  destruct mnt as [mp|]; [eauto|discriminate].
Qed.

Lemma with_MtabLock_ok_inv {A} (body : M A) st a st' :
  with_MtabLock env body st = (Ok a, st') ->
  enters env st /\ exists st2, body (entered st) = (Ok a, st2).
Proof.
  unfold with_MtabLock. pose proof (MtabLock_enter_cases st) as C.
  destruct (lock_enter env (trace st)) eqn:HL.
  - destruct (file_lines env _ MtabLock_device) eqn:HF.
    + rewrite C. destruct (body (entered st)) as [r st2]. destruct (MtabLock_exit st2).
      intros [= -> _]. split; [split; congruence|eauto].
    + rewrite C. discriminate.
  - rewrite C. discriminate.
  - rewrite C. discriminate.
Qed.

(** *** No detach under the lock *)

Lemma emits_get_mountpoint_in f : emits not_detach (get_mountpoint_in env f).
Proof.
  unfold get_mountpoint_in.
  apply emits_bind; [apply emits_open_lines; intros; exact I|intros lines].
  apply emits_bind; [apply emits_get_self|intros; apply emits_lift].
Qed.

Lemma emits_get_mountpoint f : emits not_detach (get_mountpoint env f).
Proof.
  assert (D : emits not_detach (get_mountpoint_default env)).
  { unfold get_mountpoint_default.
    apply emits_bind; [apply emits_get_mountpoint_in|intros r].
    destruct (negb (truthy_opt r)); [|apply emits_ret].
    apply emits_bind; [apply emits_get_mountpoint_in|intros r'].
    destruct (negb (eq_opt r' (Some "/"))); apply emits_ret. }
  unfold get_mountpoint. destruct f as [f|]; [|exact D].
  destruct (truthy f); [apply emits_get_mountpoint_in|exact D].
Qed.

Lemma emits_run_not_detach cmd ign sudo :
  startswith cmd "losetup -d " = false ->
  emits not_detach (process_run env cmd ign sudo ;;; ret tt).
Proof.
  intros H. apply emits_bind; [|intros; apply emits_ret].
  apply emits_process_run. intros o. exact H.
Qed.

Lemma emits__unmount_force mnt : emits not_detach (_unmount_force env mnt).
Proof.
  unfold _unmount_force. apply emits_bind; [|intros pids; apply emits_bind; [|intros _]].
  - unfold _get_pids_on_mountpoint. apply emits_try.
    + apply emits_bind; [|intros; apply emits_lift].
      apply emits_bind; [apply emits_process_run; intros; reflexivity|intros; apply emits_ret].
    + intros e k. destruct (except_OSError _ e) as [k0|] eqn:E0.
      * intros [= <-]. revert E0. apply emits_except_OSError. intros; apply emits_raise.
      * apply emits_except_CmdError. intros; apply emits_raise.
  - apply emits_for_each. intros pid. apply emits_try.
    + apply emits_bind; [|intros; apply emits_ret].
      apply emits_bind; [apply emits_process_run; intros; reflexivity|intros; apply emits_ret].
    + apply emits_except_CmdError. intros; apply emits_raise.
  - apply emits_try.
    + now apply emits_run_not_detach.
    + apply emits_except_CmdError. intros _. apply emits_try.
      * now apply emits_run_not_detach.
      * apply emits_except_CmdError. intros; apply emits_raise.
Qed.

Lemma emits_unmount_locked force : emits not_detach (unmount_locked env force).
Proof.
  unfold unmount_locked. apply emits_bind; [apply emits_get_mountpoint|intros mnt].
  cbv zeta. destruct (negb (truthy_opt mnt)); [apply emits_ret|].
  apply emits_try.
  - apply emits_bind; [apply emits_process_run; intros; reflexivity|intros; apply emits_ret].
  - apply emits_except_CmdError. intros d. destruct force; [|apply emits_raise].
    apply emits_bind; [apply emits__unmount_force|intros; apply emits_ret].
Qed.

Lemma emits_with_MtabLock {A} (body : M A) :
  emits not_detach body -> emits not_detach (with_MtabLock env body).
Proof.
  intros HB st. unfold with_MtabLock. pose proof (MtabLock_enter_cases st) as C.
  destruct (lock_enter env (trace st)).
  - destruct (file_lines env _ MtabLock_device).
    + rewrite C. destruct (HB (entered st)) as (evs & T & F).
      destruct (body (entered st)) as [r st2]. cbn in T.
      exists ([ELock Acquired; EOpen MtabLock_device true] ++ evs ++ [EUnlock])%list. split.
      * unfold MtabLock_exit, bind, FileLock_exit.
        destruct (mtab_open st2); cbn; rewrite T; cbn; now rewrite <- !app_assoc.
      * repeat constructor. apply Forall_app. split; [exact F|now repeat constructor].
    + rewrite C. eexists. split; [reflexivity|now repeat constructor].
  - rewrite C. exists [ELock NotAcquired]. split; [reflexivity|now repeat constructor].
  - rewrite C. exists [ELock HeldAlready]. split; [reflexivity|now repeat constructor].
Qed.

Lemma not_detach_commands evs cmd :
  Forall not_detach evs -> In cmd (commands evs) -> startswith cmd "losetup -d " = false.
Proof.
  induction 1 as [|e evs He _ IH]; [contradiction|].
  destruct e; cbn; auto. intros [<-|H]; [exact He|auto].
Qed.

Lemma emits_detach_loop : emits (fun _ => True) (detach_loop env).
Proof.
  unfold detach_loop. apply emits_bind; [apply emits_get_self|intros p].
  destruct (negb (loop p =? 0)%Z); [|apply emits_ret].
  apply emits_try.
  - apply emits_bind; [now apply emits_process_run|intros; apply emits_ret].
  - apply emits_except_CmdError. intros; apply emits_raise.
Qed.

(** *** Scanning a mount table *)

Lemma scan_app p pre rest :
  get_mountpoint_scan env p pre = Ok None ->
  get_mountpoint_scan env p (pre ++ rest) = get_mountpoint_scan env p rest.
Proof.
  induction pre as [|l pre IH]; [reflexivity|]. cbn.
  destruct (get_mountpoint_line env p l) as [[m|]|e]; try discriminate. exact IH.
Qed.

Lemma scan_total p lines :
  Forall (fun l => (2 <= length (split l))%nat) lines ->
  exists r, get_mountpoint_scan env p lines = Ok r.
Proof.
  induction 1 as [|l ls Hl _ IH]; [now exists None|]. cbn.
  unfold get_mountpoint_line.
  destruct (split l) as [|d [|m parts]]; cbn in Hl; try lia. cbn [getitem nth_error].
  destruct ((d =? device p) || (realpath env d =? realpath env (device p))); [|exact IH].
  destruct (eq_opt (Some m) (mountpoint p)); [now exists (Some m)|exact IH].
Qed.

Lemma get_mountpoint_file f st lines :
  truthy f = true -> file_lines env (trace st) f = Some lines ->
  get_mountpoint env (Some f) st =
    (get_mountpoint_scan env (self st) lines, log (EOpen f true) st).
Proof.
  intros HT HF. unfold get_mountpoint. rewrite HT.
  unfold get_mountpoint_in, bind, open_lines. rewrite HF. reflexivity.
Qed.

Lemma append_empty_r (s : string) : s ++ "" = s.
Proof. induction s as [|c s IH]; [reflexivity|]. cbn. now rewrite IH. Qed.

(** ** The claims *)

(** C1.  The lock is not released on every path.  When [FileLock] is
    obtained and opening /etc/mtab then fails inside [MtabLock.__enter__],
    the [with] block is not entered and [__exit__] is not called: [mount]
    and [unmount] end in that [OSError] with the lock still held. *)
Theorem C1_lock_left_held_when_mtab_cannot_be_opened st mnt arg args chk force :
  lock_enter env (trace st) = Acquired ->
  file_lines env (trace st ++ [ELock Acquired]) MtabLock_device = None ->
  (truthy_opt (mount_target st mnt) = true ->
   exists st', mount env mnt arg args chk st = (Raise (Foreign OSError), st') /\
               lock_held st' = true) /\
  (exists st', unmount env force st = (Raise (Foreign OSError), st') /\
               lock_held st' = true).
Proof.
  intros HL HF. split.
  - intros HT. now apply mount_leak.
  - now apply unmount_leak.
Qed.

(** C2 (amended).  For a partition whose device is absent from the live
    mount table, [unmount], whatever [force], returns 1 without raising and
    without running any command: it only takes the lock and reads
    /proc/mounts and /etc/mtab.  That status is not one of its own: a
    graceful unmount that succeeds returns 1 as well. *)
Theorem C2_unmount_of_absent_device_returns_1 st force :
  (lock_enter env (trace st) = Acquired ->
   unmounted env (self st) ->
   exists st',
     unmount env force st = (Ok 1%Z, st') /\
     commands (trace st') = commands (trace st) /\
     trace st' = (trace st ++ [ELock Acquired; EOpen "/etc/mtab" true;
                               EOpen "/proc/mounts" true; EOpen "/etc/mtab" true;
                               EUnlock])%list /\
     self st' = self st /\ lock_held st' = false) /\
  (forall mp st2 out,
     enters env st ->
     get_mountpoint env None (entered st) = (Ok (Some mp), st2) ->
     spawn env (trace st2) ("umount " ++ mp) true = Exited 0 out ->
     loop (self st) = 0%Z ->
     fst (unmount env force st) = Ok 1%Z).
Proof.
  split.
  - intros HL U. destruct (unmount_absent st force HL U) as [_ E].
    eexists. split; [exact E|]. cbn. rewrite commands_app. cbn. rewrite app_nil_r.
    repeat split; reflexivity.
  - intros mp st2 out HE HG HU H0.
    rewrite (unmount_graceful force _ _ _ _ HE HG HU), unmount_detach.
    pose proof (keeps_get_mountpoint self (fun _ _ => eq_refl) env None (entered st)) as K.
    rewrite HG in K. cbn in K. cbn [self released log]. rewrite K, H0. reflexivity.
Qed.

(** C3 (amended).  When the graceful unmount fails and [force] is enabled,
    and the enumeration gives the PIDs [pids], [unmount] runs, in order: the
    lsof query, one kill -9 per PID, umount -f and, only if that fails,
    umount -l.  If both fail it raises PartitionError "Force unmount
    failed".  If one succeeds the status is 2, returned at once for a
    partition that is not loop-backed; for a loop-backed one losetup -d runs
    first, and its failure raises PartitionError "Unable to cleanup loop
    device" instead. *)
Theorem C3_forced_unmount_escalation st st2 mp s out pids st3 :
  startable env ->
  enters env st ->
  get_mountpoint env None (entered st) = (Ok (Some mp), st2) ->
  spawn env (trace st2) ("umount " ++ mp) true = Exited s out -> s <> 0%Z ->
  _get_pids_on_mountpoint env mp (log (ERun ("umount " ++ mp) true (Exited s out)) st2)
    = (Ok pids, st3) ->
  exists o_q kills,
    trace st3 = (trace st2 ++ [ERun ("umount " ++ mp) true (Exited s out);
                               ERun ("lsof " ++ mp) true o_q])%list /\
    commands kills = map kill_cmd pids /\
    let t4 := (trace st3 ++ kills)%list in
    let o_f := spawn env t4 ("umount -f " ++ mp) true in
    let t5 := (t4 ++ [ERun ("umount -f " ++ mp) true o_f])%list in
    let o_l := spawn env t5 ("umount -l " ++ mp) true in
    let t6 := if succeeded o_f then t5
              else (t5 ++ [ERun ("umount -l " ++ mp) true o_l])%list in
    let t7 := (t6 ++ [EUnlock])%list in
    let detach := "losetup -d " ++ device (self st) in
    let o_d := spawn env t7 detach true in
    let r := fst (unmount env true st) in
    let tF := trace (snd (unmount env true st)) in
    if succeeded o_f || succeeded o_l then
      if (loop (self st) =? 0)%Z then r = Ok 2%Z /\ tF = t7
      else tF = (t7 ++ [ERun detach true o_d])%list /\
           r = if succeeded o_d then Ok 2%Z
               else Raise (PartitionError "Unable to cleanup loop device"
                             (cmd_error detach o_d))
    else
      r = Raise (PartitionError "Force unmount failed" (cmd_error ("umount -l " ++ mp) o_l)) /\
      tF = t7.
Proof.
  intros HS HE HG HU Hs HP.
  destruct (kill_loop pids st3) as (kills & HK & HC).
  { intros tr pid _. apply HS. }
  exists (spawn env (trace st2 ++ [ERun ("umount " ++ mp) true (Exited s out)])
            ("lsof " ++ mp) true), kills.
  split.
  { pose proof HP as HQ. rewrite _get_pids_on_mountpoint_eq in HQ.
    injection HQ as _ <-. cbn. now rewrite <- app_assoc. }
  split; [exact HC|]. cbv zeta.
  assert (K2 : self st2 = self st /\ mtab_open st2 = true).
  { pose proof (keeps_get_mountpoint self (fun _ _ => eq_refl) env None (entered st)) as A.
    pose proof (keeps_get_mountpoint mtab_open (fun _ _ => eq_refl) env None (entered st)) as B.
    rewrite HG in A, B. now split. }
  assert (K3 : self st3 = self st /\ mtab_open st3 = true).
  { pose proof (keeps__get_pids_on_mountpoint self (fun _ _ => eq_refl) env mp
                  (log (ERun ("umount " ++ mp) true (Exited s out)) st2)) as A.
    pose proof (keeps__get_pids_on_mountpoint mtab_open (fun _ _ => eq_refl) env mp
                  (log (ERun ("umount " ++ mp) true (Exited s out)) st2)) as B.
    rewrite HP in A, B. cbn in A, B. destruct K2. split; congruence. }
  destruct K3 as [S3 O3].
  assert (HB : unmount_locked env true (entered st) =
               (umount_forced env mp ;;; ret (Next 2%Z)) (extend kills st3)).
  { rewrite (unmount_locked_forced _ _ _ _ _ HG HU Hs).
    unfold bind at 1. rewrite (_unmount_force_steps _ _ _ _ _ HP HK). reflexivity. }
  unfold bind in HB. rewrite umount_forced_eq in HB. cbv zeta in HB.
  change (trace (extend kills st3)) with (trace st3 ++ kills)%list in HB.
  set (t4 := (trace st3 ++ kills)%list) in *.
  set (o_f := spawn env t4 ("umount -f " ++ mp) true) in *.
  pose proof (HS t4 ("umount -f " ++ mp) true) as NF. fold o_f in NF.
  destruct o_f as [sf outf|]; [|congruence]. cbn [succeeded].
  change (trace (log (ERun ("umount -f " ++ mp) true (Exited sf outf)) (extend kills st3)))
    with (t4 ++ [ERun ("umount -f " ++ mp) true (Exited sf outf)])%list in HB.
  set (t5 := (t4 ++ [ERun ("umount -f " ++ mp) true (Exited sf outf)])%list) in *.
  set (o_l := spawn env t5 ("umount -l " ++ mp) true) in *.
  pose proof (HS t5 ("umount -l " ++ mp) true) as NL. fold o_l in NL.
  assert (U : forall r stB,
             unmount_locked env true (entered st) = (r, stB) ->
             mtab_open stB = true ->
             unmount env true st =
               match r with
               | Ok (Return v) => (Ok v, released stB)
               | Ok (Next result) => (detach_loop env ;;; ret result) (released stB)
               | Raise e => (Raise e, released stB)
               end).
  { intros r stB E O. now apply unmount_after_block. }
  destruct (sf =? 0)%Z eqn:Ef.
  - cbn [orb]. cbn [ret] in HB. rewrite (U _ _ HB); [|cbn; exact O3].
    rewrite unmount_detach. cbn [self released log extend]. rewrite S3.
    destruct (loop (self st) =? 0)%Z.
    + split; [reflexivity|]. cbn. subst t5 t4. now rewrite <- !app_assoc.
    + cbv zeta. cbn [fst snd trace released log extend].
      replace (((trace st3 ++ kills) ++ [ERun ("umount -f " ++ mp) true (Exited sf outf)])
               ++ [EUnlock])%list
        with (t5 ++ [EUnlock])%list by reflexivity.
      set (o_d := spawn env (t5 ++ [EUnlock])%list ("losetup -d " ++ device (self st)) true).
      pose proof (HS (t5 ++ [EUnlock])%list ("losetup -d " ++ device (self st)) true) as ND.
      fold o_d in ND. split; [reflexivity|].
      destruct o_d as [sd outd|]; [|congruence]. cbn. destruct (sd =? 0)%Z; reflexivity.
  - cbn [orb]. destruct o_l as [sl outl|] eqn:El; [|congruence]. cbn [succeeded].
    destruct (sl =? 0)%Z eqn:Esl.
    + cbn [ret] in HB. rewrite (U _ _ HB); [|cbn; exact O3].
      rewrite unmount_detach. cbn [self released log extend]. rewrite S3.
      destruct (loop (self st) =? 0)%Z.
      * split; [reflexivity|]. cbn. subst t5 t4. now rewrite <- !app_assoc.
      * cbv zeta. cbn [fst snd trace released log extend].
        replace ((((trace st3 ++ kills) ++ [ERun ("umount -f " ++ mp) true (Exited sf outf)])
                  ++ [ERun ("umount -l " ++ mp) true (Exited sl outl)]) ++ [EUnlock])%list
          with ((t5 ++ [ERun ("umount -l " ++ mp) true (Exited sl outl)]) ++ [EUnlock])%list
          by reflexivity.
        set (t7 := ((t5 ++ [ERun ("umount -l " ++ mp) true (Exited sl outl)])
                    ++ [EUnlock])%list).
        set (o_d := spawn env t7 ("losetup -d " ++ device (self st)) true).
        pose proof (HS t7 ("losetup -d " ++ device (self st)) true) as ND.
        fold o_d in ND. split; [reflexivity|].
        destruct o_d as [sd outd|]; [|congruence]. cbn. destruct (sd =? 0)%Z; reflexivity.
    + rewrite (U _ _ HB); [|cbn; exact O3].
      split; reflexivity.
Qed.

(** C4 (amended).  The enumeration raises a PartitionError exactly when the
    lsof command does not exit with status 0, whatever the reason (its exit
    status 1 for "nothing found" included) or cannot be started, and the
    recovery then stops before any unmount attempt.  When lsof exits with
    status 0 and lists no process, the PID list is empty and the recovery
    goes on to the unmount attempts. *)
Theorem C4_enumeration_failure_aborts_recovery mnt st :
  let query := "lsof " ++ mnt in
  let o := spawn env (trace st) query true in
  let st' := log (ERun query true o) st in
  ((exists reason details,
      fst (_get_pids_on_mountpoint env mnt st) = Raise (PartitionError reason details))
   <-> succeeded o = false) /\
  (succeeded o = false ->
   exists reason details,
     _unmount_force env mnt st = (Raise (PartitionError reason details), st')) /\
  (forall out, o = Exited 0 out -> tl (bsplitlines out) = [] ->
     _get_pids_on_mountpoint env mnt st = (Ok [], st') /\
     _unmount_force env mnt st = umount_forced env mnt st').
Proof.
  cbv zeta. pose proof (_get_pids_on_mountpoint_eq mnt st) as E.
  destruct (spawn env (trace st) ("lsof " ++ mnt) true) as [s out|] eqn:O; cbn [succeeded].
  - destruct (s =? 0)%Z eqn:Es.
    + split; [|split].
      * split; [|discriminate]. intros (reason & details & H). rewrite E in H. cbn in H.
        apply comprehension_pid_raise in H as [H|H]; discriminate H.
      * discriminate.
      * apply Z.eqb_eq in Es. subst s. intros out' [= <-] HT.
        rewrite (no_more_lines_rstrip _ HT) in E.
        split; [exact E|].
        now apply _unmount_force_steps
          with (pids := []) (st3 := log (ERun ("lsof " ++ mnt) true (Exited 0 out)) st).
    + split; [|split].
      * split; [reflexivity|]. intros _. rewrite E. cbn. eauto.
      * intros _. unfold _unmount_force, bind. rewrite E. eauto.
      * intros out' [= -> _]. discriminate Es.
  - split; [|split].
    + split; [reflexivity|]. intros _. rewrite E. cbn. eauto.
    + intros _. unfold _unmount_force, bind. rewrite E. eauto.
    + discriminate.
Qed.

(** C5 (amended).  [mount] works with the filesystem type given as argument,
    else with the recorded one, and has no default: when neither is set no
    -t flag is passed and the recorded type stays unset.  After a successful
    mount the recorded type is that resolved value, and the command that ran
    is "mount <options> <device> <mount point>" whose options end with
    " -t <type>" exactly when a type was resolved. *)
Theorem C5_mount_records_the_resolved_fstype mnt arg args chk st st' :
  mount env mnt arg args chk st = (Ok tt, st') ->
  fstype (self st') = mount_fstype st arg /\
  (exists tr out,
     trace st' =
       (tr ++ [ERun ("mount " ++ mount_args (self st) (mount_fstype st arg) args
                       ++ " " ++ device (self st') ++ " " ++ value (mount_target st mnt))
                 true (Exited 0 out);
               EUnlock])%list) /\
  mount_args (self st) (mount_fstype st arg) args =
    lstrip ((if truthy_opt (mount_options (self st))
             then args ++ " -o " ++ value (mount_options (self st))
             else args)
            ++ (if truthy_opt (mount_fstype st arg)
                then " -t " ++ value (mount_fstype st arg)
                else "")).
Proof.
  intros H. destruct (mount_ok _ _ _ _ _ _ H) as (_ & F & T).
  split; [exact F|]. split; [exact T|].
  unfold mount_args. destruct (truthy_opt (mount_fstype st arg)); [reflexivity|].
  now rewrite append_empty_r.
Qed.


(** C8.  The recorded filesystem type changes as a side effect of [mkfs] and
    of [mount] and no failure puts an earlier value back.  After a [mkfs]
    that fails it is what it was before the call, after one that succeeds
    the type the call settled on.  A [mount] without a mount point raises
    before it records anything and leaves the state as it was.  Past that
    check [mount] records the type it works with (its argument, else the
    recorded one), and however the call ends, with whatever failure, the
    recorded type afterwards is that one: when a type was given it is the
    given one, not the one recorded before.  So after a [mount] that fails
    the recorded type is what it was before the call or the type the call
    was given and recorded. *)
Theorem C8_fstype_is_never_reverted st arg args :
  match mkfs env arg args st with
  | (Ok _, st') => fstype (self st') = Some (mkfs_fstype (self st) arg)
  | (Raise _, st') => fstype (self st') = fstype (self st)
  end /\
  forall mnt chk,
    (truthy_opt (mount_target st mnt) = false ->
     mount env mnt arg args chk st =
       (Raise (PartitionError
                 "No mountpoint specified and no default provided to this partition object"
                 None), st)) /\
    (truthy_opt (mount_target st mnt) = true ->
     fstype (self (snd (mount env mnt arg args chk st))) = mount_fstype st arg) /\
    match mount env mnt arg args chk st with
    | (Ok _, st') => fstype (self st') = mount_fstype st arg
    | (Raise _, st') =>
        fstype (self st') = fstype (self st) \/
        exists f, arg = Some f /\ fstype (self st') = Some f
    end.
Proof.
  split; [apply mkfs_fstype_after|]. intros mnt chk.
  split; [apply mount_no_target|]. split; [apply mount_fstype_recorded|].
  apply mount_fstype_after.
Qed.

(** C9.  For a loop-backed partition whose device is absent from the mount
    table, [unmount] leaves through the [return] inside the locked block
    with status 1 and nothing runs afterwards: no command at all, so no
    losetup -d.  In general a losetup -d appears in what [unmount] adds to
    the log only when a mount point was resolved and the locked block ran
    to its end. *)
Theorem C9_detach_only_after_an_unmount st force :
  ((0 < loop (self st))%Z ->
   lock_enter env (trace st) = Acquired ->
   unmounted env (self st) ->
   exists stL,
     with_MtabLock env (unmount_locked env force) st = (Ok (Return 1%Z), stL) /\
     unmount env force st = (Ok 1%Z, stL) /\
     commands (trace stL) = commands (trace st)) /\
  (exists evs,
     trace (snd (unmount env force st)) = (trace st ++ evs)%list /\
     ((exists cmd, In cmd (commands evs) /\ startswith cmd "losetup -d " = true) ->
      exists mp st2 result stL,
        get_mountpoint env None (entered st) = (Ok (Some mp), st2) /\
        with_MtabLock env (unmount_locked env force) st = (Ok (Next result), stL))).
Proof.
  split.
  - intros _ HL U. destruct (unmount_absent st force HL U) as [W E].
    eexists. split; [exact W|]. split; [exact E|].
    cbn. rewrite commands_app. cbn. now rewrite app_nil_r.
  - destruct (emits_with_MtabLock _ (emits_unmount_locked force) st) as (evs & T & F).
    unfold unmount. unfold bind at 1.
    destruct (with_MtabLock env (unmount_locked env force) st) as [[[v|result]|e] stL] eqn:W;
      cbn in T.
    + exists evs. split; [exact T|]. intros (cmd & HI & HS).
      rewrite (not_detach_commands _ _ F HI) in HS. discriminate.
    + destruct (emits_bind (fun _ => True) (detach_loop env) (fun _ => ret result)
                  emits_detach_loop (fun _ => emits_ret _ result) stL) as (evs' & T' & _).
      exists (evs ++ evs')%list. split; [rewrite T', T; now rewrite <- app_assoc|].
      intros _. apply with_MtabLock_ok_inv in W as (HE & stB & HB).
      destruct (unmount_locked_next _ _ _ _ HB) as (mp & st2 & HG).
      exists mp, st2, result, stL. split; [exact HG|reflexivity].
    + exists evs. split; [exact T|]. intros (cmd & HI & HS).
      rewrite (not_detach_commands _ _ F HI) in HS. discriminate.
Qed.

(** C10 (amended).  [get_mountpoint(filename)] returns a result on every file whose
    lines all have at least two fields.  On a file with a blank line, or
    with a line of a single field that names the partition's device, it
    raises IndexError when the scan reaches that line (no line before it
    was the partition's entry), instead of returning a mount point or
    None. *)
Theorem C10_get_mountpoint_needs_two_fields f st lines :
  truthy f = true ->
  file_lines env (trace st) f = Some lines ->
  (Forall (fun l => (2 <= length (split l))%nat) lines ->
   exists r, fst (get_mountpoint env (Some f) st) = Ok r) /\
  (forall pre line post,
     lines = (pre ++ line :: post)%list ->
     get_mountpoint_scan env (self st) pre = Ok None ->
     split line = [] \/
     (length (split line) = 1%nat /\ names_device env (self st) line = true) ->
     fst (get_mountpoint env (Some f) st) = Raise IndexError).
Proof.
  intros HT HF. rewrite (get_mountpoint_file _ _ _ HT HF). cbn [fst]. split.
  - apply scan_total.
  - intros pre line post -> HP HB. rewrite (scan_app _ _ _ HP). cbn.
    unfold get_mountpoint_line, names_device in *.
    destruct HB as [HB|[HL HN]].
    + now rewrite HB.
    + destruct (split line) as [|d [|m parts]]; try discriminate. cbn. now rewrite HN.
Qed.

End Properties.

(** ** Further properties *)


(** X2.  The type flag of [mkfs].  When the caller's arguments or the
    partition's mkfs_flags hold the flag -t, the command line is the
    arguments with the flags appended, nothing injected.  When the text
    "-t" occurs in neither, "-t <fstype>" is put in front. *)
Theorem mkfs_type_flag_injection p ft args :
  (mem "-t" (split args) = true \/ mem "-t" (split (mkfs_flags p)) = true ->
   mkfs_cmd p ft args = "mkfs " ++ strip (mkfs_options p ft args) ++ " " ++ device p) /\
  (contains "-t" args = false -> contains "-t" (mkfs_flags p) = false ->
   mkfs_cmd p ft args =
     "mkfs " ++ strip ("-t " ++ ft ++ " " ++ mkfs_options p ft args) ++ " " ++ device p).
Proof.
  unfold mkfs_cmd, mkfs_args. split.
  - intros H. rewrite mkfs_options_keep_flag; [reflexivity|].
    destruct H as [H|H]; apply mem_In, split_token_contains in H; [now left|right].
    split; [|exact H]. destruct (mkfs_flags p); [discriminate H|reflexivity].
  - intros HA HF. now rewrite mkfs_options_no_flag.
Qed.

(** X3.  [mkfs] never touches the lock. *)
Theorem mkfs_keeps_the_lock env arg args st :
  lock_held (snd (mkfs env arg args st)) = lock_held st.
Proof.
  revert st. change (keeps lock_held (mkfs env arg args)). unfold mkfs.
  apply keeps_bind; [now apply keeps_list_mount_devices|intros devs].
  apply keeps_bind; [apply keeps_get_self|intros p].
  destruct (mem (device p) devs); [apply keeps_raise|].
  apply keeps_bind; [|intros; intros st; reflexivity].
  apply keeps_try.
  - apply keeps_bind; [now apply keeps_process_system_output|intros; apply keeps_ret].
  - apply keeps_except_CmdError. intros; apply keeps_raise.
Qed.

(** X4.  Building a loop-backed partition runs one command, the dd that
    fills the backing file with as many MiB of zeros as the loop size. *)
Theorem Partition_init_fills_the_backing_file env dev size mnt flags options st :
  size <> 0%Z ->
  commands (trace (snd (Partition_init env dev size mnt flags options st))) =
    (commands (trace st)
       ++ [("dd if=/dev/zero of=" ++ dev ++ " bs=1M count=" ++ str_of_Z size)%string])%list.
Proof.
  intros Hs. unfold Partition_init, bind. cbn [fst snd]. apply Z.eqb_neq in Hs. rewrite Hs.
  rewrite process_run_eq.
  destruct (spawn env _ _ false) as [s out|]; [destruct ((s =? 0)%Z || false)|];
    cbn; rewrite commands_app; reflexivity.
Qed.

(** *** Reasoning forwards: what holds when a computation ends *)

Section Ends.

Lemma ends_eq {A} (m : M A) st r st' (Q : Result A -> State -> Prop) :
  m st = (r, st') -> Q r st' -> ends m st Q.
Proof. intros E H. unfold ends. now rewrite E. Qed.

Lemma ends_weaken {A} (m : M A) st (Q Q' : Result A -> State -> Prop) :
  ends m st Q -> (forall r s, Q r s -> Q' r s) -> ends m st Q'.
Proof. intros H HQ. apply HQ, H. Qed.

Lemma ends_ret {A} (a : A) st (Q : Result A -> State -> Prop) :
  Q (Ok a) st -> ends (ret a) st Q.
Proof. trivial. Qed.

Lemma ends_raise {A} e st (Q : Result A -> State -> Prop) :
  Q (Raise e) st -> ends (raise e) st Q.
Proof. trivial. Qed.

Lemma ends_lift {A} (r : Result A) st (Q : Result A -> State -> Prop) :
  Q r st -> ends (lift r) st Q.
Proof. trivial. Qed.

Lemma ends_get_self st (Q : Result Partition -> State -> Prop) :
  Q (Ok (self st)) st -> ends get_self st Q.
Proof. trivial. Qed.

Lemma ends_get_self_bind {B} (k : Partition -> M B) st (Q : Result B -> State -> Prop) :
  ends (k (self st)) st Q -> ends (bind get_self k) st Q.
Proof. trivial. Qed.

Lemma ends_bind {A B} (m : M A) (k : A -> M B) st (R : Result A -> State -> Prop)
    (Q : Result B -> State -> Prop) :
  ends m st R ->
  (forall a s, R (Ok a) s -> ends (k a) s Q) ->
  (forall e s, R (Raise e) s -> Q (Raise e) s) ->
  ends (bind m k) st Q.
Proof.
  unfold ends, bind. intros H HK HE. destruct (m st) as [[a|e] s]; cbn in *; auto.
Qed.

Lemma ends_try {A} (m : M A) (h : Exn -> option (M A)) st (R Q : Result A -> State -> Prop) :
  ends m st R ->
  (forall a s, R (Ok a) s -> Q (Ok a) s) ->
  (forall e s, R (Raise e) s ->
     match h e with
     | Some k => ends k s Q
     | None => Q (Raise e) s
     end) ->
  ends (try_except m h) st Q.
Proof.
  unfold ends, try_except. intros H HK HE. destruct (m st) as [[a|e] s]; cbn in *; auto.
  specialize (HE _ _ H). destruct (h e); exact HE.
Qed.

Lemma ends_for_each {A} (xs : list A) (f : A -> M unit) (I : State -> Prop) st
    (Q : Result unit -> State -> Prop) :
  I st ->
  (forall x s, In x xs -> I s ->
     ends (f x) s (fun r s' => match r with Ok _ => I s' | Raise e => Q (Raise e) s' end)) ->
  (forall s, I s -> Q (Ok tt) s) ->
  ends (for_each xs f) st Q.
Proof.
  revert st. induction xs as [|x xs IH]; intros st HI HF HQ; [now apply HQ|].
  cbn [for_each]. eapply ends_bind; [apply (HF x st); [now left|exact HI]| |].
  - intros [] s Hs. apply IH; [exact Hs| |exact HQ]. intros y s' Hy. apply HF. now right.
  - intros e s Hs. exact Hs.
Qed.

Variable env : Env.

Lemma ends_process_run cmd ign sudo st (Q : Result CmdResult -> State -> Prop) :
  Q (Raise (Foreign OSError)) (log (ERun cmd sudo NotStarted) st) ->
  (forall s out, s = 0%Z \/ ign = true ->
     Q (Ok (mkCmdResult s out)) (log (ERun cmd sudo (Exited s out)) st)) ->
  (forall s out, s <> 0%Z -> ign = false ->
     Q (Raise (Foreign (CmdError cmd s out))) (log (ERun cmd sudo (Exited s out)) st)) ->
  ends (process_run env cmd ign sudo) st Q.
Proof.
  intros HN HO HE. unfold ends. rewrite process_run_eq. cbn [fst snd].
  destruct (spawn env (trace st) cmd sudo) as [s out|]; [|exact HN].
  destruct (s =? 0)%Z eqn:E; cbn [orb].
  - apply HO. left. now apply Z.eqb_eq.
  - destruct ign; [apply HO; now right|apply HE; [now apply Z.eqb_neq|reflexivity]].
Qed.

Lemma ends_open_lines path st (Q : Result (list string) -> State -> Prop) :
  (forall ls, Q (Ok ls) (log (EOpen path true) st)) ->
  Q (Raise (Foreign OSError)) (log (EOpen path false) st) ->
  ends (open_lines env path) st Q.
Proof.
  intros HO HE. unfold ends, open_lines.
  destruct (file_lines env (trace st) path); cbn; auto.
Qed.

Lemma ends_isdir_bind {B} path (k : bool -> M B) st (Q : Result B -> State -> Prop) :
  ends (k (isdir env (trace st) path)) (log (EIsdir path (isdir env (trace st) path)) st) Q ->
  ends (bind (os_path_isdir env path) k) st Q.
Proof. trivial. Qed.

End Ends.

Section Adds.
Variable P : Event -> Prop.

Lemma adds_refl st : adds P st st.
Proof. exists []. now rewrite app_nil_r. Qed.

Lemma adds_same st st' : trace st' = trace st -> adds P st st'.
Proof. intros E. exists []. now rewrite app_nil_r. Qed.

Lemma adds_trans st1 st2 st3 : adds P st1 st2 -> adds P st2 st3 -> adds P st1 st3.
Proof.
  intros (e1 & T1 & F1) (e2 & T2 & F2). exists (e1 ++ e2)%list.
  rewrite T2, T1, <- app_assoc. split; [reflexivity|now apply Forall_app].
Qed.

Lemma adds_log e st0 st : P e -> adds P st0 st -> adds P st0 (log e st).
Proof.
  intros He H. apply adds_trans with st; [exact H|]. exists [e]. split; [reflexivity|].
  now constructor.
Qed.

Lemma adds_step st0 st st' : adds P st0 st -> trace st' = trace st -> adds P st0 st'.
Proof. intros (evs & T & F) E. exists evs. now rewrite E. Qed.

End Adds.

Lemma adds_impl (P P' : Event -> Prop) st st' :
  (forall e, P e -> P' e) -> adds P st st' -> adds P' st st'.
Proof.
  intros H (evs & T & F). exists evs. split; [exact T|]. eapply Forall_impl; eauto.
Qed.

(** *** Fields and lines *)

Section Fields.
Variable sp : ascii -> bool.

Lemma split_by_blank c s : sp c = true -> split_by sp (String c s) = split_by sp s.
Proof. intros H. now rewrite split_by_cons, H. Qed.

Lemma split_by_app_blank a c b :
  sp c = true -> split_by sp (a ++ String c b) = (split_by sp a ++ split_by sp b)%list.
Proof.
  intros Hc. induction a as [|x a IH].
  - cbn [append]. now rewrite split_by_blank.
  - cbn [append]. rewrite (split_by_cons sp x (a ++ String c b)), (split_by_cons sp x a).
    destruct (sp x); [exact IH|].
    destruct a as [|y a'].
    + cbn [append]. rewrite Hc. cbn [append] in IH. now rewrite IH.
    + cbn [append] in *. destruct (sp y) eqn:Hy.
      * now rewrite IH.
      * rewrite IH. destruct (first_token_prefix sp y a' Hy) as (w & ws & E & _).
        now rewrite E.
Qed.

Lemma split_by_lstrip s : split_by sp (lstrip_by sp s) = split_by sp s.
Proof.
  induction s as [|c s IH]; [reflexivity|]. cbn [lstrip_by].
  destruct (sp c) eqn:Hc; [|reflexivity]. now rewrite split_by_blank.
Qed.

Lemma split_by_rstrip s : split_by sp (rstrip_by sp s) = split_by sp s.
Proof.
  induction s as [|c s IH]; [reflexivity|]. cbn [rstrip_by].
  destruct (rstrip_by sp s) as [|y r] eqn:ER.
  - destruct (sp c) eqn:Hc.
    + rewrite split_by_blank by assumption. exact IH.
    + rewrite (split_by_cons sp c s), (split_by_cons sp c ""), Hc.
      destruct s as [|c' s']; [reflexivity|].
      rewrite <- IH.
      assert (Hc' : sp c' = true).
      { cbn [rstrip_by] in ER. destruct (rstrip_by sp s'); [|discriminate].
        destruct (sp c'); [reflexivity|discriminate]. }
      now rewrite Hc'.
  - rewrite (split_by_cons sp c (String y r)), (split_by_cons sp c s).
    destruct (sp c); [exact IH|].
    destruct s as [|c' s']; [discriminate|].
    assert (Hy : y = c').
    { cbn [rstrip_by] in ER. destruct (rstrip_by sp s'); [destruct (sp c')|]; congruence. }
    subst y. now rewrite IH.
Qed.

End Fields.

Lemma split_strip s : split (strip s) = split s.
Proof. unfold split, strip, rstrip, lstrip. now rewrite split_by_rstrip, split_by_lstrip. Qed.

Lemma split_lstrip s : split (lstrip s) = split s.
Proof. apply split_by_lstrip. Qed.

Lemma split_app_blank a b : split (a ++ String " " b) = (split a ++ split b)%list.
Proof. now apply split_by_app_blank. Qed.

Lemma split_field w : is_field w = true -> split w = [w].
Proof.
  unfold is_field. intros H. apply andb_true_iff in H as [HT HN].
  destruct w as [|c w]; [discriminate|]. clear HT. revert c HN.
  induction w as [|c' w IH]; intros c HN; cbn [no_blank] in HN;
    apply andb_true_iff in HN as [Hc HN]; apply negb_true_iff in Hc.
  - unfold split. now rewrite split_by_cons, Hc.
  - unfold split in *. rewrite split_by_cons, Hc.
    pose proof HN as HN'. cbn [no_blank] in HN'. apply andb_true_iff in HN' as [Hc' _].
    apply negb_true_iff in Hc'. rewrite Hc'. now rewrite (IH c' HN).
Qed.

Lemma split_no_blank w : no_blank w = true -> split w = if truthy w then [w] else [].
Proof.
  intros H. destruct w as [|c w]; [reflexivity|]. apply split_field. unfold is_field.
  now rewrite H.
Qed.

(** [splitlines] on lines put together. *)
Lemma linebreak_blank c : is_linebreak c = true -> is_space c = true.
Proof.
  unfold is_linebreak, is_space. intros H.
  apply orb_true_iff in H as [H|H]; apply andb_true_iff in H as [H1 H2];
    apply Nat.leb_le in H1, H2; apply orb_true_iff; [left|right];
    apply andb_true_iff; split; apply Nat.leb_le; lia.
Qed.

Lemma splitlines_no_blank_cons c l :
  no_blank (String c l) = true -> splitlines (String c l) = [String c l].
Proof.
  revert c. induction l as [|c' l IH]; intros c H; cbn [no_blank] in H;
    apply andb_true_iff in H as [Hc H]; apply negb_true_iff in Hc;
    unfold splitlines in *; rewrite splitlines_by_cons;
    (destruct (is_linebreak c) eqn:E; [apply linebreak_blank in E; congruence|]).
  - reflexivity.
  - now rewrite (IH c' H).
Qed.

Lemma split_mkfs_options p ft args :
  split (mkfs_options p ft args) =
    (split args ++ split (mkfs_flags p) ++ force_flags p ft)%list.
Proof.
  unfold mkfs_options, force_flags.
  assert (H1 : split (if truthy (mkfs_flags p) then args ++ " " ++ mkfs_flags p else args)
               = (split args ++ split (mkfs_flags p))%list).
  { destruct (mkfs_flags p) as [|c f] eqn:E; cbn [truthy String.eqb negb].
    - now rewrite app_nil_r.
    - change (args ++ " " ++ String c f) with (args ++ String " " (String c f)).
      apply split_app_blank. }
  remember (if truthy (mkfs_flags p) then args ++ " " ++ mkfs_flags p else args) as a1.
  assert (H2 : split (if mem ft ["xfs"; "btrfs"] then a1 ++ " -f" else a1)
               = (split a1 ++ (if mem ft ["xfs"; "btrfs"] then ["-f"] else []))%list).
  { destruct (mem ft ["xfs"; "btrfs"]); [|now rewrite app_nil_r].
    change (a1 ++ " -f") with (a1 ++ String " " "-f"). now rewrite split_app_blank. }
  remember (if mem ft ["xfs"; "btrfs"] then a1 ++ " -f" else a1) as a2.
  rewrite !app_assoc, <- H1, <- H2.
  destruct (negb (loop p =? 0)%Z); [|now rewrite app_nil_r].
  destruct (startswith ft "ext").
  - change (a2 ++ " -F") with (a2 ++ String " " "-F"). now rewrite split_app_blank.
  - destruct (ft =? "reiserfs"); [|now rewrite app_nil_r].
    change (a2 ++ " -f") with (a2 ++ String " " "-f"). now rewrite split_app_blank.
Qed.

Lemma split_mkfs_cmd p ft args :
  split (mkfs_cmd p ft args) =
    ("mkfs" ::
     (if contains "-t" (mkfs_options p ft args) then [] else "-t" :: split ft) ++
     split args ++ split (mkfs_flags p) ++ force_flags p ft ++ split (device p))%list.
Proof.
  unfold mkfs_cmd, mkfs_args.
  change ("mkfs " ++ ?x) with ("mkfs" ++ String " " x).
  rewrite split_app_blank.
  match goal with |- context [strip ?y ++ " " ++ device p] =>
    change (strip y ++ " " ++ device p) with (strip y ++ String " " (device p)) end.
  rewrite split_app_blank, split_strip. cbv zeta.
  destruct (contains "-t" (mkfs_options p ft args)); cbn [negb].
  - rewrite split_mkfs_options. cbn [app]. now rewrite <- !app_assoc.
  - change ("-t " ++ ft ++ " " ++ mkfs_options p ft args)
      with ("-t" ++ String " " (ft ++ String " " (mkfs_options p ft args))).
    rewrite !split_app_blank, split_mkfs_options. cbn [app split].
    change (split "-t") with ["-t"]. change (split "mkfs") with ["mkfs"].
    cbn [app]. now rewrite <- !app_assoc.
Qed.

Lemma split_mount_args p ft args :
  split (mount_args p ft args) =
    (split args ++
     (if truthy_opt (mount_options p) then "-o" :: split (value (mount_options p)) else []) ++
     (if truthy_opt ft then "-t" :: split (value ft) else []))%list.
Proof.
  unfold mount_args. rewrite split_lstrip.
  assert (H1 : split (if truthy_opt (mount_options p)
                      then args ++ " -o " ++ value (mount_options p) else args)
               = (split args ++
                  (if truthy_opt (mount_options p)
                   then "-o" :: split (value (mount_options p)) else []))%list).
  { destruct (truthy_opt (mount_options p)); [|now rewrite app_nil_r].
    change (args ++ " -o " ++ value (mount_options p))
      with (args ++ String " " ("-o" ++ String " " (value (mount_options p)))).
    now rewrite !split_app_blank. }
  remember (if truthy_opt (mount_options p)
            then args ++ " -o " ++ value (mount_options p) else args) as a1.
  rewrite app_assoc, <- H1.
  destruct (truthy_opt ft); [|now rewrite app_nil_r].
  change (a1 ++ " -t " ++ value ft) with (a1 ++ String " " ("-t" ++ String " " (value ft))).
  now rewrite !split_app_blank.
Qed.

Lemma split_mount_cmd st mnt arg args dev :
  split (mount_cmd st mnt arg args dev) =
    ("mount" ::
     split args ++
     (if truthy_opt (mount_options (self st))
      then "-o" :: split (value (mount_options (self st))) else []) ++
     (if truthy_opt (mount_fstype st arg)
      then "-t" :: split (value (mount_fstype st arg)) else []) ++
     split dev ++ split (value (mount_target st mnt)))%list.
Proof.
  unfold mount_cmd.
  change ("mount " ++ ?x) with ("mount" ++ String " " x).
  rewrite split_app_blank.
  match goal with |- context [?a ++ " " ++ dev ++ " " ++ ?m] =>
    change (a ++ " " ++ dev ++ " " ++ m) with (a ++ String " " (dev ++ String " " m)) end.
  rewrite !split_app_blank, split_mount_args. change (split "mount") with ["mount"].
  cbn [app]. now rewrite <- !app_assoc.
Qed.

(** *** The lock and the mount tables *)

Section LockAndTables.
Variable env : Env.

Lemma MtabLock_exit_eq st : MtabLock_exit st = (Ok tt, released st).
Proof.
  unfold MtabLock_exit, bind, FileLock_exit, released.
  destruct (mtab_open st) eqn:E; cbn; [reflexivity|]. unfold with_lock, log. cbn. now rewrite E.
Qed.

Lemma with_MtabLock_ends {A} (body : M A) st (Q : Result A -> State -> Prop) :
  (forall o c, o = NotAcquired /\ c = LockFailed \/ o = HeldAlready /\ c = AlreadyLocked ->
     Q (Raise (PartitionError lock_reason (Some c))) (log (ELock o) st)) ->
  Q (Raise (Foreign OSError))
    (mkState (self st) (trace st ++ [ELock Acquired; EOpen MtabLock_device false])
       true (mtab_open st)) ->
  ends body (entered st) (fun r s => Q r (released s)) ->
  ends (with_MtabLock env body) st Q.
Proof.
  intros HL HO HB. unfold ends, with_MtabLock. pose proof (MtabLock_enter_cases env st) as C.
  destruct (lock_enter env (trace st)).
  - destruct (file_lines env _ MtabLock_device).
    + rewrite C. unfold ends in HB. destruct (body (entered st)) as [r s]. cbn in HB.
      now rewrite MtabLock_exit_eq.
    + rewrite C. exact HO.
  - rewrite C. apply HL. now left.
  - rewrite C. apply HL. now right.
Qed.

Lemma scan_some p lines m :
  get_mountpoint_scan env p lines = Ok (Some m) -> mountpoint p = Some m.
Proof.
  induction lines as [|l ls IH]; [discriminate|]. cbn. unfold get_mountpoint_line.
  destruct (getitem (split l) 0) as [p0|e]; [|discriminate].
  destruct ((p0 =? device p) || (realpath env p0 =? realpath env (device p))); [|exact IH].
  destruct (getitem (split l) 1) as [p1|e]; [|discriminate].
  destruct (eq_opt (Some p1) (mountpoint p)) eqn:E; [|exact IH].
  intros [= <-]. destruct (mountpoint p) as [m'|]; [|discriminate].
  cbn in E. apply String.eqb_eq in E. now subst.
Qed.

Lemma scan_raise p lines e :
  get_mountpoint_scan env p lines = Raise e -> e = IndexError.
Proof.
  induction lines as [|l ls IH]; [discriminate|]. cbn. unfold get_mountpoint_line, getitem.
  destruct (nth_error (split l) 0) as [p0|]; [|now intros [= <-]].
  destruct ((p0 =? device p) || (realpath env p0 =? realpath env (device p))); [|exact IH].
  destruct (nth_error (split l) 1) as [p1|]; [|now intros [= <-]].
  destruct (eq_opt (Some p1) (mountpoint p)); [discriminate|exact IH].
Qed.

(** What reading one table gives. *)
Lemma get_mountpoint_in_ends f st :
  ends (get_mountpoint_in env f) st (fun r s =>
    (exists ok, s = log (EOpen f ok) st) /\
    match r with
    | Ok (Some m) => mountpoint (self st) = Some m
    | Ok None => True
    | Raise e => e = Foreign OSError \/ e = IndexError
    end).
Proof.
  unfold get_mountpoint_in.
  eapply ends_bind; [apply ends_open_lines with
    (Q := fun r s => (exists ok, s = log (EOpen f ok) st) /\
                     match r with Ok _ => True | Raise e => e = Foreign OSError end);
    [intros; split; eauto|split; eauto]| |].
  - intros lines s [[ok ->] _]. unfold bind, get_self, lift, ends. cbn.
    split; [eauto|].
    destruct (get_mountpoint_scan env (self st) lines) as [[m|]|e] eqn:E; [|trivial|].
    + now apply scan_some in E.
    + right. now apply scan_raise in E.
  - intros e s [H ->]. split; [exact H|now left].
Qed.

Lemma get_mountpoint_ends st (P : Event -> Prop) :
  (forall ok, P (EOpen "/proc/mounts" ok)) -> (forall ok, P (EOpen "/etc/mtab" ok)) ->
  ends (get_mountpoint env None) st (fun r s =>
    self s = self st /\ lock_held s = lock_held st /\ mtab_open s = mtab_open st /\
    adds P st s /\
    match r with
    | Ok (Some m) => mountpoint (self st) = Some m /\ truthy m = true
    | Ok None => True
    | Raise e => e = Foreign OSError \/ e = IndexError
    end).
Proof.
  intros P1 P2. unfold get_mountpoint, get_mountpoint_default.
  eapply ends_bind; [apply get_mountpoint_in_ends| |].
  - intros r1 s [[ok ->] H1]. destruct (negb (truthy_opt r1)) eqn:T.
    + eapply ends_bind; [apply get_mountpoint_in_ends| |].
      * intros r2 s [[ok' ->] H2]. cbn [self log] in H2.
        assert (A : adds P st (log (EOpen "/etc/mtab" ok') (log (EOpen "/proc/mounts" ok) st)))
          by (apply adds_log; [apply P2|apply adds_log; [apply P1|apply adds_refl]]).
        destruct (negb (eq_opt r2 (Some "/"))) eqn:T2; apply ends_ret; repeat split; trivial.
        destruct r2 as [m|]; [|trivial].
        apply negb_false_iff in T2. cbn in T2. apply String.eqb_eq in T2. subst m.
        split; [exact H2|reflexivity].
      * intros e s [[ok' ->] H2]. repeat split; trivial.
        apply adds_log; [apply P2|apply adds_log; [apply P1|apply adds_refl]].
    + apply ends_ret. repeat split; trivial.
      * apply adds_log; [apply P1|apply adds_refl].
      * destruct r1 as [m|]; [|trivial]. split; [exact H1|]. now apply negb_false_iff in T.
  - intros e s [[ok ->] H]. repeat split; trivial.
    apply adds_log; [apply P1|apply adds_refl].
Qed.

End LockAndTables.

Lemma split_by_truthy sp s : Forall (fun w => truthy w = true) (split_by sp s).
Proof.
  induction s as [|c s IH]; [constructor|]. rewrite split_by_cons.
  destruct (sp c); [exact IH|]. destruct s as [|c' s']; [now repeat constructor|].
  destruct (sp c'); [constructor; [reflexivity|exact IH]|].
  destruct (split_by sp (String c' s')) as [|w ws]; [now repeat constructor|].
  inversion IH; subst. now constructor.
Qed.

Section Lookup.
Variable env : Env.

Lemma scan_sound p lines m :
  get_mountpoint_scan env p lines = Ok (Some m) ->
  mountpoint p = Some m /\ mounted_on env p m lines /\ truthy m = true.
Proof.
  intros H. split; [now apply (scan_some env p lines)|]. revert H.
  induction lines as [|l ls IH]; [discriminate|]. cbn. unfold get_mountpoint_line, getitem.
  destruct (nth_error (split l) 0) as [p0|] eqn:E0; [|discriminate].
  destruct ((p0 =? device p) || (realpath env p0 =? realpath env (device p))) eqn:EN.
  - destruct (nth_error (split l) 1) as [p1|] eqn:E1; [|discriminate].
    destruct (eq_opt (Some p1) (mountpoint p)) eqn:EO.
    + intros [= <-]. split.
      * apply Exists_cons_hd. split; [|exact E1]. unfold names_device.
        destruct (split l) as [|d parts]; [discriminate|]. cbn in E0. now injection E0 as ->.
      * pose proof (split_by_truthy is_space l) as T. rewrite Forall_forall in T.
        apply T. eapply nth_error_In. exact E1.
    + intros H. destruct (IH H) as [M T]. split; [now apply Exists_cons_tl|exact T].
  - intros H. destruct (IH H) as [M T]. split; [now apply Exists_cons_tl|exact T].
Qed.

Lemma scan_complete p lines m :
  two_fields lines -> mountpoint p = Some m -> mounted_on env p m lines ->
  get_mountpoint_scan env p lines = Ok (Some m).
Proof.
  intros W HM. induction W as [|l ls Hl _ IH]; intros E; [inversion E|].
  cbn. unfold get_mountpoint_line, getitem.
  destruct (split l) as [|d [|f parts]] eqn:ES; cbn in Hl; try lia. cbn [nth_error].
  destruct ((d =? device p) || (realpath env d =? realpath env (device p))) eqn:EN.
  - destruct (eq_opt (Some f) (mountpoint p)) eqn:EO.
    + rewrite HM in EO. cbn in EO. apply String.eqb_eq in EO. now subst.
    + apply IH. inversion E as [? ? [HN HF]|]; subst; [|assumption].
      rewrite ES in HF. cbn in HF. injection HF as ->. rewrite HM in EO. cbn in EO.
      now rewrite String.eqb_refl in EO.
  - apply IH. inversion E as [? ? [HN HF]|]; subst; [|assumption].
    unfold names_device in HN. rewrite ES in HN. congruence.
Qed.

Lemma scan_none p lines m :
  two_fields lines -> mountpoint p = Some m -> ~ mounted_on env p m lines ->
  get_mountpoint_scan env p lines = Ok None.
Proof.
  intros W HM N. destruct (scan_total env p lines W) as [[m'|] E]; [|exact E].
  destruct (scan_sound _ _ _ E) as (HM' & HE & _). congruence.
Qed.

(** What [get_mountpoint()] gives when both tables can be read. *)
Lemma get_mountpoint_default_eq st l1 l2 :
  file_lines env (trace st) "/proc/mounts" = Some l1 ->
  file_lines env (trace st ++ [EOpen "/proc/mounts" true]) "/etc/mtab" = Some l2 ->
  fst (get_mountpoint env None st) =
    match get_mountpoint_scan env (self st) l1 with
    | Raise e => Raise e
    | Ok r1 =>
        if truthy_opt r1 then Ok r1
        else match get_mountpoint_scan env (self st) l2 with
             | Raise e => Raise e
             | Ok r2 => if eq_opt r2 (Some "/") then Ok r2 else Ok None
             end
    end.
Proof.
  intros H1 H2. unfold get_mountpoint, get_mountpoint_default.
  unfold bind at 1. unfold get_mountpoint_in at 1. unfold bind at 1, open_lines at 1.
  rewrite H1. unfold bind at 1, get_self at 1, lift at 1. cbn [self log].
  destruct (get_mountpoint_scan env (self st) l1) as [r1|e]; [|reflexivity].
  destruct (truthy_opt r1); cbn [negb]; [reflexivity|].
  unfold bind at 1. unfold get_mountpoint_in, bind, open_lines, get_self, lift.
  cbn [trace log]. rewrite H2. cbn [self log].
  destruct (get_mountpoint_scan env (self st) l2) as [r2|e]; [|reflexivity].
  now destruct (eq_opt r2 (Some "/")).
Qed.

End Lookup.

(** *** The run of [unmount] *)

Section UnmountRun.
Variable env : Env.

Lemma _get_pids_on_mountpoint_ends mnt st :
  ends (_get_pids_on_mountpoint env mnt) st (fun r s =>
    (exists o, s = log (ERun ("lsof " ++ mnt) true o) st) /\
    match r with
    | Ok _ => True
    | Raise e =>
        e = IndexError \/ e = ValueError \/
        e = PartitionError
              ("Could not run lsof to identify processes using " ++ dquote ++ mnt ++ dquote)
              (Some OSError) \/
        exists s out, s <> 0%Z /\
          e = PartitionError ("Failure executing " ++ dquote ++ ("lsof " ++ mnt) ++ dquote)
                (Some (CmdError ("lsof " ++ mnt) s out))
    end).
Proof.
  unfold ends. rewrite _get_pids_on_mountpoint_eq. cbn [fst snd]. split; [eauto|].
  destruct (spawn env (trace st) ("lsof " ++ mnt) true) as [s out|]; [|tauto].
  destruct (s =? 0)%Z eqn:E.
  - destruct (comprehension pid_of_line _) as [pids|e] eqn:C; [trivial|].
    apply comprehension_pid_raise in C. tauto.
  - apply Z.eqb_neq in E. right. right. right. eauto.
Qed.

Lemma kill_pid_ends pid st :
  ends (kill_pid env pid) st (fun r s =>
    (exists o, s = log (ERun (kill_cmd pid) true o) st) /\
    match r with
    | Ok _ => True
    | Raise e => e = Foreign OSError
    end).
Proof.
  unfold ends, kill_pid, try_except, process_system, bind. rewrite process_run_eq.
  destruct (spawn env (trace st) (kill_cmd pid) true) as [s out|]; cbn.
  - rewrite orb_true_r. cbn. eauto.
  - eauto.
Qed.

Lemma umount_forced_ends mnt st :
  ends (umount_forced env mnt) st (fun r s =>
    (exists o_f, s = log (ERun ("umount -f " ++ mnt) true o_f) st \/
       exists o_l, s = log (ERun ("umount -l " ++ mnt) true o_l)
                         (log (ERun ("umount -f " ++ mnt) true o_f) st)) /\
    match r with
    | Ok _ => True
    | Raise e =>
        e = Foreign OSError \/
        exists s out, s <> 0%Z /\
          e = PartitionError "Force unmount failed" (Some (CmdError ("umount -l " ++ mnt) s out))
    end).
Proof.
  unfold ends. rewrite umount_forced_eq. cbv zeta.
  destruct (spawn env (trace st) ("umount -f " ++ mnt) true) as [s out|]; cbn [fst snd];
    [|split; eauto].
  destruct (s =? 0)%Z; cbn [fst snd]; [split; eauto|].
  destruct (spawn env _ ("umount -l " ++ mnt) true) as [s' out'|]; cbn [fst snd];
    [|split; eauto].
  destruct (s' =? 0)%Z eqn:E; cbn [fst snd]; [split; eauto|].
  apply Z.eqb_neq in E. split; eauto.
Qed.

Lemma _unmount_force_ends p m st0 st :
  mountpoint p = Some m -> self st = p -> adds (unmount_event true p) st0 st ->
  ends (_unmount_force env m) st (fun r s =>
    self s = p /\ adds (unmount_event true p) st0 s /\
    match r with
    | Ok _ => True
    | Raise e => unmount_failure true p e
    end).
Proof.
  intros Hm Hp HA. unfold _unmount_force.
  assert (PE : forall cmd o,
             cmd = "lsof " ++ m \/ (exists pid, cmd = kill_cmd pid) \/
             cmd = "umount -f " ++ m \/ cmd = "umount -l " ++ m ->
             unmount_event true p (ERun cmd true o)).
  { intros cmd o H. split; [reflexivity|]. exists m. split; [exact Hm|]. tauto. }
  eapply ends_bind; [apply _get_pids_on_mountpoint_ends| |].
  - intros pids s [[o ->] _].
    eapply ends_bind;
      [apply ends_for_each with
         (I := fun s => self s = p /\ adds (unmount_event true p) st0 s)
         (Q := fun r s => self s = p /\ adds (unmount_event true p) st0 s /\
                          match r with Ok _ => True | Raise e => unmount_failure true p e end)
      | |].
    + split; [exact Hp|]. apply adds_log; [apply PE; tauto|exact HA].
    + intros pid s _ [Hs As]. eapply ends_weaken; [apply kill_pid_ends|].
      intros r s' [[o' ->] Hr].
      assert (A' : adds (unmount_event true p) st0 (log (ERun (kill_cmd pid) true o') s))
        by (apply adds_log; [apply PE; eauto|exact As]).
      destruct r as [[]|e]; [now split|]. subst e. repeat split; trivial. constructor.
    + intros s [Hs As]. now repeat split.
    + intros [] s (Hs & As & _). eapply ends_weaken; [apply umount_forced_ends|].
      intros r s' [[o_f HS] Hr]. split; [|split].
      * destruct HS as [->|[o_l ->]]; exact Hs.
      * destruct HS as [->|[o_l ->]]; repeat (apply adds_log; [apply PE; tauto|]); exact As.
      * destruct r as [[]|e]; [trivial|]. destruct Hr as [->|(s0 & out & Hs0 & ->)].
        -- constructor.
        -- now apply unmount_not_forced.
    + intros e s H. exact H.
  - intros e s [[o ->] He]. split; [exact Hp|]. split; [apply adds_log; [apply PE; tauto|exact HA]|].
    destruct He as [->|[->|[->|(s0 & out & Hs0 & ->)]]].
    + constructor.
    + now constructor.
    + now apply unmount_no_lsof.
    + now apply unmount_lsof_failed.
Qed.

(** The locked block of [unmount]. *)
Lemma unmount_locked_ends force st0 st :
  adds (unmount_event force (self st)) st0 st ->
  ends (unmount_locked env force) st (fun r s =>
    self s = self st /\ adds (unmount_event force (self st)) st0 s /\
    match r with
    | Ok (Return v) => v = 1%Z
    | Ok (Next v) =>
        (v = 1%Z \/ v = 2%Z /\ force = true) /\ mountpoint (self st) <> None
    | Raise e => unmount_failure force (self st) e
    end).
Proof.
  intros HA. unfold unmount_locked.
  eapply ends_bind;
    [apply get_mountpoint_ends with (P := unmount_event force (self st)); intros; cbn; tauto| |].
  - intros mnt s (Hs & _ & _ & As & Hr). cbv zeta.
    assert (A1 : adds (unmount_event force (self st)) st0 s) by (eapply adds_trans; eassumption).
    destruct mnt as [m|]; cbn [truthy_opt negb];
      [|apply ends_ret; now repeat split].
    destruct Hr as [Hm T]. rewrite T. cbn [negb value].
    assert (PE : forall o, unmount_event force (self st) (ERun ("umount " ++ m) true o)).
    { intros o. split; [reflexivity|]. exists m. split; [exact Hm|]. now left. }
    eapply ends_try with
      (R := fun r s' =>
              (exists o, s' = log (ERun ("umount " ++ m) true o) s) /\
              match r with
              | Ok f => f = Next 1%Z
              | Raise e => e = Foreign OSError \/
                           exists c out, c <> 0%Z /\ e = Foreign (CmdError ("umount " ++ m) c out)
              end).
    + eapply ends_bind with
        (R := fun (r : Result CmdResult) s' =>
                (exists o, s' = log (ERun ("umount " ++ m) true o) s) /\
                match r with
                | Ok _ => True
                | Raise e => e = Foreign OSError \/
                             exists c out, c <> 0%Z /\ e = Foreign (CmdError ("umount " ++ m) c out)
                end).
      * apply ends_process_run.
        -- split; [eauto|now left].
        -- intros c out _. split; [eauto|trivial].
        -- intros c out Hc _. split; [eauto|]. right. exists c, out. now split.
      * intros r s' [H _]. apply ends_ret. now split.
      * intros e s' H. exact H.
    + intros f s' [[o ->] ->]. split; [exact Hs|]. split; [apply adds_log; [apply PE|exact A1]|].
      split; [now left|congruence].
    + intros e s' [[o ->] He].
      assert (A2 : adds (unmount_event force (self st)) st0
                     (log (ERun ("umount " ++ m) true o) s))
        by (apply adds_log; [apply PE|exact A1]).
      destruct He as [->|(c & out & Hc & ->)]; cbn [except_CmdError].
      * split; [exact Hs|]. split; [exact A2|constructor].
      * destruct force.
        -- eapply ends_bind; [apply (_unmount_force_ends (self st) m st0); [exact Hm|exact Hs|exact A2]| |].
           ++ intros [] s2 (H1 & H2 & _). apply ends_ret. split; [exact H1|]. split; [exact H2|].
              split; [now right|congruence].
           ++ intros e s2 H. exact H.
        -- apply ends_raise. split; [exact Hs|]. split; [exact A2|].
           now apply unmount_not_graceful.
  - intros e s (Hs & _ & _ & As & Hr). split; [exact Hs|].
    split; [eapply adds_trans; eassumption|]. destruct Hr as [->| ->]; constructor.
Qed.

(** [unmount], from start to end. *)
Lemma unmount_ends force st :
  ends (unmount env force) st (fun r s =>
    self s = self st /\ adds (unmount_event force (self st)) st s /\
    match r with
    | Ok v => v = 1%Z \/ v = 2%Z /\ force = true /\ mountpoint (self st) <> None
    | Raise e => unmount_failure force (self st) e
    end).
Proof.
  unfold unmount.
  eapply ends_bind with
    (R := fun r s =>
            self s = self st /\ adds (unmount_event force (self st)) st s /\
            match r with
            | Ok (Return v) => v = 1%Z
            | Ok (Next v) =>
                (v = 1%Z \/ v = 2%Z /\ force = true) /\ mountpoint (self st) <> None
            | Raise e => unmount_failure force (self st) e
            end).
  - apply with_MtabLock_ends.
    + intros o c H. split; [reflexivity|]. split; [apply adds_log; [exact I|apply adds_refl]|].
      apply unmount_no_lock. tauto.
    + split; [reflexivity|]. split; [|constructor].
      exists [ELock Acquired; EOpen MtabLock_device false]. split; [reflexivity|].
      constructor; [exact I|constructor; [now right|constructor]].
    + eapply ends_weaken;
        [apply (unmount_locked_ends force st (entered st))|].
      * exists [ELock Acquired; EOpen MtabLock_device true]. split; [reflexivity|].
        constructor; [exact I|constructor; [now right|constructor]].
      * intros r s (Hs & As & Hr). split; [exact Hs|]. split; [|exact Hr].
        apply adds_trans with s; [exact As|]. exists [EUnlock]. split; [reflexivity|].
        now repeat constructor.
  - intros [v|v] s (Hs & As & Hr).
    + apply ends_ret. repeat split; trivial. now left.
    + destruct Hr as [Hv Hm].
      assert (Hv' : v = 1%Z \/ v = 2%Z /\ force = true /\ mountpoint (self st) <> None)
        by (destruct Hv as [Hv|[Hv Hf]]; [now left|right; now repeat split]).
      clear Hv. rename Hv' into Hv.
      unfold ends, bind. rewrite detach_loop_eq.
      destruct (loop (self s) =? 0)%Z eqn:EL; [cbn; now repeat split|].
      cbv zeta. rewrite Hs in *. apply Z.eqb_neq in EL.
      assert (PD : forall o, unmount_event force (self st)
                               (ERun ("losetup -d " ++ device (self st)) true o)).
      { intros o. split; [reflexivity|]. destruct (mountpoint (self st)) as [m|]; [|congruence].
        exists m. split; [reflexivity|]. tauto. }
      destruct (spawn env (trace s) _ true) as [c out|]; cbn [fst snd].
      * destruct (c =? 0)%Z eqn:Ec; cbn [fst snd]; (split; [exact Hs|]);
          (split; [apply adds_log; [apply PD|exact As]|]); [exact Hv|].
        apply Z.eqb_neq in Ec. now apply unmount_no_detach.
      * split; [exact Hs|]. split; [apply adds_log; [apply PD|exact As]|constructor].
  - intros e s H. exact H.
Qed.

End UnmountRun.

(** *** The run of [mount] *)

Section ListingRuns.
Variable env : Env.

Lemma process_getoutput_ends cmd st :
  ends (process_getoutput env cmd) st (fun r s =>
    (exists o, s = log (ERun cmd false o) st) /\
    match r with
    | Ok _ => True
    | Raise e => e = Foreign OSError
    end).
Proof.
  unfold ends. rewrite process_getoutput_eq. cbn. split; [eauto|].
  now destruct (spawn env (trace st) cmd false).
Qed.

Lemma comprehension_getitem_raise i lines e :
  comprehension (fun line => getitem (split line) i) lines = Raise e -> e = IndexError.
Proof.
  induction lines as [|l ls IH]; [discriminate|]. cbn. unfold getitem at 1.
  destruct (nth_error (split l) i); [|now intros [= <-]].
  destruct (comprehension _ ls); [discriminate|]. intros [= <-]. now apply IH.
Qed.

(** The two listings run without privileges and raise nothing but
    [OSError] and [IndexError]. *)
Lemma list_mount_devices_ends (P : Event -> Prop) st0 st :
  (forall o, P (ERun "mount" false o)) -> (forall o, P (ERun "swapon -s" false o)) ->
  adds P st0 st ->
  ends (list_mount_devices env) st (fun r s =>
    self s = self st /\ adds P st0 s /\
    match r with
    | Ok _ => True
    | Raise e => e = Foreign OSError \/ e = IndexError
    end).
Proof.
  intros P1 P2 HA. unfold list_mount_devices.
  eapply ends_bind; [apply process_getoutput_ends| |].
  - intros out s [[o ->] _].
    assert (A1 : adds P st0 (log (ERun "mount" false o) st)) by (apply adds_log; auto).
    eapply ends_bind; [apply ends_lift with
      (Q := fun r s' => s' = log (ERun "mount" false o) st /\
                        match r with Ok _ => True | Raise e => e = IndexError end);
      split; [reflexivity|] | |].
    + destruct (comprehension _ _) eqn:C; [trivial|]. now apply comprehension_getitem_raise in C.
    + intros devs s [-> _].
      eapply ends_bind; [apply process_getoutput_ends| |].
      * intros out2 s [[o2 ->] _]. cbv zeta.
        assert (A2 : adds P st0 (log (ERun "swapon -s" false o2) (log (ERun "mount" false o) st)))
          by (apply adds_log; auto).
        unfold ends, bind, lift.
        destruct (comprehension _ _) eqn:C; cbn; repeat split; trivial.
        right. now apply comprehension_getitem_raise in C.
      * intros e s [[o2 ->] ->]. repeat split; [apply adds_log; auto|now left].
    + intros e s [-> ->]. repeat split; [exact A1|now right].
  - intros e s [[o ->] ->]. repeat split; [apply adds_log; auto|now left].
Qed.

Lemma list_mount_points_ends (P : Event -> Prop) st0 st :
  (forall o, P (ERun "mount" false o)) ->
  adds P st0 st ->
  ends (list_mount_points env) st (fun r s =>
    self s = self st /\ adds P st0 s /\
    match r with
    | Ok _ => True
    | Raise e => e = Foreign OSError \/ e = IndexError
    end).
Proof.
  intros P1 HA. unfold list_mount_points.
  eapply ends_bind; [apply process_getoutput_ends| |].
  - intros out s [[o ->] _]. unfold ends, lift. cbn.
    repeat split; [apply adds_log; auto|].
    destruct (comprehension _ _) eqn:C; [trivial|]. right.
    now apply comprehension_getitem_raise in C.
  - intros e s [[o ->] ->]. repeat split; [apply adds_log; auto|now left].
Qed.

End ListingRuns.

Section MountBlock.
Variable env : Env.
Variables (st : State) (mnt arg : option string) (args : string) (chk : bool).

Let before (e : Event) : Prop := forall d, mount_event st mnt arg args chk d e.

Lemma mount_progress_before s :
  adds before st s -> settings (self s) = settings (self st) ->
  device (self s) = device (self st) ->
  mount_progress st mnt arg args chk false s.
Proof.
  intros (evs & T & F) HS HD. split; [exact HS|]. exists evs. split; [exact T|].
  split; [|left; split; [exact HD|discriminate]].
  eapply Forall_impl; [|exact F]. intros e He. apply He.
Qed.

Lemma mount_progress_not_past past s :
  mount_progress st mnt arg args chk past s -> mount_progress st mnt arg args chk false s.
Proof.
  intros (HS & evs & T & F & D). split; [exact HS|]. exists evs. split; [exact T|].
  split; [exact F|]. destruct D as [[D _]|D]; [left; split; [exact D|discriminate]|now right].
Qed.

Lemma mount_progress_no_file s :
  adds before st s -> settings (self s) = settings (self st) ->
  device (self s) = device (self st) -> loop (self st) = 0%Z ->
  mount_progress st mnt arg args chk true s.
Proof.
  intros HA HS HD HL. destruct (mount_progress_before s HA HS HD) as (_ & evs & T & F & _).
  split; [exact HS|]. exists evs. split; [exact T|]. split; [exact F|]. left. now split.
Qed.

Lemma mount_progress_attach s o :
  adds before st s -> settings (self s) = settings (self st) ->
  device (self s) = device (self st) -> loop (self st) <> 0%Z ->
  (forall lo, o <> Exited 0 lo) ->
  mount_progress st mnt arg args chk false (log (ERun (losetup_cmd (self st)) true o) s).
Proof.
  intros (evs & T & F) HS HD HL Ho. split; [exact HS|].
  exists (evs ++ [ERun (losetup_cmd (self st)) true o])%list.
  cbn [trace log self]. rewrite T, <- app_assoc. split; [reflexivity|].
  split; [|left; split; [exact HD|discriminate]].
  apply Forall_app. split; [eapply Forall_impl; [|exact F]; intros e He; apply He|].
  constructor; [|constructor]. right. left. repeat split; trivial.
  intros lo E. now apply Ho in E.
Qed.

Lemma mount_progress_attached s lo :
  adds before st s -> settings (self s) = settings (self st) ->
  loop (self st) <> 0%Z ->
  mount_progress st mnt arg args chk true
    (with_self (with_device (strip lo) (self s))
       (log (ERun (losetup_cmd (self st)) true (Exited 0 lo)) s)).
Proof.
  intros (evs & T & F) HS HL. split; [exact HS|].
  exists (evs ++ [ERun (losetup_cmd (self st)) true (Exited 0 lo)])%list.
  cbn [trace log self with_self with_device device]. rewrite T, <- app_assoc.
  split; [reflexivity|]. split.
  - apply Forall_app. split; [eapply Forall_impl; [|exact F]; intros e He; apply He|].
    constructor; [|constructor]. right. left. repeat split; trivial. now intros out [= ->].
  - right. exists lo. apply in_or_app. right. now left.
Qed.

Lemma mount_progress_mount past s o :
  mount_progress st mnt arg args chk past s ->
  mount_progress st mnt arg args chk past
    (log (ERun (mount_cmd st mnt arg args (device (self s))) true o) s).
Proof.
  intros (HS & evs & T & F & D). split; [exact HS|].
  exists (evs ++ [ERun (mount_cmd st mnt arg args (device (self s))) true o])%list.
  cbn [trace log self]. rewrite T, <- app_assoc. split; [reflexivity|]. split.
  - apply Forall_app. split; [exact F|]. constructor; [|constructor]. right. right. now split.
  - destruct D as [D|[lo D]]; [now left|right]. exists lo. apply in_or_app. now left.
Qed.

Lemma mount_progress_more past s s' evs :
  mount_progress st mnt arg args chk past s ->
  settings (self s') = settings (self s) -> device (self s') = device (self s) ->
  trace s' = (trace s ++ evs)%list ->
  Forall before evs ->
  mount_progress st mnt arg args chk past s'.
Proof.
  intros (HS & evs0 & T & F & D) HS' HD' T' F'. split; [congruence|].
  exists (evs0 ++ evs)%list. rewrite T', T, <- app_assoc, HD'. split; [reflexivity|]. split.
  - apply Forall_app. split; [exact F|]. eapply Forall_impl; [|exact F']. intros e He. apply He.
  - destruct D as [D|[lo D]]; [now left|right]. exists lo. apply in_or_app. now left.
Qed.

(** The block of [mount] under the lock, from a state in which nothing has
    been attached yet. *)
Lemma mount_locked_ends s1 :
  adds before st s1 -> settings (self s1) = settings (self st) ->
  device (self s1) = device (self st) ->
  ends (mount_locked env (value (mount_target st mnt))
          (mount_args (self st) (mount_fstype st arg) args) chk) s1
    (fun r s =>
       fstype (self s) = fstype (self s1) /\
       mount_progress st mnt arg args chk (is_ok r) s /\
       match r with
       | Ok _ => True
       | Raise e => mount_failure st mnt arg args chk e
       end).
Proof.
  intros HA HS HD. unfold mount_locked.
  set (mntv := value (mount_target st mnt)).
  set (argsv := mount_args (self st) (mount_fstype st arg) args).
  assert (L : loop (self s1) = loop (self st)) by (unfold settings in HS; congruence).
  (* the checks *)
  eapply ends_bind with
    (R := fun r s => self s = self s1 /\ adds before st s /\
                     match r with Ok _ => True | Raise e => mount_failure st mnt arg args chk e end).
  { destruct chk eqn:EC; [|apply ends_ret; now repeat split].
    unfold mount_checks.
    assert (B1 : forall o, before (ERun "mount" false o)) by (intros o d; left; tauto).
    assert (B2 : forall o, before (ERun "swapon -s" false o)) by (intros o d; left; tauto).
    eapply ends_bind; [apply (list_mount_devices_ends env before st s1 B1 B2 HA)| |].
    - intros devs s (Hs & As & _). apply ends_get_self_bind.
      destruct (mem (device (self s)) devs); [apply ends_raise; repeat split; trivial; now constructor|].
      eapply ends_bind; [apply (list_mount_points_ends env before st s B1 As)| |].
      + intros pts s' (Hs' & As' & _).
        destruct (mem mntv pts); [apply ends_raise|apply ends_ret]; repeat split; trivial;
          try congruence. now constructor.
      + intros e s' (Hs' & As' & He). repeat split; trivial; [congruence|].
        destruct He as [-> | ->]; now constructor.
    - intros e s (Hs & As & He). repeat split; trivial.
      destruct He as [-> | ->]; now constructor. }
  2: { intros e s (Hs & As & He). rewrite Hs. split; [reflexivity|]. split; [|exact He].
       apply mount_progress_before; [exact As|now rewrite Hs|now rewrite Hs]. }
  intros _ s (Hs & As & _).
  (* the directory *)
  apply ends_isdir_bind.
  assert (BD : forall b, before (EIsdir mntv b)) by (intros b d; reflexivity).
  assert (BM : forall b, before (EMakedirs mntv b)) by (intros b d; reflexivity).
  set (found := isdir env (trace s) mntv).
  assert (A1 : adds before st (log (EIsdir mntv found) s)) by (apply adds_log; auto).
  eapply ends_bind with
    (R := fun r s' => self s' = self s1 /\ adds before st s' /\
                      match r with Ok _ => True | Raise e => e = Foreign OSError end).
  { destruct (negb found); [|apply ends_ret; now repeat split].
    unfold ends, os_makedirs. cbn [fst snd]. split; [exact Hs|]. split; [apply adds_log; auto|].
    now destruct (makedirs env _ mntv). }
  2: { intros e s' (Hs' & As' & ->). rewrite Hs'. split; [reflexivity|]. split; [|constructor].
       apply mount_progress_before; [exact As'|now rewrite Hs'|now rewrite Hs']. }
  intros _ s2 (Hs2 & As2 & _).
  (* the attach and the mount *)
  assert (S2 : settings (self s2) = settings (self st)) by now rewrite Hs2.
  assert (D2 : device (self s2) = device (self st)) by now rewrite Hs2.
  eapply ends_try with
    (R := fun r s' =>
            fstype (self s') = fstype (self s1) /\
            mount_progress st mnt arg args chk (is_ok r) s' /\
            match r with
            | Ok _ => True
            | Raise e =>
                e = Foreign OSError \/
                (exists c out, loop (self st) <> 0%Z /\ c <> 0%Z /\
                   e = Foreign (CmdError (losetup_cmd (self st)) c out)) \/
                (exists dev c out, c <> 0%Z /\
                   e = Foreign (CmdError (mount_cmd st mnt arg args dev) c out))
            end).
  - apply ends_get_self_bind.
    eapply ends_bind with
      (R := fun r s' =>
              fstype (self s') = fstype (self s1) /\
              mount_progress st mnt arg args chk (is_ok r) s' /\
              match r with
              | Ok _ => True
              | Raise e =>
                  e = Foreign OSError \/
                  (exists c out, loop (self st) <> 0%Z /\ c <> 0%Z /\
                     e = Foreign (CmdError (losetup_cmd (self st)) c out))
              end).
    + rewrite Hs2, L. destruct (loop (self st) =? 0)%Z eqn:EL; cbn [negb].
      * apply ends_ret. split; [now rewrite Hs2|]. split; [|trivial].
        apply Z.eqb_eq in EL. now apply mount_progress_no_file.
      * apply Z.eqb_neq in EL. rewrite HD.
        change ("losetup --find --show -f " ++ device (self st)) with (losetup_cmd (self st)).
        eapply ends_bind with
          (R := fun (r : Result CmdResult) s' =>
                  match r with
                  | Ok c => s' = log (ERun (losetup_cmd (self st)) true
                                        (Exited 0 (stdout_text c))) s2
                  | Raise e =>
                      fstype (self s') = fstype (self s1) /\
                      mount_progress st mnt arg args chk false s' /\
                      (e = Foreign OSError \/
                       (exists c out, loop (self st) <> 0%Z /\ c <> 0%Z /\
                          e = Foreign (CmdError (losetup_cmd (self st)) c out)))
                  end).
        -- apply ends_process_run.
           ++ split; [cbn; now rewrite Hs2|]. split; [|now left].
              apply mount_progress_attach; trivial. discriminate.
           ++ intros c out [-> | H]; [reflexivity|discriminate].
           ++ intros c out Hc _. split; [cbn; now rewrite Hs2|]. split; [|right; eauto].
              apply mount_progress_attach; trivial. intros lo [= -> _]. congruence.
        -- intros r s' ->. unfold ends, set_device. cbn [fst snd].
           split; [cbn; now rewrite Hs2|]. split; [|trivial].
           change (self (log (ERun (losetup_cmd (self st)) true (Exited 0 (stdout_text r))) s2))
             with (self s2).
           now apply mount_progress_attached.
        -- intros e s' H. exact H.
    + intros [] s3 (F3 & P3 & _). apply ends_get_self_bind. unfold process_system.
      fold mntv argsv.
      change ("mount " ++ argsv ++ " " ++ device (self s3) ++ " " ++ mntv)
        with (mount_cmd st mnt arg args (device (self s3))).
      cbn [is_ok] in P3.
      eapply ends_bind with
        (R := fun (r : Result Z) s' =>
                fstype (self s') = fstype (self s1) /\
                mount_progress st mnt arg args chk (is_ok r) s' /\
                match r with
                | Ok _ => True
                | Raise e =>
                    e = Foreign OSError \/
                    (exists c out, loop (self st) <> 0%Z /\ c <> 0%Z /\
                       e = Foreign (CmdError (losetup_cmd (self st)) c out)) \/
                    (exists dev c out, c <> 0%Z /\
                       e = Foreign (CmdError (mount_cmd st mnt arg args dev) c out))
                end).
      * eapply ends_bind with
          (R := fun (r : Result CmdResult) s' =>
                  fstype (self s') = fstype (self s1) /\
                  mount_progress st mnt arg args chk (is_ok r) s' /\
                  match r with
                  | Ok _ => True
                  | Raise e =>
                      e = Foreign OSError \/
                      (exists c out, loop (self st) <> 0%Z /\ c <> 0%Z /\
                         e = Foreign (CmdError (losetup_cmd (self st)) c out)) \/
                      (exists dev c out, c <> 0%Z /\
                         e = Foreign (CmdError (mount_cmd st mnt arg args dev) c out))
                  end).
        -- apply ends_process_run.
           ++ split; [exact F3|]. split; [|now left].
              now apply mount_progress_mount, mount_progress_not_past with (past := true).
           ++ intros c out _. split; [exact F3|]. split; [now apply mount_progress_mount|trivial].
           ++ intros c out Hc _. split; [exact F3|]. split; [|right; right; eauto].
              now apply mount_progress_mount, mount_progress_not_past with (past := true).
        -- intros r s' (H1 & H2 & _). apply ends_ret. split; [exact H1|split; [exact H2|trivial]].
        -- intros e s' H. exact H.
      * intros z s' (H1 & H2 & _). apply ends_ret. split; [exact H1|split; [exact H2|trivial]].
      * intros e s' H. exact H.
    + intros e s' (H1 & H2 & H3). split; [exact H1|]. split; [exact H2|]. tauto.
  - intros [] s' H. exact H.
  - intros e s' (H1 & H2 & He).
    destruct He as [->|[(c & out & HL & Hc & ->)|(dev & c & out & Hc & ->)]];
      cbn [except_CmdError].
    + split; [exact H1|]. split; [exact H2|constructor].
    + apply ends_raise. split; [exact H1|]. split; [exact H2|]. now apply mount_no_attach.
    + apply ends_raise. split; [exact H1|]. split; [exact H2|]. now apply mount_not_mounted.
Qed.

End MountBlock.

Section MountRun.
Variable env : Env.

(** [mount], from start to end. *)
Lemma mount_ends mnt arg args chk st :
  ends (mount env mnt arg args chk) st (fun r s =>
    mount_progress st mnt arg args chk (is_ok r) s /\
    match r with
    | Ok _ => fstype (self s) = mount_fstype st arg
    | Raise e => mount_failure st mnt arg args chk e
    end).
Proof.
  pose proof (mount_fstype_after env mnt arg args chk st) as FA.
  destruct (truthy_opt (mount_target st mnt)) eqn:HT.
  2: { unfold ends. rewrite mount_no_target by assumption. cbn [fst snd]. split.
       - split; [reflexivity|]. exists []. rewrite app_nil_r. split; [reflexivity|].
         split; [constructor|]. left. split; [reflexivity|discriminate].
       - now constructor. }
  assert (G : ends (mount env mnt arg args chk) st (fun r s =>
                mount_progress st mnt arg args chk (is_ok r) s /\
                match r with
                | Ok _ => True
                | Raise e => mount_failure st mnt arg args chk e
                end)).
  { unfold ends. rewrite mount_unfold by assumption.
    set (sa := with_self _ st).
    assert (Sa : settings (self sa) = settings (self st)) by (subst sa; now destruct arg).
    assert (Da : device (self sa) = device (self st)) by (subst sa; now destruct arg).
    change (ends (with_MtabLock env
                    (mount_locked env (value (mount_target st mnt))
                       (mount_args (self st) (mount_fstype st arg) args) chk) ;;;
                  set_fstype (mount_fstype st arg)) sa
              (fun r s => mount_progress st mnt arg args chk (is_ok r) s /\
                          match r with
                          | Ok _ => True
                          | Raise e => mount_failure st mnt arg args chk e
                          end)).
    assert (P0 : mount_progress st mnt arg args chk false sa).
    { split; [exact Sa|]. exists []. rewrite app_nil_r. split; [reflexivity|].
      split; [constructor|]. left. split; [exact Da|discriminate]. }
    eapply ends_bind with
      (R := fun r s => mount_progress st mnt arg args chk (is_ok r) s /\
                       match r with
                       | Ok _ => True
                       | Raise e => mount_failure st mnt arg args chk e
                       end).
    - apply with_MtabLock_ends.
      + intros o c H. split; [|apply mount_no_lock; tauto].
        apply (mount_progress_more st mnt arg args chk false sa _ [ELock o]); trivial.
        constructor; [|constructor]. intros d. exact I.
      + split; [|constructor].
        apply (mount_progress_more st mnt arg args chk false sa _
                 [ELock Acquired; EOpen MtabLock_device false]); trivial.
        constructor; [intros d; exact I|constructor; [intros d; reflexivity|constructor]].
      + eapply ends_weaken; [apply (mount_locked_ends env st mnt arg args chk (entered sa))|].
        * exists [ELock Acquired; EOpen MtabLock_device true]. split; [reflexivity|].
          constructor; [intros d; exact I|constructor; [intros d; reflexivity|constructor]].
        * exact Sa.
        * exact Da.
        * intros r s (_ & PG & Hr). split; [|exact Hr].
          apply (mount_progress_more st mnt arg args chk (is_ok r) s _ [EUnlock]); trivial.
          constructor; [|constructor]. intros d. exact I.
    - intros [] s [PG _]. unfold ends, set_fstype. cbn [fst snd]. split; [|trivial].
      apply (mount_progress_more st mnt arg args chk true s _ []); trivial.
      cbn. now rewrite app_nil_r.
    - intros e s H. exact H. }
  unfold ends in *. destruct (mount env mnt arg args chk st) as [[[]|e] s]; cbn [fst snd] in *.
  - split; [apply G|exact FA].
  - exact G.
Qed.

End MountRun.

(** *** The run of [mkfs] *)

Section MkfsRun.
Variable env : Env.

Lemma mkfs_fstype_truthy p arg : truthy (mkfs_fstype p arg) = true.
Proof.
  unfold mkfs_fstype. destruct arg as [a|]; cbn [truthy_opt value].
  - destruct (truthy a) eqn:E; [exact E|].
    destruct (fstype p) as [f|]; cbn [truthy_opt value]; [|reflexivity].
    destruct (truthy f) eqn:E'; [exact E'|reflexivity].
  - destruct (fstype p) as [f|]; cbn [truthy_opt value]; [|reflexivity].
    destruct (truthy f) eqn:E'; [exact E'|reflexivity].
Qed.

Lemma extend_log e evs st : log e (extend evs st) = extend (evs ++ [e]) st.
Proof. unfold log, extend. cbn. now rewrite <- app_assoc. Qed.

Lemma log_extend e st : log e st = extend [e] st.
Proof. reflexivity. Qed.

Lemma list_mount_devices_steps st :
  ends (list_mount_devices env) st (fun r s =>
    match r with
    | Ok _ => exists o1 o2, s = extend [ERun "mount" false o1; ERun "swapon -s" false o2] st
    | Raise e =>
        (e = Foreign OSError \/ e = IndexError) /\
        exists o1, s = extend [ERun "mount" false o1] st \/
                   exists o2, s = extend [ERun "mount" false o1; ERun "swapon -s" false o2] st
    end).
Proof.
  unfold list_mount_devices.
  eapply ends_bind; [apply process_getoutput_ends| |].
  - intros out s [[o ->] _]. rewrite log_extend.
    eapply ends_bind with
      (R := fun r s => s = extend [ERun "mount" false o] st /\
                       match r with Ok _ => True | Raise e => e = IndexError end).
    + apply ends_lift. split; [reflexivity|].
      destruct (comprehension _ _) eqn:C; [trivial|].
      now apply comprehension_getitem_raise in C.
    + intros devs s [-> _].
      eapply ends_bind; [apply process_getoutput_ends| |].
      * intros out2 s [[o2 ->] _]. rewrite extend_log. cbn [app]. cbv zeta.
        eapply ends_bind with
          (R := fun r s => s = extend [ERun "mount" false o; ERun "swapon -s" false o2] st /\
                           match r with Ok _ => True | Raise e => e = IndexError end).
        -- apply ends_lift. split; [reflexivity|].
           destruct (comprehension _ _) eqn:C; [trivial|].
           now apply comprehension_getitem_raise in C.
        -- intros more s [-> _]. apply ends_ret. exists o, o2. reflexivity.
        -- intros e s [-> ->]. split; [tauto|]. exists o. right. now exists o2.
      * intros e s [[o2 ->] ->]. rewrite extend_log. cbn [app]. split; [tauto|].
        exists o. right. now exists o2.
    + intros e s [-> ->]. split; [tauto|]. exists o. now left.
  - intros e s [[o ->] ->]. rewrite log_extend.
    split; [tauto|]. exists o. now left.
Qed.

(** [mkfs], from start to end. *)
Lemma mkfs_ends arg args st :
  ends (mkfs env arg args) st (fun r s =>
    match r with
    | Ok _ =>
        exists o1 o2 out,
          s = with_self (with_fstype (Some (mkfs_fstype (self st) arg)) (self st))
                (extend [ERun "mount" false o1; ERun "swapon -s" false o2;
                         ERun (mkfs_line st arg args) false (Exited 0 out)] st)
    | Raise e =>
        mkfs_failure st arg args e /\
        exists evs, s = extend evs st /\ Forall (mkfs_event st arg args) evs
    end).
Proof.
  assert (E1 : forall o, mkfs_event st arg args (ERun "mount" false o))
    by (intros o; split; tauto).
  assert (E2 : forall o, mkfs_event st arg args (ERun "swapon -s" false o))
    by (intros o; split; tauto).
  assert (E3 : forall o, mkfs_event st arg args (ERun (mkfs_line st arg args) false o))
    by (intros o; split; tauto).
  unfold mkfs.
  eapply ends_bind; [apply list_mount_devices_steps| |].
  - intros devs s (o1 & o2 & ->). apply ends_get_self_bind. cbn [self extend].
    destruct (mem (device (self st)) devs).
    + apply ends_raise. split; [constructor|]. eexists. split; [reflexivity|].
      constructor; [apply E1|constructor; [apply E2|constructor]].
    + cbv zeta. fold (mkfs_line st arg args).
      change ("yes | " ++ mkfs_cmd (self st) (mkfs_fstype (self st) arg) args)
        with (mkfs_line st arg args).
      unfold ends, bind, try_except, process_system_output, bind. rewrite process_run_eq.
      cbn [trace extend].
      destruct (spawn env _ (mkfs_line st arg args) false) as [c out|]; cbn.
      * rewrite orb_false_r. destruct (c =? 0)%Z eqn:Ec; cbn.
        -- apply Z.eqb_eq in Ec. subst c. exists o1, o2, out.
           unfold with_self, extend, log. cbn. now rewrite <- app_assoc.
        -- apply Z.eqb_neq in Ec. split; [now constructor|].
           eexists. rewrite extend_log. split; [reflexivity|]. cbn [app].
           constructor; [apply E1|constructor; [apply E2|constructor; [apply E3|constructor]]].
      * split; [constructor|]. eexists. rewrite extend_log. split; [reflexivity|].
        cbn [app].
        constructor; [apply E1|constructor; [apply E2|constructor; [apply E3|constructor]]].
  - intros e s [He [o1 [->|[o2 ->]]]];
      (split; [destruct He as [-> | ->]; constructor|]);
      (eexists; split; [reflexivity|]).
    + constructor; [apply E1|constructor].
    + constructor; [apply E1|constructor; [apply E2|constructor]].
Qed.

End MkfsRun.

(** *** The listings *)























Section Listings.
Variable env : Env.



End Listings.

(** *** Outcomes, commands and lookups *)


(** X6.  What [unmount] does to the system.  It leaves the partition object
    as it is, and besides taking the lock and reading the two mount tables
    it only runs, with elevated privileges, umount on the recorded mount
    point, losetup -d on the device of a loop-backed partition and, when
    forcing is enabled, lsof, umount -f and umount -l on the recorded mount
    point and kill -9. *)
Theorem unmount_runs_only_its_commands env force st :
  self (snd (unmount env force st)) = self st /\
  exists evs,
    trace (snd (unmount env force st)) = (trace st ++ evs)%list /\
    Forall (unmount_event force (self st)) evs.
Proof.
  pose proof (unmount_ends env force st) as (H1 & H2 & _). split; [exact H1|exact H2].
Qed.

Lemma no_command_events (P : Event -> Prop) evs :
  (forall cmd sudo o, ~ P (ERun cmd sudo o)) -> Forall P evs -> commands evs = [].
Proof.
  intros HP F. induction F as [|e evs He _ IH]; [reflexivity|].
  destruct e; cbn; try exact IH. now apply HP in He.
Qed.

(** X7.  [mount] does not record the mount point it is given, and [unmount]
    only looks for the recorded one.  For a partition built without a mount
    point, whatever was mounted by [mount] with an explicit mount point, a
    following [unmount] runs no command at all, and the status it returns,
    if any, is 1. *)
Theorem unmount_without_a_recorded_mountpoint env st mnt arg args chk force :
  mountpoint (self st) = None ->
  let st1 := snd (mount env mnt arg args chk st) in
  mountpoint (self st1) = None /\
  commands (trace (snd (unmount env force st1))) = commands (trace st1) /\
  forall v, fst (unmount env force st1) = Ok v -> v = 1%Z.
Proof.
  intros HM st1.
  assert (H1 : mountpoint (self st1) = None).
  { pose proof (mount_ends env mnt arg args chk st) as [(HS & _) _].
    fold st1 in HS. unfold settings in HS. congruence. }
  split; [exact H1|].
  pose proof (unmount_ends env force st1) as (_ & (evs & T & F) & HR). split.
  - rewrite T, commands_app, (no_command_events (unmount_event force (self st1)) evs);
      [apply app_nil_r| |exact F].
    intros cmd sudo o [_ (m & Hm & _)]. congruence.
  - intros v E. rewrite E in HR. destruct HR as [HR|(_ & _ & HR)]; [exact HR|congruence].
Qed.

(** X8.  How [mount] fails.  Without a mount point, given or recorded, it
    raises at once and leaves the state as it was: no lock, no command, no
    type recorded.  Otherwise what it raises is a PartitionError for the
    lock, for a check that is enabled, or "Mount failed" with the failing
    losetup or mount command as its cause, or else an OSError, or an
    IndexError of the listings when the check is enabled: never a bare
    command error. *)
Theorem mount_outcomes env mnt arg args chk st :
  match fst (mount env mnt arg args chk st) with
  | Ok _ => truthy_opt (mount_target st mnt) = true
  | Raise e => mount_failure st mnt arg args chk e
  end /\
  (truthy_opt (mount_target st mnt) = false ->
   mount env mnt arg args chk st =
     (Raise (PartitionError
               "No mountpoint specified and no default provided to this partition object"
               None), st)).
Proof.
  split; [|apply mount_no_target].
  pose proof (mount_ends env mnt arg args chk st) as [_ H].
  destruct (mount env mnt arg args chk st) as [[[]|e] s] eqn:E; cbn [fst snd] in *; [|exact H].
  now destruct (mount_ok env _ _ _ _ _ _ E).
Qed.

(** X9.  What [mount] does to the system.  It changes nothing of the
    partition but the recorded type and the device.  Besides the lock,
    /etc/mtab and the directory of the mount point, it only runs the two
    listings (when the check is enabled), losetup --find --show for a
    loop-backed partition and the mount command: never a detach.  The
    device changes only through an attach that succeeded, to the output of
    losetup stripped, and stays so when the mount command fails afterwards;
    a mount of a loop-backed partition that succeeds has attached it. *)
Theorem mount_runs_only_its_commands env mnt arg args chk st :
  let r := fst (mount env mnt arg args chk st) in
  let s := snd (mount env mnt arg args chk st) in
  settings (self s) = settings (self st) /\
  exists evs,
    trace s = (trace st ++ evs)%list /\
    Forall (mount_event st mnt arg args chk (device (self s))) evs /\
    (device (self s) = device (self st) /\ (is_ok r = true -> loop (self st) = 0%Z) \/
     exists lo, In (ERun (losetup_cmd (self st)) true (Exited 0 lo)) evs).
Proof.
  cbv zeta. pose proof (mount_ends env mnt arg args chk st) as [H _]. exact H.
Qed.

(** X10.  [unmount] detaches what [mount] attached.  After a mount of a
    loop-backed partition that succeeds, the device of the partition is the
    loop device that losetup printed, and the only losetup command that a
    following [unmount] can run is the detach of that loop device. *)
Theorem unmount_detaches_what_mount_attached env mnt arg args chk st st1 force :
  loop (self st) <> 0%Z ->
  mount env mnt arg args chk st = (Ok tt, st1) ->
  exists lo,
    In (ERun (losetup_cmd (self st)) true (Exited 0 lo)) (trace st1) /\
    device (self st1) = strip lo /\
    exists evs,
      trace (snd (unmount env force st1)) = (trace st1 ++ evs)%list /\
      forall cmd, In cmd (commands evs) -> startswith cmd "losetup" = true ->
        cmd = "losetup -d " ++ strip lo.
Proof.
  intros HL HM.
  pose proof (mount_ends env mnt arg args chk st) as H. unfold ends in H.
  rewrite HM in H. cbn [fst snd is_ok] in H. destruct H as [(_ & evs & T & F & D) _].
  destruct D as [[_ D]|[lo D]]; [now specialize (D eq_refl)|].
  exists lo.
  assert (HD : device (self st1) = strip lo).
  { rewrite Forall_forall in F. specialize (F _ D). cbn in F.
    destruct F as [(_ & A & _)|[(_ & _ & _ & A)|[_ A]]].
    - discriminate A.
    - now apply A.
    - exfalso. unfold losetup_cmd, mount_cmd in A. discriminate A. }
  split; [rewrite T; apply in_or_app; now right|]. split; [exact HD|].
  pose proof (unmount_ends env force st1) as (_ & (evs' & T' & F') & _).
  exists evs'. split; [exact T'|]. intros cmd HI HS.
  clear - HI HS F' HD. induction F' as [|e evs' He _ IH]; [contradiction|].
  destruct e; cbn in HI; auto. destruct HI as [<-|HI]; [|auto].
  destruct He as (_ & m & _ & [->|[(_ & [->|[[pid ->]|[->| ->]]])|[_ ->]]]);
    try discriminate HS.
  now rewrite HD.
Qed.

(** X11.  How [mkfs] ends.  When it succeeds it has run three commands, none
    with elevated privileges: the two listings and the formatting command,
    which exited with status 0; it has recorded the filesystem type it
    settled on, never an empty one, and changed nothing else.  When it
    fails it has changed nothing of the partition and taken no lock, it has
    run those commands only, and it raises "Unable to format mounted
    device", "Failed to mkfs" with the formatting command as its cause, an
    OSError, or an IndexError of the listings. *)
Theorem mkfs_outcomes env arg args st :
  match mkfs env arg args st with
  | (Ok _, s) =>
      truthy (mkfs_fstype (self st) arg) = true /\
      exists o1 o2 out,
        s = with_self (with_fstype (Some (mkfs_fstype (self st) arg)) (self st))
              (extend [ERun "mount" false o1; ERun "swapon -s" false o2;
                       ERun (mkfs_line st arg args) false (Exited 0 out)] st)
  | (Raise e, s) =>
      mkfs_failure st arg args e /\
      exists evs, s = extend evs st /\ Forall (mkfs_event st arg args) evs
  end.
Proof.
  pose proof (mkfs_ends env arg args st) as H. unfold ends in H.
  destruct (mkfs env arg args st) as [[[]|e] s]; cbn [fst snd] in H; [|exact H].
  split; [apply mkfs_fstype_truthy|exact H].
Qed.

(** X12.  [mount] after [mkfs].  A mount without a filesystem type that
    follows a successful [mkfs] passes, as its last option, -t with the type
    that [mkfs] settled on, and that type stays recorded. *)
Theorem mount_after_mkfs env arg args st st1 mnt args' chk st2 :
  mkfs env arg args st = (Ok tt, st1) ->
  mount env mnt None args' chk st1 = (Ok tt, st2) ->
  let ft := mkfs_fstype (self st) arg in
  fstype (self st2) = Some ft /\
  exists tr out,
    trace st2 =
      (tr ++ [ERun ("mount " ++
                    lstrip ((if truthy_opt (mount_options (self st))
                             then args' ++ " -o " ++ value (mount_options (self st))
                             else args') ++ " -t " ++ ft)
                    ++ " " ++ device (self st2) ++ " " ++ value (mount_target st mnt))
                true (Exited 0 out);
              EUnlock])%list.
Proof.
  intros HK HM ft.
  pose proof (mkfs_ends env arg args st) as K. unfold ends in K. rewrite HK in K.
  cbn [fst snd] in K. destruct K as (o1 & o2 & out & ->).
  pose proof (mkfs_fstype_truthy (self st) arg) as HT.
  destruct (mount_ok env _ _ _ _ _ _ HM) as (_ & F & tr & out' & T).
  cbn [mount_fstype self with_self with_fstype fstype] in F. split; [exact F|].
  exists tr, out'. rewrite T. unfold mount_args, mount_fstype, mount_target.
  cbn [self with_self with_fstype fstype mount_options mountpoint extend truthy_opt value].
  fold ft. unfold ft at 1. now rewrite HT.
Qed.

(** X13.  When the lock cannot be obtained, [unmount] and [mount] (given a
    mount point) raise PartitionError "Unable to obtain '/etc/mtab' lock in
    60s" with the failure of the lock as its cause, having read no file and
    run no command; [unmount] leaves the partition as it is, [mount] has
    only recorded the filesystem type it was given. *)
Theorem lock_not_obtained env st mnt arg args chk force :
  lock_enter env (trace st) <> Acquired ->
  exists c,
    (c = LockFailed \/ c = AlreadyLocked) /\
    unmount env force st =
      (Raise (PartitionError lock_reason (Some c)), log (ELock (lock_enter env (trace st))) st) /\
    (truthy_opt (mount_target st mnt) = true ->
     mount env mnt arg args chk st =
       (Raise (PartitionError lock_reason (Some c)),
        log (ELock (lock_enter env (trace st)))
          (with_self (with_fstype (mount_fstype st arg) (self st)) st))).
Proof.
  intros HL. pose proof (MtabLock_enter_cases env st) as C.
  assert (C' : forall p, MtabLock_enter env (with_self p st) =
                         (fst (MtabLock_enter env st),
                          log (ELock (lock_enter env (trace st))) (with_self p st))).
  { intros p. pose proof (MtabLock_enter_cases env (with_self p st)) as Cp.
    cbn [trace with_self] in Cp.
    destruct (lock_enter env (trace st)); [congruence| |]; now rewrite Cp, C. }
  destruct (lock_enter env (trace st)) eqn:E; [congruence| |].
  - exists LockFailed. split; [now left|]. split.
    + unfold unmount, bind, with_MtabLock. now rewrite C.
    + intros HT. rewrite mount_unfold by assumption. unfold bind, with_MtabLock.
      rewrite C', C. cbn [fst]. unfold mount_fstype. destruct arg; [reflexivity|].
      now destruct st as [[] ? ? ?].
  - exists AlreadyLocked. split; [now right|]. split.
    + unfold unmount, bind, with_MtabLock. now rewrite C.
    + intros HT. rewrite mount_unfold by assumption. unfold bind, with_MtabLock.
      rewrite C', C. cbn [fst]. unfold mount_fstype. destruct arg; [reflexivity|].
      now destruct st as [[] ? ? ?].
Qed.

(** X14.  [get_mountpoint()] looks the partition up soundly and completely.
    When /proc/mounts and /etc/mtab can be read and every line has its two
    fields, it returns the mount point [m] exactly when [m] is the recorded
    mount point and either /proc/mounts has an entry of the device on [m],
    or [m] is the root and /etc/mtab has one; otherwise it returns None.
    So it never returns a mount point other than the recorded one. *)
Theorem get_mountpoint_finds_the_entry env st l1 l2 :
  file_lines env (trace st) "/proc/mounts" = Some l1 ->
  file_lines env (trace st ++ [EOpen "/proc/mounts" true]) "/etc/mtab" = Some l2 ->
  two_fields l1 -> two_fields l2 ->
  (forall m,
     fst (get_mountpoint env None st) = Ok (Some m) <->
     mountpoint (self st) = Some m /\
     (mounted_on env (self st) m l1 \/ m = "/" /\ mounted_on env (self st) "/" l2)) /\
  (fst (get_mountpoint env None st) = Ok None \/
   exists m, fst (get_mountpoint env None st) = Ok (Some m)).
Proof.
  intros H1 H2 W1 W2. rewrite (get_mountpoint_default_eq env st l1 l2 H1 H2).
  destruct (scan_total env (self st) l1 W1) as [r1 E1].
  destruct (scan_total env (self st) l2 W2) as [r2 E2]. rewrite E1, E2.
  destruct r1 as [m1|]; cbn [truthy_opt].
  - destruct (scan_sound env _ _ _ E1) as (HM & HE & T). rewrite T. split; [|right; eauto].
    intros m. split.
    + intros [= <-]. split; [exact HM|now left].
    + intros [HM' _]. congruence.
  - destruct (eq_opt r2 (Some "/")) eqn:ER.
    + destruct r2 as [m2|]; [|discriminate]. cbn in ER. apply String.eqb_eq in ER. subst m2.
      destruct (scan_sound env _ _ _ E2) as (HM & HE & _). split; [|right; eauto].
      intros m. split.
      * intros [= <-]. split; [exact HM|right; now split].
      * intros [HM' _]. congruence.
    + split; [|now left]. intros m. split; [discriminate|].
      intros [HM [HE|[-> HE]]].
      * rewrite (scan_complete env _ _ _ W1 HM HE) in E1. discriminate.
      * rewrite (scan_complete env _ _ _ W2 HM HE) in E2. injection E2 as <-.
        discriminate ER.
Qed.

Lemma comprehension_getitem_ok i lines :
  Forall (fun l => (i < length (split l))%nat) lines ->
  comprehension (fun line => getitem (split line) i) lines
    = Ok (map (fun l => nth i (split l) "") lines).
Proof.
  induction 1 as [|l ls Hl _ IH]; [reflexivity|]. cbn [comprehension map]. unfold getitem at 1.
  destruct (nth_error (split l) i) as [w|] eqn:E.
  - rewrite IH. now rewrite (nth_error_nth _ _ _ E).
  - apply nth_error_None in E. lia.
Qed.

Lemma comprehension_getitem_short i lines :
  Exists (fun l => (length (split l) <= i)%nat) lines ->
  comprehension (fun line => getitem (split line) i) lines = Raise IndexError.
Proof.
  induction 1 as [l ls Hl|l ls _ IH]; cbn [comprehension]; unfold getitem at 1.
  - apply nth_error_None in Hl. now rewrite Hl.
  - destruct (nth_error (split l) i); [|reflexivity]. now rewrite IH.
Qed.

Lemma starts_with_slash_field l :
  startswith l "/" = true -> (0 < length (split l))%nat.
Proof.
  unfold startswith. intros H. destruct l as [|c l]; [discriminate|].
  assert (E : c = "/"%char).
  { cbn -[ascii_dec] in H. destruct (ascii_dec "/" c); [now subst|discriminate]. }
  subst c. destruct (first_token_prefix is_space "/"%char l eq_refl) as (w & ws & E & _).
  unfold split. rewrite E. cbn. lia.
Qed.


(** X16.  The listings and the lines they cannot read.  The lines of a
    listing are those of what the command prints once its final line feed
    is dropped, so an empty last line is not one of them.
    [list_mount_points] raises IndexError as soon as one of the lines of
    mount has fewer than three fields, and [list_mount_devices] as soon as
    one is blank.  What swapon -s prints never makes [list_mount_devices]
    fail: when no line of mount is blank and swapon can be started, it
    returns the first field of every line of mount, then of every line of
    swapon that starts with a slash. *)
Theorem listings_and_short_lines env st c out :
  spawn env (trace st) "mount" false = Exited c out ->
  (Exists (fun l => (length (split l) < 3)%nat) (splitlines (drop_final_LF out)) ->
   fst (list_mount_points env st) = Raise IndexError) /\
  (Exists (fun l => split l = []) (splitlines (drop_final_LF out)) ->
   fst (list_mount_devices env st) = Raise IndexError) /\
  (Forall (fun l => split l <> []) (splitlines (drop_final_LF out)) ->
   forall c' out',
     spawn env (trace st ++ [ERun "mount" false (Exited c out)]) "swapon -s" false
       = Exited c' out' ->
     fst (list_mount_devices env st) =
       Ok (map (fun l => nth 0 (split l) "") (splitlines (drop_final_LF out)) ++
           map (fun l => nth 0 (split l) "")
             (filter (fun l => startswith l "/") (splitlines (drop_final_LF out'))))%list).
Proof.
  intros HM. split; [|split].
  - intros HE. unfold list_mount_points, bind. rewrite process_getoutput_eq, HM.
    unfold lift. cbn [fst]. apply comprehension_getitem_short.
    eapply Exists_impl; [|exact HE]. cbn. intros l Hl. lia.
  - intros HE. unfold list_mount_devices. unfold bind at 1.
    rewrite process_getoutput_eq, HM. unfold bind at 1, lift.
    rewrite comprehension_getitem_short; [reflexivity|].
    eapply Exists_impl; [|exact HE]. cbn. intros l ->. cbn. lia.
  - intros HF c' out' HS. unfold list_mount_devices. unfold bind at 1.
    rewrite process_getoutput_eq, HM. unfold bind at 1, lift.
    rewrite comprehension_getitem_ok.
    2: { eapply Forall_impl; [|exact HF]. cbn. intros l Hl.
         destruct (split l); [congruence|cbn; lia]. }
    unfold bind at 1. rewrite process_getoutput_eq. cbn [trace log]. rewrite HS.
    cbv zeta. unfold bind, lift, ret. rewrite comprehension_getitem_ok; [reflexivity|].
    rewrite Forall_forall. intros l Hl. apply filter_In in Hl as [_ Hl].
    now apply starts_with_slash_field.
Qed.

(** X17.  The fields of the command lines.  The line that [mkfs] runs has
    exactly these fields, in this order: mkfs; -t and the type, unless the
    text "-t" occurs in the options; the fields of the caller's arguments;
    those of the partition's mkfs_flags; the force flags; the device.  The
    line that [mount] runs has: mount; the fields of the caller's
    arguments; -o and the mount options, if the partition has some; -t and
    the type, if one is known; the device; the mount point.  Arguments that
    are empty leave no field behind. *)
Theorem command_fields p ft args st mnt arg dev :
  split (mkfs_cmd p ft args) =
    ("mkfs" ::
     (if contains "-t" (mkfs_options p ft args) then [] else "-t" :: split ft) ++
     split args ++ split (mkfs_flags p) ++ force_flags p ft ++ split (device p))%list /\
  split (mount_cmd st mnt arg args dev) =
    ("mount" ::
     split args ++
     (if truthy_opt (mount_options (self st))
      then "-o" :: split (value (mount_options (self st))) else []) ++
     (if truthy_opt (mount_fstype st arg)
      then "-t" :: split (value (mount_fstype st arg)) else []) ++
     split dev ++ split (value (mount_target st mnt)))%list.
Proof.
  split; [apply split_mkfs_cmd|apply split_mount_cmd].
Qed.

(** *** The dependency plugin *)

Section DependencyPlugin.
Import Dependencies.
Context {Dependency Entry Config Task : Type}.
Variable dep_eqb : Dependency -> Dependency -> bool.
Variable to_runnable : Dependency -> Config -> Task.
Variable from_dictionary : Entry -> Dependency.
Variable open_json : string -> Loaded Entry.

Lemma flat_map_same {A B} (f g : A -> list B) l :
  (forall x, In x l -> f x = g x) -> flat_map f l = flat_map g l.
Proof.
  induction l as [|x l IH]; [reflexivity|]. intros H. cbn.
  rewrite (H x) by now left. f_equal. apply IH. intros y Hy. apply H. now right.
Qed.

Lemma rewire_shares d rs : forall h : Heap Dependency,
  NoDup rs ->
  (forall r, In r rs -> exists a, dependencies_of h r = Some a /\ a <> d) ->
  exists h',
    rewire d rs h = (Done tt, h') /\
    list_at h' d = (list_at h d ++ own h rs)%list /\
    (forall a, a <> d -> list_at h' a = list_at h a) /\
    (forall r, In r rs -> dependencies_of h' r = Some d) /\
    (forall r, ~ In r rs -> dependencies_of h' r = dependencies_of h r) /\
    allocated h' = allocated h.
Proof.
  induction rs as [|r rs IH]; intros h ND HH.
  - exists h. cbn. rewrite app_nil_r. repeat split; trivial. contradiction.
  - inversion ND as [|? ? Hr ND']; subst.
    destruct (HH r (or_introl eq_refl)) as (a & Ha & Had). cbn [rewire]. rewrite Ha.
    set (h1 := assign r d (extend d (list_at h a) h)).
    assert (K : forall r', r' <> r -> dependencies_of h1 r' = dependencies_of h r').
    { intros r' N. cbn. apply Nat.eqb_neq in N. now rewrite N. }
    assert (L : forall a', a' <> d -> list_at h1 a' = list_at h a').
    { intros a' N. cbn. apply Nat.eqb_neq in N. now rewrite N. }
    destruct (IH h1 ND') as (h' & E & HL & HO & HR & HN & HA).
    { intros r' Hr'. assert (N : r' <> r) by (intros ->; contradiction).
      rewrite (K r' N). apply HH. now right. }
    exists h'. split; [exact E|]. split; [|split; [|split; [|split]]].
    + rewrite HL. cbn [own flat_map]. rewrite Ha. cbn [list_at h1 assign extend].
      rewrite Nat.eqb_refl, <- app_assoc. f_equal. f_equal.
      unfold own. apply flat_map_same. intros r' Hr'.
      assert (N : r' <> r) by (intros ->; contradiction).
      rewrite (K r' N). destruct (HH r' (or_intror Hr')) as (a' & -> & Na').
      now apply L.
    + intros a' N. rewrite (HO a' N). now apply L.
    + intros r' [<-|Hr']; [|now apply HR].
      rewrite (HN r Hr). cbn. now rewrite Nat.eqb_refl.
    + intros r' N. rewrite HN by (intros H; apply N; now right).
      apply K. intros ->. apply N. now left.
    + rewrite HA. reflexivity.
Qed.

Section Keys.
Hypothesis dep_eqb_eq : forall x y, dep_eqb x y = true <-> x = y.

Let add (keys : list Dependency) (d : Dependency) : list Dependency :=
  if existsb (dep_eqb d) keys then keys else (keys ++ [d])%list.

Lemma existsb_In d keys : existsb (dep_eqb d) keys = true <-> In d keys.
Proof.
  rewrite existsb_exists. split.
  - intros (x & Hx & E). apply dep_eqb_eq in E. now subst.
  - intros H. exists d. split; [exact H|]. now apply dep_eqb_eq.
Qed.

Lemma keys_grow l : forall acc, exists more, fold_left add l acc = (acc ++ more)%list.
Proof.
  induction l as [|d l IH]; intros acc; [exists []; now rewrite app_nil_r|].
  cbn [fold_left]. unfold add at 2. destruct (existsb (dep_eqb d) acc).
  - apply IH.
  - destruct (IH (acc ++ [d])%list) as [more ->]. exists (d :: more).
    now rewrite <- app_assoc.
Qed.

Lemma keys_In l : forall acc d, In d (fold_left add l acc) <-> In d acc \/ In d l.
Proof.
  induction l as [|x l IH]; intros acc d; [cbn; tauto|].
  cbn [fold_left]. rewrite IH. unfold add. destruct (existsb (dep_eqb x) acc) eqn:E.
  - apply existsb_In in E. cbn. split; [tauto|]. intros [H|[<-|H]]; tauto.
  - rewrite in_app_iff. cbn. tauto.
Qed.

Lemma keys_NoDup l : forall acc, NoDup acc -> NoDup (fold_left add l acc).
Proof.
  induction l as [|x l IH]; intros acc H; [exact H|].
  cbn [fold_left]. apply IH. unfold add. destruct (existsb (dep_eqb x) acc) eqn:E; [exact H|].
  apply NoDup_app; [exact H|repeat constructor; intros []|].
  intros y Hy [<-|[]]. apply existsb_In in Hy. congruence.
Qed.

Lemma dict_fromkeys_app pre post :
  dict_fromkeys dep_eqb (pre ++ post)%list = fold_left add post (dict_fromkeys dep_eqb pre).
Proof. unfold dict_fromkeys. apply fold_left_app. Qed.

Lemma pre_test_runnables_eq l config :
  pre_test_runnables dep_eqb to_runnable (Some l) config =
    map (fun dependency => to_runnable dependency config) (dict_fromkeys dep_eqb l).
Proof. now destruct l. Qed.

(** X18.  [pre_test_runnables] resolves every dependency of the test once.
    The runnables it returns are those of the distinct dependencies of the
    test, in the order in which each occurs first; a test without
    dependencies (None or an empty list) gets none. *)
Theorem pre_test_runnables_once config :
  pre_test_runnables dep_eqb to_runnable None config = [] /\
  forall l,
    exists keys,
      pre_test_runnables dep_eqb to_runnable (Some l) config = map (fun d => to_runnable d config) keys /\
      NoDup keys /\
      (forall d, In d keys <-> In d l) /\
      (forall pre d post, l = (pre ++ d :: post)%list -> ~ In d pre ->
         exists pre' post',
           keys = (pre' ++ d :: post')%list /\ forall x, In x pre' <-> In x pre).
Proof.
  split; [reflexivity|]. intros l.
  exists (dict_fromkeys dep_eqb l). split; [apply pre_test_runnables_eq|].
  split; [apply keys_NoDup; constructor|].
  split; [intros d; unfold dict_fromkeys; fold add; rewrite keys_In; cbn; tauto|].
  intros pre d post -> HN.
  rewrite (dict_fromkeys_app pre (d :: post)). cbn [fold_left].
  assert (K : forall x, In x (dict_fromkeys dep_eqb pre) <-> In x pre)
    by (intros x; unfold dict_fromkeys; fold add; rewrite keys_In; cbn; tauto).
  unfold add at 2. destruct (existsb (dep_eqb d) (dict_fromkeys dep_eqb pre)) eqn:E.
  - apply existsb_In in E. apply K in E. contradiction.
  - destruct (keys_grow post (dict_fromkeys dep_eqb pre ++ [d])%list) as [more ->].
    exists (dict_fromkeys dep_eqb pre), more. split; [now rewrite <- app_assoc|exact K].
Qed.

End Keys.

(** X19.  [SuiteDependency.pre] gives all the tests of a suite one and the
    same list.  For a suite whose dependency file loads, and whose tests
    each hold a list of their own dependencies, every test holds afterwards
    the one new list, made of the dependencies of the file followed by the
    dependencies of all the tests of the suite: each test has inherited
    those of every other test, and [pre_test_runnables] resolves the same
    dependencies for all of them.  Runnables outside the suite and the
    lists that existed before are as they were, and [pre] goes on with the
    suites that follow. *)
Theorem suite_tests_share_one_list suite h path entries :
  dependency_file suite = Some path -> path <> "" ->
  open_json path = Entries entries ->
  NoDup (tests suite) -> hold_lists h (tests suite) ->
  exists h',
    (forall rest,
       pre from_dictionary open_json (suite :: rest) h =
       pre from_dictionary open_json rest h') /\
    (forall r, In r (tests suite) ->
       dependencies_of h' r = Some (allocated h) /\
       dependencies h' r = Some (map from_dictionary entries ++ own h (tests suite))%list) /\
    (forall config r1 r2, In r1 (tests suite) -> In r2 (tests suite) ->
       pre_test_runnables dep_eqb to_runnable (dependencies h' r1) config =
       pre_test_runnables dep_eqb to_runnable (dependencies h' r2) config) /\
    (forall r, ~ In r (tests suite) -> dependencies_of h' r = dependencies_of h r) /\
    (forall a, (a < allocated h)%nat -> list_at h' a = list_at h a).
Proof.
  intros HF HP HO ND HH.
  enough (exists h',
    pre_suite from_dictionary open_json suite h = (Done tt, h') /\
    (forall r, In r (tests suite) ->
       dependencies_of h' r = Some (allocated h) /\
       dependencies h' r = Some (map from_dictionary entries ++ own h (tests suite))%list) /\
    (forall config r1 r2, In r1 (tests suite) -> In r2 (tests suite) ->
       pre_test_runnables dep_eqb to_runnable (dependencies h' r1) config =
       pre_test_runnables dep_eqb to_runnable (dependencies h' r2) config) /\
    (forall r, ~ In r (tests suite) -> dependencies_of h' r = dependencies_of h r) /\
    (forall a, (a < allocated h)%nat -> list_at h' a = list_at h a)) as (h' & E & K).
  { exists h'. split; [|exact K]. intros rest. cbn [pre]. now rewrite E. }
  unfold pre_suite. rewrite HF.
  destruct (path =? "") eqn:EP; [apply String.eqb_eq in EP; contradiction|].
  unfold load. rewrite HO.
  set (d := allocated h).
  set (h1 := new_list (map from_dictionary entries) h).
  assert (K : forall a, a <> d -> list_at h1 a = list_at h a).
  { intros a N. cbn. apply Nat.eqb_neq in N. fold d. now rewrite N. }
  destruct (rewire_shares d (tests suite) h1 ND) as (h' & E & HL & HO' & HR & HN & _).
  { intros r Hr. destruct (HH r Hr) as (a & Ha & Hlt). exists a. split; [exact Ha|].
    subst d. lia. }
  assert (HD : list_at h' d = (map from_dictionary entries ++ own h (tests suite))%list).
  { rewrite HL. cbn [list_at h1 new_list]. fold d. rewrite Nat.eqb_refl. f_equal.
    unfold own. apply flat_map_same. intros r Hr. cbn [dependencies_of h1 new_list].
    destruct (HH r Hr) as (a & -> & Hlt). apply K. subst d. lia. }
  assert (HA : forall r, In r (tests suite) ->
               dependencies h' r =
                 Some (map from_dictionary entries ++ own h (tests suite))%list).
  { intros r Hr. unfold dependencies. rewrite (HR r Hr). cbn. now rewrite HD. }
  exists h'. split; [exact E|]. split; [|split; [|split]].
  - intros r Hr. split; [now apply HR|now apply HA].
  - intros config r1 r2 H1 H2. now rewrite (HA r1 H1), (HA r2 H2).
  - intros r N. now rewrite (HN r N).
  - intros a Hlt. rewrite HO' by (subst d; lia). apply K. subst d. lia.
Qed.

End DependencyPlugin.

(** ** The claims on the example hosts *)

Import Scenario.

Lemma quiet_unmounted (p : Partition) :
  Forall (fun line => names_device quiet p line = false) mounts ->
  unmounted quiet p.
Proof.
  intros H tr f _. exists mounts. split; [reflexivity|].
  unfold absent_from. rewrite Forall_forall in *. intros line HI. split; [|now apply H].
  destruct HI as [<-|[<-|[<-|[]]]]; vm_compute; discriminate.
Qed.

Lemma sdc1_unmounted : unmounted quiet sdc1.
Proof. apply quiet_unmounted. repeat constructor. Qed.

Lemma image_unmounted : unmounted quiet image.
Proof. apply quiet_unmounted. repeat constructor. Qed.

Lemma host_startable h :
  Forall (fun a => snd a <> NotStarted) (answers h) -> startable (host_env h).
Proof.
  intros H tr cmd sudo. cbn. induction H as [|[c o] l Ho _ IH]; cbn; [discriminate|].
  destruct (c =? cmd); [exact Ho|exact IH].
Qed.

Lemma busy_startable : startable busy.
Proof. apply host_startable. repeat constructor; discriminate. Qed.

(** C1 on a host whose /etc/mtab cannot be opened. *)
Lemma C1_lock_left_held_witness :
  (exists st', mount no_mtab None None "" true (fresh sdc1) = (Raise (Foreign OSError), st') /\
               lock_held st' = true) /\
  (exists st', unmount no_mtab true (fresh sdc1) = (Raise (Foreign OSError), st') /\
               lock_held st' = true).
Proof.
  assert (HL : lock_enter no_mtab (trace (fresh sdc1)) = Acquired) by reflexivity.
  assert (HF : file_lines no_mtab (trace (fresh sdc1) ++ [ELock Acquired]) MtabLock_device
               = None) by reflexivity.
  assert (HT : truthy_opt (mount_target (fresh sdc1) None) = true) by reflexivity.
  destruct (C1_lock_left_held_when_mtab_cannot_be_opened
              no_mtab (fresh sdc1) None None "" true true HL HF) as [HM HU].
  split; [exact (HM HT)|exact HU].
Defined.

(** C2 on /dev/sdc1, which the quiet host does not mount. *)
Lemma C2_unmount_of_absent_device_witness :
  lock_enter quiet (trace (fresh sdc1)) = Acquired /\
  unmounted quiet sdc1 /\
  fst (unmount quiet false (fresh sdc1)) = Ok 1%Z /\
  commands (trace (snd (unmount quiet false (fresh sdc1)))) = [].
Proof.
  assert (HL : lock_enter quiet (trace (fresh sdc1)) = Acquired) by reflexivity.
  split; [exact HL|]. split; [exact sdc1_unmounted|].
  destruct (proj1 (C2_unmount_of_absent_device_returns_1 quiet (fresh sdc1) false)
              HL sdc1_unmounted) as (st' & E & C & _).
  rewrite E. split; [reflexivity|exact C].
Defined.

(** C2, as stated, fails: the status returned for a device that is not
    mounted is the status of a clean unmount.  /dev/sdc1 is absent from the
    table and [unmount] returns 1; /dev/sdb1 is mounted, umount succeeds,
    and [unmount] returns 1 too. *)
Lemma C2_already_unmounted_is_plain_success :
  unmounted quiet sdc1 /\
  fst (unmount quiet true (fresh sdc1)) = Ok 1%Z /\
  commands (trace (snd (unmount quiet true (fresh sdc1)))) = [] /\
  commands (trace (snd (unmount quiet true (fresh sdb1)))) = ["umount /mnt/data"] /\
  fst (unmount quiet true (fresh sdb1)) = Ok 1%Z.
Proof.
  split; [exact sdc1_unmounted|].
  split; [vm_compute; reflexivity|]. split; [vm_compute; reflexivity|].
  split; vm_compute; reflexivity.
Qed.

(** C3 on the busy host: two PIDs, the forced unmount fails, the lazy one
    succeeds. *)
Lemma C3_forced_unmount_escalation_witness :
  startable busy /\
  fst (unmount busy true (fresh sdb1)) = Ok 2%Z /\
  commands (trace (snd (unmount busy true (fresh sdb1)))) =
    ["umount /mnt/data"; "lsof /mnt/data"; "kill -9 4242"; "kill -9 17";
     "umount -f /mnt/data"; "umount -l /mnt/data"].
Proof.
  split; [exact busy_startable|].
  set (st2 := snd (get_mountpoint busy None (entered (fresh sdb1)))).
  set (st3 := snd (_get_pids_on_mountpoint busy "/mnt/data"
                     (log (ERun "umount /mnt/data" true (Exited 32 "target is busy")) st2))).
  assert (HE : enters busy (fresh sdb1)) by (split; [reflexivity|discriminate]).
  assert (HG : get_mountpoint busy None (entered (fresh sdb1)) = (Ok (Some "/mnt/data"), st2))
    by (vm_compute; reflexivity).
  assert (HU : spawn busy (trace st2) ("umount " ++ "/mnt/data") true
               = Exited 32 "target is busy") by reflexivity.
  assert (Hs : 32%Z <> 0%Z) by discriminate.
  assert (HP : _get_pids_on_mountpoint busy "/mnt/data"
                 (log (ERun ("umount " ++ "/mnt/data") true (Exited 32 "target is busy")) st2)
               = (Ok [4242; 17]%Z, st3)) by (vm_compute; reflexivity).
  destruct (C3_forced_unmount_escalation busy (fresh sdb1) st2 "/mnt/data" 32
              "target is busy" [4242; 17]%Z st3 busy_startable HE HG HU Hs HP)
    as (o_q & kills & _ & HC & H).
  vm_compute in H. destruct H as [HR _]. split; [vm_compute; exact HR|].
  vm_compute. reflexivity.
Defined.

(** C3, as stated, fails: on a loop-backed partition the forced unmount
    succeeds and [unmount] still does not return 2, because the detach of
    the loop device fails afterwards. *)
Lemma C3_forced_success_without_status_2 :
  In (ERun "umount -f /mnt/loop" true (Exited 0 ""))
     (trace (snd (unmount busy_loop true (fresh loop0)))) /\
  fst (unmount busy_loop true (fresh loop0)) =
    Raise (PartitionError "Unable to cleanup loop device"
             (Some (CmdError "losetup -d /dev/loop0" 1 "device busy"))) /\
  fst (unmount busy_loop true (fresh loop0)) <> Ok 2%Z.
Proof.
  split; [vm_compute; tauto|]. split; [vm_compute; reflexivity|].
  vm_compute. discriminate.
Qed.

(** C4 on a host whose lsof finds no process and exits with status 1. *)
Lemma C4_enumeration_failure_witness :
  succeeded (spawn busy_no_holder [] "lsof /mnt/data" true) = false /\
  exists reason details,
    fst (_unmount_force busy_no_holder "/mnt/data" (fresh sdb1))
      = Raise (PartitionError reason details).
Proof.
  assert (HF : succeeded (spawn busy_no_holder (trace (fresh sdb1)) ("lsof " ++ "/mnt/data") true)
               = false) by reflexivity.
  split; [exact HF|].
  destruct (proj1 (proj2 (C4_enumeration_failure_aborts_recovery
                            busy_no_holder "/mnt/data" (fresh sdb1))) HF)
    as (reason & details & E).
  exists reason, details. now rewrite E.
Defined.

(** C4, as stated, fails: a query that finds no process is a query that
    fails.  lsof then prints nothing and exits with status 1, which is a
    CmdError like any other: [_get_pids_on_mountpoint] raises PartitionError
    instead of returning the empty list, and the forced unmount ends there,
    before any umount -f or umount -l. *)
Lemma C4_no_match_raises :
  spawn busy_no_holder [] "lsof /mnt/data" true = Exited 1 "" /\
  fst (_get_pids_on_mountpoint busy_no_holder "/mnt/data" (fresh sdb1)) =
    Raise (PartitionError ("Failure executing " ++ dquote ++ "lsof /mnt/data" ++ dquote)
             (Some (CmdError "lsof /mnt/data" 1 ""))) /\
  fst (_get_pids_on_mountpoint busy_no_holder "/mnt/data" (fresh sdb1)) <> Ok [] /\
  commands (trace (snd (unmount busy_no_holder true (fresh sdb1)))) =
    ["umount /mnt/data"; "lsof /mnt/data"].
Proof.
  split; [reflexivity|]. split; [vm_compute; reflexivity|].
  split; [vm_compute; discriminate|vm_compute; reflexivity].
Qed.

(** C5 on /dev/sdc1 mounted with an explicit type. *)
Lemma C5_mount_records_the_resolved_fstype_witness :
  fst (mount quiet None (Some "ext4") "" true (fresh sdc1)) = Ok tt /\
  fstype (self (snd (mount quiet None (Some "ext4") "" true (fresh sdc1)))) = Some "ext4" /\
  commands (trace (snd (mount quiet None (Some "ext4") "" true (fresh sdc1)))) =
    ["mount"; "swapon -s"; "mount"; "mount -t ext4 /dev/sdc1 /mnt/c"].
Proof.
  assert (HM : mount quiet None (Some "ext4") "" true (fresh sdc1) =
               (Ok tt, snd (mount quiet None (Some "ext4") "" true (fresh sdc1))))
    by (vm_compute; reflexivity).
  destruct (C5_mount_records_the_resolved_fstype quiet None (Some "ext4") "" true
              (fresh sdc1) _ HM) as (F & _ & _).
  split; [vm_compute; reflexivity|]. split; [exact F|vm_compute; reflexivity].
Defined.

(** C5, as stated, fails: [mount] has no default type.  A partition with no
    recorded type, mounted without a type, is mounted by a command that has
    no -t flag, and its recorded type is still unset afterwards, not ext2. *)
Lemma C5_mount_has_no_default_type :
  fstype sdc1 = None /\
  fst (mount quiet None None "" true (fresh sdc1)) = Ok tt /\
  commands (trace (snd (mount quiet None None "" true (fresh sdc1)))) =
    ["mount"; "swapon -s"; "mount"; "mount  /dev/sdc1 /mnt/c"] /\
  fstype (self (snd (mount quiet None None "" true (fresh sdc1)))) = None /\
  fstype (self (snd (mount quiet None None "" true (fresh sdc1)))) <> Some "ext2".
Proof.
  split; [reflexivity|]. split; [vm_compute; reflexivity|].
  split; [vm_compute; reflexivity|]. split; [vm_compute; reflexivity|].
  vm_compute. discriminate.
Qed.



(** C7.  The type flag is looked for as the text "-t" anywhere in the
    arguments, not as a flag.  With the arguments "-L my-test", which hold
    no type flag, [mkfs] for ext4 injects none: the command that runs is
    "mkfs -L my-test /dev/sdc1", and ext4 is recorded all the same. *)
Theorem C7_mkfs_type_flag_missed :
  mem "-t" (split "-L my-test") = false /\
  fst (mkfs quiet (Some "ext4") "-L my-test" (fresh sdc1)) = Ok tt /\
  commands (trace (snd (mkfs quiet (Some "ext4") "-L my-test" (fresh sdc1)))) =
    ["mount"; "swapon -s"; "yes | mkfs -L my-test /dev/sdc1"] /\
  mem "-t" (split (mkfs_cmd sdc1 "ext4" "-L my-test")) = false /\
  fstype (self (snd (mkfs quiet (Some "ext4") "-L my-test" (fresh sdc1)))) = Some "ext4".
Proof.
  split; [reflexivity|]. split; [vm_compute; reflexivity|].
  split; [vm_compute; reflexivity|]. split; vm_compute; reflexivity.
Qed.

(** C8 on three calls.  [mkfs] of /dev/sdc1 on the quiet host succeeds and
    records ext2.  A [mount] given xfs on the partition with ext4 recorded
    succeeds on the quiet host and records xfs; on the host where /dev/sdc1
    does not mount as xfs it fails with "Mount failed", and xfs stays
    recorded all the same. *)
Lemma C8_fstype_is_never_reverted_witness :
  (exists st',
     mkfs quiet None "" (fresh sdc1) = (Ok tt, st') /\ fstype (self st') = Some "ext2") /\
  fstype (self (fresh formatted)) = Some "ext4" /\
  (fst (mount quiet None (Some "xfs") "" true (fresh formatted)) = Ok tt /\
   fstype (self (snd (mount quiet None (Some "xfs") "" true (fresh formatted)))) =
     Some "xfs") /\
  (exists cause,
     fst (mount refusing None (Some "xfs") "" true (fresh formatted)) =
       Raise (PartitionError "Mount failed" cause)) /\
  fstype (self (snd (mount refusing None (Some "xfs") "" true (fresh formatted)))) =
    Some "xfs".
Proof.
  assert (HT : truthy_opt (mount_target (fresh formatted) None) = true) by reflexivity.
  split; [|split; [reflexivity|split; [split|split]]].
  - assert (E : mkfs quiet None "" (fresh sdc1) =
                 (Ok tt, snd (mkfs quiet None "" (fresh sdc1)))) by (vm_compute; reflexivity).
    pose proof (C8_fstype_is_never_reverted quiet (fresh sdc1) None "") as [H _].
    rewrite E in H. exists (snd (mkfs quiet None "" (fresh sdc1))).
    split; [exact E|exact H].
  - vm_compute. reflexivity.
  - exact (proj1 (proj2 (proj2 (C8_fstype_is_never_reverted quiet (fresh formatted)
                                  (Some "xfs") "") None true)) HT).
  - eexists. vm_compute. reflexivity.
  - exact (proj1 (proj2 (proj2 (C8_fstype_is_never_reverted refusing (fresh formatted)
                                  (Some "xfs") "") None true)) HT).
Defined.

(** C9 on a loop-backed image that is not mounted. *)
Lemma C9_detach_only_after_an_unmount_witness :
  (0 < loop image)%Z /\
  unmounted quiet image /\
  fst (unmount quiet true (fresh image)) = Ok 1%Z /\
  commands (trace (snd (unmount quiet true (fresh image)))) = [].
Proof.
  assert (H0 : (0 < loop (self (fresh image)))%Z) by reflexivity.
  assert (HL : lock_enter quiet (trace (fresh image)) = Acquired) by reflexivity.
  split; [exact H0|]. split; [exact image_unmounted|].
  destruct (proj1 (C9_detach_only_after_an_unmount quiet (fresh image) true)
              H0 HL image_unmounted) as (stL & _ & E & C).
  rewrite E. split; [reflexivity|exact C].
Defined.

(** C10 on a table with a blank line before the entry of /dev/sdb1. *)
Lemma C10_get_mountpoint_needs_two_fields_witness :
  split nl = [] /\
  fst (get_mountpoint blank_table (Some "/proc/mounts") (fresh sdb1)) = Raise IndexError.
Proof.
  assert (HB : split nl = []) by reflexivity.
  split; [exact HB|].
  assert (HT : truthy "/proc/mounts" = true) by reflexivity.
  assert (HF : file_lines blank_table (trace (fresh sdb1)) "/proc/mounts" =
               Some ([("/dev/sda1 / ext4 rw 0 0" ++ nl)%string] ++ nl ::
                     [("/dev/sdb1 /mnt/data ext4 rw 0 0" ++ nl)%string])%list) by reflexivity.
  assert (HP : get_mountpoint_scan blank_table (self (fresh sdb1))
                 ["/dev/sda1 / ext4 rw 0 0" ++ nl] = Ok None) by (vm_compute; reflexivity).
  exact (proj2 (C10_get_mountpoint_needs_two_fields blank_table "/proc/mounts" (fresh sdb1)
                  _ HT HF) _ nl _ eq_refl HP (or_introl HB)).
Defined.

(** C10, as stated, fails: the scan returns at the entry of the partition
    and skips a line of one field that is not the device.  A table with a
    blank line after the entry of /dev/sdb1, and a table with the line
    "tmpfs" before it, both give the mount point, although not every line
    of them has two fields. *)
Lemma C10_entry_found_despite_short_lines :
  split nl = [] /\
  fst (get_mountpoint blank_after (Some "/proc/mounts") (fresh sdb1)) = Ok (Some "/mnt/data") /\
  length (split ("tmpfs" ++ nl)) = 1%nat /\
  fst (get_mountpoint one_field (Some "/proc/mounts") (fresh sdb1)) = Ok (Some "/mnt/data") /\
  fst (get_mountpoint blank_after (Some "/proc/mounts") (fresh sdb1)) <> Raise IndexError.
Proof.
  split; [reflexivity|]. split; [vm_compute; reflexivity|].
  split; [reflexivity|]. split; [vm_compute; reflexivity|].
  vm_compute. discriminate.
Qed.


(** X2 on the arguments "-t ext4 -b 4096". *)
Lemma mkfs_type_flag_injection_witness :
  mkfs_cmd sdc1 "ext2" "-t ext4 -b 4096" = "mkfs -t ext4 -b 4096 /dev/sdc1" /\
  mkfs_cmd image "xfs" "" = "mkfs -t xfs  -f /tmp/disk.img".
Proof.
  split.
  - assert (H : mem "-t" (split "-t ext4 -b 4096") = true \/
                mem "-t" (split (mkfs_flags sdc1)) = true) by (left; reflexivity).
    rewrite (proj1 (mkfs_type_flag_injection sdc1 "ext2" "-t ext4 -b 4096") H).
    vm_compute. reflexivity.
  - assert (HA : contains "-t" "" = false) by reflexivity.
    assert (HF : contains "-t" (mkfs_flags image) = false) by reflexivity.
    rewrite (proj2 (mkfs_type_flag_injection image "xfs" "") HA HF).
    vm_compute. reflexivity.
Defined.

(** X4 on a backing file of 100 MiB. *)
Lemma Partition_init_fills_the_backing_file_witness :
  commands (trace (snd (Partition_init quiet "/tmp/disk.img" 100 None "" None (fresh sdc1)))) =
    ["dd if=/dev/zero of=/tmp/disk.img bs=1M count=100"].
Proof.
  assert (H : 100%Z <> 0%Z) by discriminate.
  rewrite (Partition_init_fills_the_backing_file quiet "/tmp/disk.img" 100 None "" None
             (fresh sdc1) H).
  vm_compute. reflexivity.
Defined.

(** ** The further properties on the example hosts *)

Import Cases.

(** X7 on /dev/sdb1 built without a mount point: mounted on /mnt/data by
    [mount], it is left mounted by [unmount], which runs nothing. *)
Lemma unmount_without_a_recorded_mountpoint_witness :
  mountpoint bare = None /\
  fst (mount quiet (Some "/mnt/data") None "" false (fresh bare)) = Ok tt /\
  commands (trace (snd (unmount quiet true
                          (snd (mount quiet (Some "/mnt/data") None "" false (fresh bare))))))
    = ["mount  /dev/sdb1 /mnt/data"] /\
  fst (unmount quiet true (snd (mount quiet (Some "/mnt/data") None "" false (fresh bare))))
    = Ok 1%Z.
Proof.
  assert (HM : mountpoint (self (fresh bare)) = None) by reflexivity.
  destruct (unmount_without_a_recorded_mountpoint quiet (fresh bare) (Some "/mnt/data") None ""
              false true HM) as (_ & C & V).
  split; [exact HM|]. split; [vm_compute; reflexivity|]. split.
  - rewrite C. vm_compute. reflexivity.
  - assert (E : exists v, fst (unmount quiet true
                                 (snd (mount quiet (Some "/mnt/data") None "" false (fresh bare))))
                          = Ok v) by (eexists; vm_compute; reflexivity).
    destruct E as [v E]. rewrite E. f_equal. exact (V v E).
Defined.

(** X8 on a partition without a mount point, mounted without one. *)
Lemma mount_outcomes_witness :
  mount quiet None (Some "ext4") "" true (fresh bare) =
    (Raise (PartitionError
              "No mountpoint specified and no default provided to this partition object"
              None), fresh bare).
Proof.
  assert (HT : truthy_opt (mount_target (fresh bare) None) = false) by reflexivity.
  exact (proj2 (mount_outcomes quiet None (Some "ext4") "" true (fresh bare)) HT).
Defined.

(** X10 on the backing file /tmp/disk.img, attached to /dev/loop0. *)
Lemma unmount_detaches_what_mount_attached_witness :
  exists lo,
    device (self (snd (mount attaching None None "" false (fresh disk)))) = strip lo /\
    exists evs,
      trace (snd (unmount attaching true
                    (snd (mount attaching None None "" false (fresh disk))))) =
        (trace (snd (mount attaching None None "" false (fresh disk))) ++ evs)%list /\
      forall cmd, In cmd (commands evs) -> startswith cmd "losetup" = true ->
        cmd = "losetup -d " ++ strip lo.
Proof.
  assert (HL : loop (self (fresh disk)) <> 0%Z) by discriminate.
  assert (HM : mount attaching None None "" false (fresh disk) =
               (Ok tt, snd (mount attaching None None "" false (fresh disk))))
    by (vm_compute; reflexivity).
  destruct (unmount_detaches_what_mount_attached attaching None None "" false (fresh disk) _
              true HL HM) as (lo & _ & HD & evs & T & HC).
  exists lo. split; [exact HD|]. exists evs. split; [exact T|exact HC].
Defined.

(** X12 on /dev/sdc1, formatted as ext4 and then mounted without a type. *)
Lemma mount_after_mkfs_witness :
  fstype (self (snd (mount quiet None None "" true
                       (snd (mkfs quiet (Some "ext4") "" (fresh sdc1)))))) = Some "ext4" /\
  commands (trace (snd (mount quiet None None "" true
                          (snd (mkfs quiet (Some "ext4") "" (fresh sdc1)))))) =
    ["mount"; "swapon -s"; "yes | mkfs -t ext4 /dev/sdc1";
     "mount"; "swapon -s"; "mount"; "mount -t ext4 /dev/sdc1 /mnt/c"].
Proof.
  assert (HK : mkfs quiet (Some "ext4") "" (fresh sdc1) =
               (Ok tt, snd (mkfs quiet (Some "ext4") "" (fresh sdc1))))
    by (vm_compute; reflexivity).
  assert (HM : mount quiet None None "" true (snd (mkfs quiet (Some "ext4") "" (fresh sdc1))) =
               (Ok tt, snd (mount quiet None None "" true
                              (snd (mkfs quiet (Some "ext4") "" (fresh sdc1))))))
    by (vm_compute; reflexivity).
  destruct (mount_after_mkfs quiet (Some "ext4") "" (fresh sdc1) _ None "" true _ HK HM)
    as [F _].
  split; [exact F|vm_compute; reflexivity].
Defined.

(** X13 on the host where the lock cannot be obtained. *)
Lemma lock_not_obtained_witness :
  exists c,
    unmount contended true (fresh sdb1) =
      (Raise (PartitionError lock_reason (Some c)), log (ELock NotAcquired) (fresh sdb1)).
Proof.
  assert (HL : lock_enter contended (trace (fresh sdb1)) <> Acquired) by discriminate.
  destruct (lock_not_obtained contended (fresh sdb1) None None "" true true HL)
    as (c & _ & HU & _).
  exists c. exact HU.
Defined.

(** X14 on /dev/sdb1, which the tables of the quiet host have on /mnt/data. *)
Lemma get_mountpoint_finds_the_entry_witness :
  two_fields mounts /\
  mounted_on quiet sdb1 "/mnt/data" mounts /\
  fst (get_mountpoint quiet None (fresh sdb1)) = Ok (Some "/mnt/data").
Proof.
  assert (H1 : file_lines quiet (trace (fresh sdb1)) "/proc/mounts" = Some mounts)
    by reflexivity.
  assert (H2 : file_lines quiet (trace (fresh sdb1) ++ [EOpen "/proc/mounts" true]) "/etc/mtab"
               = Some mounts) by reflexivity.
  assert (W : two_fields mounts).
  { unfold two_fields, mounts.
    constructor; [vm_compute; lia|]. constructor; [vm_compute; lia|].
    constructor; [vm_compute; lia|constructor]. }
  assert (M : mounted_on quiet (self (fresh sdb1)) "/mnt/data" mounts).
  { apply Exists_cons_tl, Exists_cons_hd. split; vm_compute; reflexivity. }
  split; [exact W|]. split; [exact M|].
  apply (proj2 (proj1 (get_mountpoint_finds_the_entry quiet (fresh sdb1) mounts mounts
                         H1 H2 W W) "/mnt/data")).
  split; [reflexivity|left; exact M].
Defined.


(** X16 on the host whose mount prints a blank line, then one field, and
    on the host whose mount ends with an empty line, which is not read. *)
Lemma listings_and_short_lines_witness :
  fst (list_mount_points ragged (fresh sdb1)) = Raise IndexError /\
  fst (list_mount_devices ragged (fresh sdb1)) = Raise IndexError /\
  fst (list_mount_devices trailing (fresh sdb1)) = Ok ["/dev/sda1"; "/dev/sda2"].
Proof.
  assert (HM : spawn ragged (trace (fresh sdb1)) "mount" false =
               Exited 0 ("/dev/sda1 on / type ext4 (rw)" ++ nl ++ nl ++ "tmpfs"))
    by reflexivity.
  assert (HT : spawn trailing (trace (fresh sdb1)) "mount" false =
               Exited 0 ("/dev/sda1 on / type ext4 (rw)" ++ nl ++ nl))
    by reflexivity.
  destruct (listings_and_short_lines ragged (fresh sdb1) 0 _ HM) as (HP & HD & _).
  destruct (listings_and_short_lines trailing (fresh sdb1) 0 _ HT) as (_ & _ & HL).
  split; [|split].
  - apply HP. apply Exists_cons_tl, Exists_cons_hd. vm_compute. lia.
  - apply HD. apply Exists_cons_tl, Exists_cons_hd. vm_compute. reflexivity.
  - assert (E : splitlines (drop_final_LF ("/dev/sda1 on / type ext4 (rw)" ++ nl ++ nl))
                = ["/dev/sda1 on / type ext4 (rw)"]) by (vm_compute; reflexivity).
    rewrite (HL ltac:(rewrite E; constructor; [intros K; vm_compute in K; discriminate K
                                              |constructor])
               0%Z (swapon_output ++ nl) eq_refl).
    vm_compute. reflexivity.
Defined.

(** X18 on a test that names gcc twice. *)
Lemma pre_test_runnables_once_witness :
  exists keys,
    Dependencies.pre_test_runnables String.eqb (fun d (_ : unit) => d)
      (Some ["gcc"; "make"; "gcc"]) tt = map (fun d => d) keys /\
    NoDup keys /\
    forall d, In d keys <-> In d ["gcc"; "make"; "gcc"].
Proof.
  destruct (proj2 (pre_test_runnables_once String.eqb (fun d (_ : unit) => d)
                     String.eqb_eq tt) ["gcc"; "make"; "gcc"])
    as (keys & E & N & I & _).
  exists keys. split; [exact E|]. split; [exact N|exact I].
Defined.

(** X19 on the suite of two tests: both end up with git, gcc and make. *)
Lemma suite_tests_share_one_list_witness :
  exists h',
    Dependencies.pre (fun e : string => e) files [suite] two_tests
      = (Dependencies.Done tt, h') /\
    Dependencies.dependencies h' 0 = Some ["git"; "gcc"; "make"] /\
    Dependencies.dependencies h' 1 = Some ["git"; "gcc"; "make"].
Proof.
  assert (HF : Dependencies.dependency_file suite = Some "deps.json") by reflexivity.
  assert (HP : "deps.json" <> "") by discriminate.
  assert (HO : files "deps.json" = Dependencies.Entries ["git"]) by reflexivity.
  assert (ND : NoDup (Dependencies.tests suite))
    by (repeat constructor; cbn; intuition discriminate).
  assert (HH : Dependencies.hold_lists two_tests (Dependencies.tests suite)).
  { intros r [<-|[<-|[]]]; eexists; (split; [reflexivity|cbn; lia]). }
  destruct (suite_tests_share_one_list String.eqb (fun d (_ : unit) => d) (fun e : string => e)
              files suite two_tests "deps.json" ["git"] HF HP HO ND HH)
    as (h' & E & HA & _).
  exists h'. split; [exact (E [])|]. split.
  - exact (proj2 (HA 0%nat (or_introl eq_refl))).
  - exact (proj2 (HA 1%nat (or_intror (or_introl eq_refl)))).
Defined.
